(** * timeout: a verification model of [src/timeout/timeout.cpp]

    The development embeds the POSIX build of the [Timeout] class (the
    [#else] branch of [#ifdef _WIN32]) together with [main], and the four
    process methods of the [_WIN32] build:

    - [Module Cxx]: the C++ standard library calls the program relies on
      ([std::stoi], [std::stod], [double] arithmetic, [operator<<] on [int]);
    - [Module Posix]: the operating system as the parent process sees it
      ([fork], [execvp] in the child, [waitpid], [kill], the steady clock and
      [sleep_for]);
    - the [Timeout] object, the monad [M] its methods run in, the methods
      themselves and [main];
    - [Module Windows]: the Win32 calls of the other build, its object and
      its methods;
    - the properties of the specification, proved or refuted on that model. *)

From Stdlib Require Import ZArith List String Ascii Bool Lia QArith.
From Stdlib Require Import DecimalString DecimalZ.
From Stdlib Require Import SpecFloat.
Import ListNotations.

Local Open Scope string_scope.
Local Open Scope Z_scope.

(* ================================================================== *)
(** * The C++ standard library, as far as the program uses it          *)
(* ================================================================== *)

Module Cxx.

(** [<climits>] for the usual 32-bit [int]. *)
Definition INT_MAX : Z := 2147483647.
Definition INT_MIN : Z := -2147483648.

Definition in_int (z : Z) : bool := (INT_MIN <=? z) && (z <=? INT_MAX).

(** Exceptions thrown by the numeric conversions of [<string>]. *)
Inductive exn : Type :=
| invalid_argument (what : string)
| out_of_range (what : string).

(** ** Characters ([<cctype>], "C" locale) *)

Definition code (c : ascii) : Z := Z.of_N (N_of_ascii c).

Definition isspace (c : ascii) : bool :=
  let n := code c in ((9 <=? n) && (n <=? 13)) || (n =? 32).

Definition isdigit (c : ascii) : bool :=
  let n := code c in (48 <=? n) && (n <=? 57).

Definition digit_val (c : ascii) : Z := code c - 48.

Definition tolower (c : ascii) : ascii :=
  let n := code c in
  if (65 <=? n) && (n <=? 90) then ascii_of_N (Z.to_N (n + 32)) else c.

Definition xdigit_val (c : ascii) : option Z :=
  let n := code c in
  if (48 <=? n) && (n <=? 57) then Some (n - 48)
  else if (97 <=? n) && (n <=? 102) then Some (n - 87)
  else if (65 <=? n) && (n <=? 70) then Some (n - 55)
  else None.

Definition isalnum_ (c : ascii) : bool :=
  let n := code c in
  ((48 <=? n) && (n <=? 57)) || ((97 <=? n) && (n <=? 122))
  || ((65 <=? n) && (n <=? 90)) || (n =? 95).

(** ** Scanning helpers

    Every scanner returns what it read and the rest of the input; the
    number of characters consumed is recovered from the lengths. *)

Fixpoint skip_space (l : list ascii) : list ascii :=
  match l with
  | c :: r => if isspace c then skip_space r else l
  | [] => []
  end.

(** Optional sign: [true] for a minus sign. *)
Definition scan_sign (l : list ascii) : bool * list ascii :=
  match l with
  | "-"%char :: r => (true, r)
  | "+"%char :: r => (false, r)
  | _ => (false, l)
  end.

(** Longest prefix of decimal digits, accumulated most significant digit
    first: returns the value, the number of digits and the rest. *)
Fixpoint scan_digits (acc : Z) (n : nat) (l : list ascii) : Z * nat * list ascii :=
  match l with
  | c :: r => if isdigit c then scan_digits (10 * acc + digit_val c) (S n) r
              else (acc, n, l)
  | [] => (acc, n, [])
  end.

Fixpoint scan_xdigits (acc : Z) (n : nat) (l : list ascii) : Z * nat * list ascii :=
  match l with
  | c :: r => match xdigit_val c with
              | Some d => scan_xdigits (16 * acc + d) (S n) r
              | None => (acc, n, l)
              end
  | [] => (acc, n, [])
  end.

(** Case-insensitive prefix test; on success the rest of the input. *)
Fixpoint scan_word (w l : list ascii) : option (list ascii) :=
  match w, l with
  | [], _ => Some l
  | a :: w', c :: r => if Ascii.eqb a (tolower c) then scan_word w' r else None
  | _ :: _, [] => None
  end.

Definition consumed (whole rest : list ascii) : nat :=
  (List.length whole - List.length rest)%nat.

(** ** [std::stoi(str)] (base 10, no position requested)

    [strtol] skips white space, reads an optional sign and the longest
    run of digits, and ignores whatever follows.  No digit at all:
    [std::invalid_argument].  A value outside [int]: [std::out_of_range]. *)
Definition stoi (str : string) : Z + exn :=
  let l := list_ascii_of_string str in
  let '(neg, l1) := scan_sign (skip_space l) in
  let '(v, n, _) := scan_digits 0 0 l1 in
  match n with
  | O => inr (invalid_argument "stoi")
  | S _ =>
      let r := if neg then - v else v in
      if in_int r then inl r else inr (out_of_range "stoi")
  end.

(** ** [double]: IEEE 754 binary64, round to nearest even *)
Module Double.

Definition double : Type := spec_float.

Definition prec : Z := 53.
Definition emax : Z := 1024.

(** Conversion of an integer (exact for the constants of the program). *)
Definition of_Z (z : Z) : double := binary_normalize prec emax z 0 false.

Definition mul (x y : double) : double := SFmul prec emax x y.

(** The exact value of a finite number, [m * 2^e] with its sign. *)
Definition Q_of_finite (s : bool) (m : positive) (e : Z) : Q :=
  let n := if s then Zneg m else Zpos m in
  match e with
  | Zneg p => Qmake n (2 ^ p)%positive
  | _ => inject_Z (n * 2 ^ e)
  end.

Definition to_Q (x : double) : option Q :=
  match x with
  | S754_zero _ => Some 0%Q
  | S754_finite s m e => Some (Q_of_finite s m e)
  | _ => None
  end.

(** IEEE comparison: numbers are ordered by their exact values, the
    infinities lie outside them, NaN is unordered. *)
Definition compare (x y : double) : option comparison :=
  match x, y with
  | S754_nan, _ | _, S754_nan => None
  | S754_infinity s1, S754_infinity s2 =>
      Some (if Bool.eqb s1 s2 then Eq else if s1 then Lt else Gt)
  | S754_infinity s, _ => Some (if s then Lt else Gt)
  | _, S754_infinity s => Some (if s then Gt else Lt)
  | _, _ =>
      match to_Q x, to_Q y with
      | Some p, Some q => Some (Qcompare p q)
      | _, _ => None
      end
  end.

(** [x < y] and [x > y] of C++. *)
Definition ltb (x y : double) : bool :=
  match compare x y with Some Lt => true | _ => false end.
Definition gtb (x y : double) : bool := ltb y x.

(** [static_cast<int>(x)]: the fractional part is discarded; the
    behaviour is undefined ([None]) when the truncated value does not
    fit an [int], hence also for NaN and the infinities. *)
Definition to_int (x : double) : option Z :=
  match to_Q x with
  | Some q =>
      let t := Z.quot (Qnum q) (Zpos (Qden q)) in
      if in_int t then Some t else None
  | None => None
  end.

(** Correctly rounded [n * b^e] for a positive [n], a base [b] of 10 or 2
    and any exponent, in the format of [prec] bits whose exponents end at
    [emax]: an integer is rounded by [binary_normalize], a proper fraction
    by the correctly rounded division. *)
Definition round_scaled (emax : Z) (neg : bool) (n : positive) (b : positive) (e : Z)
  : double :=
  match e with
  | Zneg p =>
      SFdiv prec emax (S754_finite neg n 0) (S754_finite false (b ^ p)%positive 0)
  | _ =>
      binary_normalize prec emax
        (if neg then Z.neg n * Z.pos b ^ e else Z.pos n * Z.pos b ^ e) 0 false
  end.

Definition of_scaled (neg : bool) (n : positive) (b : positive) (e : Z) : double :=
  round_scaled emax neg n b e.

(** Tininess of [n * b^e], detected after rounding as on x86: the number
    is rounded to [prec] bits as if the exponent had no lower bound, and is
    tiny when what comes out is smaller than the smallest normal number,
    [2^(2 - emax)].  Twice the exponent range stands for no bound: what
    lies below that range is tiny whichever way it is rounded. *)
Definition is_tiny (neg : bool) (n : positive) (b : positive) (e : Z) : bool :=
  match round_scaled (2 * emax) neg n b e with
  | S754_zero _ => true
  | S754_finite _ m ex => Z.pos (digits2_pos m) + ex <=? 2 - emax
  | _ => false
  end.

Definition exact_scaled (neg : bool) (n : positive) (b : positive) (e : Z) : Q :=
  let v := (inject_Z (Z.pos n) * Qpower (inject_Z (Z.pos b)) e)%Q in
  if neg then Qopp v else v.

Definition is_infinite (x : double) : bool :=
  match x with S754_infinity _ => true | _ => false end.

End Double.

Import Double.

(** ** [std::stod(str, &pos)]

    [strtod] skips white space, reads an optional sign and then the
    longest of: [inf] or [infinity], [nan] with an optional
    parenthesised tag (all three ignoring case), a hexadecimal constant
    [0x h.h p e], a decimal constant [d.d e x].  The result is the
    correctly rounded [double] and the number of characters consumed.
    Nothing converted: [std::invalid_argument].  [ERANGE], which glibc
    sets on overflow and on underflow, that is for a tiny number that the
    result does not render exactly: [std::out_of_range]. *)

(** Digits before and after the point, read by [scan]: the integer the
    digits spell, the number of digits in all, those after the point, and
    the rest of the input. *)
Definition scan_mantissa (scan : Z -> nat -> list ascii -> Z * nat * list ascii)
    (l : list ascii) : Z * nat * nat * list ascii :=
  let '(ip, ni, r1) := scan 0 O l in
  match r1 with
  | "."%char :: r2 =>
      let '(m, nf, r3) := scan ip O r2 in
      if Nat.eqb (ni + nf) 0 then (0, O, O, l) else (m, (ni + nf)%nat, nf, r3)
  | _ => (ip, ni, O, r1)
  end.

(** Exponent part introduced by the letter [mark] (lower case); it is
    read only if at least one digit follows the optional sign. *)
Definition scan_exponent (mark : ascii) (l : list ascii) : Z * list ascii :=
  match l with
  | c :: r =>
      if Ascii.eqb (tolower c) mark then
        let '(neg, r1) := scan_sign r in
        let '(v, n, r2) := scan_digits 0 O r1 in
        match n with
        | O => (0, l)
        | S _ => (if neg then - v else v, r2)
        end
      else (0, l)
  | [] => (0, l)
  end.

Definition skip_nan_tag (l : list ascii) : list ascii :=
  match l with
  | "("%char :: r =>
      (fix go (r : list ascii) : list ascii :=
         match r with
         | c :: r' => if isalnum_ c then go r'
                      else if Ascii.eqb c ")"%char then r' else l
         | [] => l
         end) r
  | _ => l
  end.

(** Rounding of the scanned number [m * b^e] and the [ERANGE] test. *)
Definition finish (neg : bool) (m : Z) (b : positive) (e : Z) (pos : nat)
  : (double * nat) + exn :=
  match m with
  | Zpos n =>
      let x := of_scaled neg n b e in
      if is_infinite x then inr (out_of_range "stod")
      else if is_tiny neg n b e
              && negb (match to_Q x with
                       | Some q => Qeq_bool q (exact_scaled neg n b e)
                       | None => false
                       end)
      then inr (out_of_range "stod")
      else inl (x, pos)
  | _ => inl (S754_zero neg, pos)
  end.

Definition stod_decimal (neg : bool) (whole l : list ascii) : (double * nat) + exn :=
  let '(m, n, nf, r) := scan_mantissa scan_digits l in
  match n with
  | O => inr (invalid_argument "stod")
  | S _ =>
      let '(e, r') := scan_exponent "e"%char r in
      finish neg m 10 (e - Z.of_nat nf) (consumed whole r')
  end.

Definition stod_hex (neg : bool) (whole l : list ascii) : option ((double * nat) + exn) :=
  let '(m, n, nf, r) := scan_mantissa scan_xdigits l in
  match n with
  | O => None
  | S _ =>
      let '(e, r') := scan_exponent "p"%char r in
      Some (finish neg m 2 (e - 4 * Z.of_nat nf) (consumed whole r'))
  end.

Definition stod (str : string) : (double * nat) + exn :=
  let whole := list_ascii_of_string str in
  let '(neg, l) := scan_sign (skip_space whole) in
  match scan_word (list_ascii_of_string "infinity") l with
  | Some r => inl (S754_infinity neg, consumed whole r)
  | None =>
  match scan_word (list_ascii_of_string "inf") l with
  | Some r => inl (S754_infinity neg, consumed whole r)
  | None =>
  match scan_word (list_ascii_of_string "nan") l with
  | Some r => inl (S754_nan, consumed whole (skip_nan_tag r))
  | None =>
  match scan_word (list_ascii_of_string "0x") l with
  | Some r =>
      match stod_hex neg whole r with
      | Some res => res
      | None => stod_decimal neg whole l
      end
  | None => stod_decimal neg whole l
  end end end end.

(** ** [std::ostream << int]: the decimal numeral, with [-] when negative. *)
Definition show_int (z : Z) : string := NilZero.string_of_int (Z.to_int z).

End Cxx.

(* ================================================================== *)
(** * The operating system, as the parent process sees it               *)
(* ================================================================== *)

(** Signal numbers come from the platform's [<signal.h>]. *)
Class Platform : Type := {
  SIGHUP : Z;
  SIGINT : Z;
  SIGKILL : Z;
  SIGUSR1 : Z;
  SIGUSR2 : Z;
  SIGTERM : Z;
  NSIG : Z
}.

#[export] Instance linux : Platform :=
  {| SIGHUP := 1; SIGINT := 2; SIGKILL := 9; SIGUSR1 := 10; SIGUSR2 := 12;
     SIGTERM := 15; NSIG := 65 |}.

Definition darwin : Platform :=
  {| SIGHUP := 1; SIGINT := 2; SIGKILL := 9; SIGUSR1 := 30; SIGUSR2 := 31;
     SIGTERM := 15; NSIG := 32 |}.

Module Posix.

(** How a process ended, as [waitpid] reports it. *)
Inductive wstatus : Type :=
| WExited (code : Z)
| WSignaled (sig : Z).

(** The command being supervised.  Times are in milliseconds.
    [own_exit]: the run time after which it ends by itself, if ever.
    [on_signal]: its reaction to a signal it can catch, block or take the
    default action for: the delay after which it ends and how, or [None]
    when the signal does not end it. *)
Record program : Type := {
  own_exit : option (Z * wstatus);
  on_signal : Z -> option (Z * wstatus)
}.

Inductive errno : Type := ENOENT | EACCES | ENOEXEC | ENOMEM.

(** What [execvp] does in the child.  It becomes [image]; or it fails with
    [e], [after] milliseconds after [fork] has returned in the parent, and
    until then the child reacts to a signal as [on_signal] says. *)
Inductive exec_outcome : Type :=
| ExecOk (image : program)
| ExecFailed (e : errno) (after : Z) (on_signal : Z -> option (Z * wstatus)).

(** The child of the supervisor: not forked yet, forked (with the instant
    and status of its end once that is settled; it is a zombie from that
    instant on), or already waited for. *)
Inductive pstate : Type :=
| NoChild
| Child (image : program) (due : option (Z * wstatus))
| Reaped.

(** What the parent and the child do that is visible from outside, in
    the order it happens.  A line of output is kept without its final
    newline. *)
Inductive event : Type :=
| EvFork (result : Z)
| EvWaitpid (pid result : Z)
| EvKill (pid sig : Z)
| EvSleep (ms : Z)
| EvCerr (line : string)
| EvCout (line : string).

Record World : Type := mkWorld {
  clock : Z;                               (* steady clock, ms *)
  fork_result : Z;                         (* pid [fork] hands out; none if not positive *)
  execvp : list string -> exec_outcome;    (* the file system, seen by [execvp] *)
  child : pstate;
  trace : list event;
  pending : option (Z * list string)       (* what the child writes on the error
                                              stream as it ends by itself, and when *)
}.

Definition set_clock (c : Z) (w : World) : World :=
  mkWorld c (fork_result w) (execvp w) (child w) (trace w) (pending w).
(** The child enters the state [p]; nothing it would have written is kept. *)
Definition set_child (p : pstate) (w : World) : World :=
  mkWorld (clock w) (fork_result w) (execvp w) p (trace w) None.
Definition set_pending (q : option (Z * list string)) (w : World) : World :=
  mkWorld (clock w) (fork_result w) (execvp w) (child w) (trace w) q.
Definition log (e : event) (w : World) : World :=
  mkWorld (clock w) (fork_result w) (execvp w) (child w) (trace w ++ [e]) (pending w).

Definition log_all (es : list event) (w : World) : World :=
  fold_left (fun w e => log e w) es w.

(** The clock advances in [sleep_for] only, by the time asked for; the
    system calls themselves take no time. *)
Definition steady_now (w : World) : Z := clock w.

Definition sleep_for (ms : Z) (w : World) : World :=
  log (EvSleep ms) (set_clock (clock w + ms) w).

(** When a process that starts running [image] at [now] will end by
    itself. *)
Definition due_at (now : Z) (image : program) : option (Z * wstatus) :=
  match own_exit image with
  | Some (d, st) => Some (now + d, st)
  | None => None
  end.

(** The lines [lines], to be written at the instant of [due]. *)
Definition last_words (due : option (Z * wstatus)) (lines : list string)
  : option (Z * list string) :=
  match lines, due with
  | _ :: _, Some (t, _) => Some (t, lines)
  | _, _ => None
  end.

(** [fork()] in the parent: [-1], or the pid of a child that starts
    running [image] now and writes [child_cerr] on the error stream as it
    ends by itself. *)
Definition fork (image : program) (child_cerr : list string) (w : World) : Z * World :=
  if 0 <? fork_result w then
    let due := due_at (clock w) image in
    (fork_result w,
     log (EvFork (fork_result w))
       (set_pending (last_words due child_cerr) (set_child (Child image due) w)))
  else (-1, log (EvFork (-1)) w).

Definition has_exited (due : option (Z * wstatus)) (now : Z) : bool :=
  match due with
  | Some (t, _) => t <=? now
  | None => false
  end.

(** The child exists and has not ended yet. *)
Definition child_running (w : World) : bool :=
  match child w with
  | Child _ due => negb (has_exited due (clock w))
  | _ => false
  end.

(** What a child whose end is [due] has written on the error stream: the
    lines that were pending, if it lived until their instant (a signal may
    have ended it before). *)
Definition written (w : World) (due : option (Z * wstatus)) : list event :=
  match pending w, due with
  | Some (t, lines), Some (t', _) => if t <=? t' then map EvCerr lines else []
  | _, _ => []
  end.

(** [waitpid(pid, &status, WNOHANG)] for the pid of one child: [pid] once
    that child has ended (it is reaped), [0] while it runs, [-1] when the
    caller has no such child.  What the child wrote as it ended enters the
    trace when the parent finds it ended: it was written after the poll
    before, if there was one, while the parent slept. *)
Definition waitpid_nohang (pid : Z) (w : World) : Z * World :=
  match child w with
  | Child _ due =>
      if pid =? fork_result w then
        if has_exited due (clock w)
        then (pid, log (EvWaitpid pid pid)
                     (set_child Reaped (log_all (written w due) w)))
        else (0, log (EvWaitpid pid 0) w)
      else (-1, log (EvWaitpid pid (-1)) w)
  | _ => (-1, log (EvWaitpid pid (-1)) w)
  end.

(** The end of the child once [sig] has been sent to it at [now]: SIGKILL
    ends it at once, another valid signal as the program reacts (an
    earlier end of its own stands), anything else changes nothing. *)
Definition deliver `{Platform} (sig : Z) (image : program)
    (due : option (Z * wstatus)) (now : Z) : option (Z * wstatus) :=
  if has_exited due now then due
  else if sig =? SIGKILL then Some (now, WSignaled SIGKILL)
  else if (0 <? sig) && (sig <? NSIG) then
    match on_signal image sig with
    | Some (d, st) =>
        match due with
        | Some (t, _) => if t <=? now + Z.max 0 d then due
                         else Some (now + Z.max 0 d, st)
        | None => Some (now + Z.max 0 d, st)
        end
    | None => due
    end
  else due.

(** [kill(pid, sig)]; the program ignores its result. *)
Definition kill `{Platform} (pid sig : Z) (w : World) : World :=
  log (EvKill pid sig)
    match child w with
    | Child image due =>
        if pid =? fork_result w
        then set_pending (pending w)
               (set_child (Child image (deliver sig image due (clock w))) w)
        else w
    | _ => w
    end.

End Posix.

Import Cxx Cxx.Double Posix.

(* ================================================================== *)
(** * The [Timeout] object and the monad of its methods                *)
(* ================================================================== *)

Record Timeout : Type := mkTimeout {
  duration_seconds : Z;
  kill_after_seconds : Z;
  signal_name : string;
  preserve_status : bool;
  verbose : bool;
  command_args : list string;
  child_pid : Z
}.

(** [Timeout::Timeout()] *)
Definition Timeout_new : Timeout :=
  mkTimeout 0 0 EmptyString false false [] (-1).

Definition set_duration_seconds (d : Z) (t : Timeout) : Timeout :=
  mkTimeout d (kill_after_seconds t) (signal_name t) (preserve_status t)
    (verbose t) (command_args t) (child_pid t).
Definition set_kill_after_seconds (k : Z) (t : Timeout) : Timeout :=
  mkTimeout (duration_seconds t) k (signal_name t) (preserve_status t)
    (verbose t) (command_args t) (child_pid t).
Definition set_signal_name (n : string) (t : Timeout) : Timeout :=
  mkTimeout (duration_seconds t) (kill_after_seconds t) n (preserve_status t)
    (verbose t) (command_args t) (child_pid t).
Definition set_preserve_status (b : bool) (t : Timeout) : Timeout :=
  mkTimeout (duration_seconds t) (kill_after_seconds t) (signal_name t) b
    (verbose t) (command_args t) (child_pid t).
Definition set_verbose (b : bool) (t : Timeout) : Timeout :=
  mkTimeout (duration_seconds t) (kill_after_seconds t) (signal_name t)
    (preserve_status t) b (command_args t) (child_pid t).
Definition set_command_args (a : list string) (t : Timeout) : Timeout :=
  mkTimeout (duration_seconds t) (kill_after_seconds t) (signal_name t)
    (preserve_status t) (verbose t) a (child_pid t).
Definition set_child_pid (p : Z) (t : Timeout) : Timeout :=
  mkTimeout (duration_seconds t) (kill_after_seconds t) (signal_name t)
    (preserve_status t) (verbose t) (command_args t) p.

(** A method runs on the object and the world. *)
Record state : Type := mkState { self : Timeout; os : World }.

(** How a computation ends: it returns, an exception propagates out of it,
    [exit] is called, its behaviour is undefined, or the loop bound of the
    model is used up before it ends. *)
Inductive outcome (A : Type) : Type :=
| Ret (a : A) (s : state)
| Throw (e : exn) (s : state)
| Exit (status : Z) (s : state)
| Undefined
| OutOfFuel.

Arguments Ret {A} a s.
Arguments Throw {A} e s.
Arguments Exit {A} status s.
Arguments Undefined {A}.
Arguments OutOfFuel {A}.

Definition M (A : Type) : Type := state -> outcome A.

Definition ret {A} (a : A) : M A := fun s => Ret a s.

Definition bind {A B} (m : M A) (k : A -> M B) : M B :=
  fun s =>
    match m s with
    | Ret a s' => k a s'
    | Throw e s' => Throw e s'
    | Exit c s' => Exit c s'
    | Undefined => Undefined
    | OutOfFuel => OutOfFuel
    end.

Declare Scope monad_scope.
Delimit Scope monad_scope with monad.
Notation "x <- m ;; k" := (bind m (fun x => k))
  (at level 61, m at next level, right associativity) : monad_scope.
Notation "m ;; k" := (bind m (fun _ => k))
  (at level 61, right associativity) : monad_scope.
Local Open Scope monad_scope.

Definition throw {A} (e : exn) : M A := fun s => Throw e s.
Definition exit {A} (status : Z) : M A := fun s => Exit status s.
Definition undefined {A} : M A := fun _ => Undefined.
Definition out_of_fuel {A} : M A := fun _ => OutOfFuel.

(** Reading and updating the members of [*this]. *)
Definition this : M Timeout := fun s => Ret (self s) s.
Definition assign (f : Timeout -> Timeout) : M unit :=
  fun s => Ret tt (mkState (f (self s)) (os s)).

(** System calls and output. *)
Definition syscall {A} (f : World -> A * World) : M A :=
  fun s => let '(a, w) := f (os s) in Ret a (mkState (self s) w).
Definition effect (f : World -> World) : M unit :=
  fun s => Ret tt (mkState (self s) (f (os s))).
Definition cerr (line : string) : M unit := effect (log (EvCerr line)).
Definition cout (line : string) : M unit := effect (log (EvCout line)).

(* ================================================================== *)
(** * The methods of [Timeout]                                         *)
(* ================================================================== *)

(** The [switch (unit)] of [parse_duration]: the factor for a unit
    character ([None] inside: seconds, nothing to multiply), or no result
    for the [default] label. *)
Definition unit_factor (unit : ascii) : option (option Z) :=
  if Ascii.eqb unit "s" then Some None
  else if Ascii.eqb unit "m" then Some (Some 60)
  else if Ascii.eqb unit "h" then Some (Some 3600)
  else if Ascii.eqb unit "d" then Some (Some 86400)
  else None.

Definition scale (value : double) (factor : option Z) : double :=
  match factor with
  | Some k => mul value (of_Z k)
  | None => value
  end.

(** The value after the [if (pos < duration_str.length())] block of
    [parse_duration]; no value where the [switch] returns [false]. *)
Definition scaled_value (duration_str : string) (value : double) (pos : nat)
  : option double :=
  if (pos <? String.length duration_str)%nat then
    match String.get pos duration_str with
    | Some unit =>
        match unit_factor unit with
        | Some f => Some (scale value f)
        | None => None
        end
    | None => None
    end
  else Some value.

(** [bool parse_duration(const std::string& duration_str)] *)
Definition parse_duration (duration_str : string) : M bool :=
  if (String.length duration_str =? 0)%nat then ret false else
  match stod duration_str with
  | inr e => throw e
  | inl (value, pos) =>
      match scaled_value duration_str value pos with
      | None => ret false
      | Some value =>
          if ltb value (of_Z 0) || gtb value (of_Z INT_MAX) then ret false
          else
            match to_int value with
            | Some d => assign (set_duration_seconds d) ;; ret true
            | None => undefined
            end
      end
  end.

Section Methods.

Context {P : Platform}.

(** [int parse_signal(const std::string& signal_str)] *)
Definition parse_signal (signal_str : string) : Z :=
  if (String.length signal_str =? 0)%nat then SIGTERM else
  match stoi signal_str with
  | inl n => n
  | inr _ =>
      if (signal_str =? "TERM")%string || (signal_str =? "SIGTERM")%string then SIGTERM
      else if (signal_str =? "INT")%string || (signal_str =? "SIGINT")%string then SIGINT
      else if (signal_str =? "HUP")%string || (signal_str =? "SIGHUP")%string then SIGHUP
      else if (signal_str =? "KILL")%string || (signal_str =? "SIGKILL")%string then SIGKILL
      else if (signal_str =? "USR1")%string || (signal_str =? "SIGUSR1")%string then SIGUSR1
      else if (signal_str =? "USR2")%string || (signal_str =? "SIGUSR2")%string then SIGUSR2
      else SIGTERM
  end.

(** [void print_usage()]: one [EvCout] per line of the text. *)
Definition usage_text : list string :=
  [ "Usage: timeout [OPTION] DURATION COMMAND [ARG]...";
    "Start COMMAND, and kill it if still running after DURATION.";
    EmptyString;
    "Options:";
    "  -k, --kill-after=DURATION  also send a KILL signal if COMMAND is still";
    "                              running this long after the initial signal";
    "  -p, --preserve-status      return exit status of COMMAND, not timeout";
    "  -s, --signal=SIGNAL        specify the signal to be sent on timeout";
    "  -v, --verbose              diagnose to stderr any signal sent";
    "  -h, --help                 display this help and exit";
    EmptyString;
    "DURATION is a floating point number with an optional suffix:";
    "'s' for seconds (the default), 'm' for minutes, 'h' for hours or 'd' for days." ].

Definition print_usage : M unit :=
  fold_right (fun l k => cout l ;; k) (ret tt) usage_text.

(** [argv[i][0] == '-'] *)
Definition is_option (arg : string) : bool :=
  match arg with
  | String c _ => Ascii.eqb c "-"
  | EmptyString => false
  end.

(** The option loop of [parse_args], on [argv] from index [i] on.  It
    returns [None] where the method returns [false], and otherwise what
    is left of [argv] when the loop ends. *)
Fixpoint parse_options (rest : list string) : M (option (list string)) :=
  match rest with
  | arg :: rest1 =>
      if is_option arg then
        if (arg =? "-k")%string || (arg =? "--kill-after")%string then
          match rest1 with
          | [] =>
              cerr "Error: -k/--kill-after requires a duration" ;; ret None
          | val :: rest2 =>
              ok <- parse_duration val ;;
              if negb ok then
                cerr ("Error: invalid kill-after duration: " ++ val) ;; ret None
              else
                t <- this ;;
                assign (set_kill_after_seconds (duration_seconds t)) ;;
                assign (set_duration_seconds 0) ;;
                parse_options rest2
          end
        else if (arg =? "-s")%string || (arg =? "--signal")%string then
          match rest1 with
          | [] => cerr "Error: -s/--signal requires a signal" ;; ret None
          | val :: rest2 =>
              assign (set_signal_name val) ;; parse_options rest2
          end
        else if (arg =? "-p")%string || (arg =? "--preserve-status")%string then
          assign (set_preserve_status true) ;; parse_options rest1
        else if (arg =? "-v")%string || (arg =? "--verbose")%string then
          assign (set_verbose true) ;; parse_options rest1
        else if (arg =? "-h")%string || (arg =? "--help")%string then
          print_usage ;; exit 0
        else
          cerr ("Error: unknown option: " ++ arg) ;; ret None
      else ret (Some rest)
  | [] => ret (Some [])
  end.

(** [bool parse_args(int argc, char* argv[])]; [argv[0]] is skipped. *)
Definition parse_args (argv : list string) : M bool :=
  rest <- parse_options (tl argv) ;;
  match rest with
  | None => ret false
  | Some [] => cerr "Error: duration and command required" ;; ret false
  | Some (dur :: cmd) =>
      ok <- parse_duration dur ;;
      if negb ok then cerr ("Error: invalid duration: " ++ dur) ;; ret false
      else
        t <- this ;;
        assign (set_command_args (command_args t ++ cmd)) ;;
        t <- this ;;
        match command_args t with
        | [] => cerr "Error: command required" ;; ret false
        | _ :: _ => ret true
        end
  end.

(** The branch [child_pid == 0] of [start_process], run by the child:
    [execvp] makes it the command; if that fails, which takes the time the
    world says, it writes a message and calls [exit(127)].  The result is
    what the child does and what it writes as it ends by itself. *)
Definition child_branch (args : list string) (w : World) : program * list string :=
  match execvp w args with
  | ExecOk image => (image, [])
  | ExecFailed _ after on_signal =>
      ({| own_exit := Some (Z.max 0 after, WExited 127); on_signal := on_signal |},
       ["Error: failed to execute command"])
  end.

(** [bool start_process()] *)
Definition start_process : M bool :=
  t <- this ;;
  match command_args t with
  | [] => ret false
  | _ :: _ =>
      pid <- syscall (fun w => let '(image, msg) := child_branch (command_args t) w in
                               fork image msg w) ;;
      assign (set_child_pid pid) ;;
      if pid =? -1 then cerr "Error: failed to fork process" ;; ret false
      else ret true
  end.

(** The [while (true)] loop of [wait_for_process]; [fuel] bounds the
    number of iterations the model follows. *)
Fixpoint wait_loop (fuel : nat) (start_time timeout_seconds : Z) : M bool :=
  match fuel with
  | O => out_of_fuel
  | S fuel' =>
      t <- this ;;
      result <- syscall (waitpid_nohang (child_pid t)) ;;
      if result =? child_pid t then ret true
      else if result =? -1 then ret false
      else
        now <- syscall (fun w => (steady_now w, w)) ;;
        let elapsed := Z.quot (now - start_time) 1000 in
        if elapsed >=? timeout_seconds then ret false
        else
          effect (sleep_for 100) ;;
          wait_loop fuel' start_time timeout_seconds
  end.

(** [bool wait_for_process(int timeout_seconds)] *)
Definition wait_for_process (fuel : nat) (timeout_seconds : Z) : M bool :=
  t <- this ;;
  if child_pid t =? -1 then ret false else
  start_time <- syscall (fun w => (steady_now w, w)) ;;
  wait_loop fuel start_time timeout_seconds.

(** [void terminate_process()] *)
Definition terminate_process : M unit :=
  t <- this ;;
  if negb (child_pid t =? -1) then
    let signal := parse_signal (signal_name t) in
    (if verbose t then
       cerr ("Sending signal " ++ show_int signal ++ " to process "
             ++ show_int (child_pid t))
     else ret tt) ;;
    effect (kill (child_pid t) signal)
  else ret tt.

(** [void kill_process()] *)
Definition kill_process : M unit :=
  t <- this ;;
  if negb (child_pid t =? -1) then
    (if verbose t then
       cerr ("Sending SIGKILL to process " ++ show_int (child_pid t))
     else ret tt) ;;
    effect (kill (child_pid t) SIGKILL)
  else ret tt.

(** [int run()] *)
Definition run (fuel : nat) : M Z :=
  started <- start_process ;;
  if negb started then ret 125 else
  t <- this ;;
  finished <- wait_for_process fuel (duration_seconds t) ;;
  if finished then ret 0 else
  terminate_process ;;
  t <- this ;;
  if kill_after_seconds t >? 0 then
    finished <- wait_for_process fuel (kill_after_seconds t) ;;
    if finished then ret (if preserve_status t then 0 else 124)
    else
      kill_process ;;
      effect (sleep_for 100) ;;
      ret 137
  else ret (if preserve_status t then 0 else 124).

(** [int main(int argc, char* argv[])] *)
Definition main (fuel : nat) (argv : list string) : M Z :=
  assign (fun _ => Timeout_new) ;;
  ok <- parse_args argv ;;
  if negb ok then print_usage ;; ret 125
  else run fuel.

End Methods.

(* ================================================================== *)
(** * The [_WIN32] build                                               *)
(* ================================================================== *)

(** The [#ifdef _WIN32] branch of the class: the members [process_handle]
    and [process_id] instead of [child_pid], and the four process methods
    written with the Win32 API.  [run] is the same text in both builds. *)
Module Windows.

(** ** The Win32 calls of the program *)

Definition INVALID_HANDLE_VALUE : Z := -1.
Definition INFINITE : Z := 4294967295.

(** Conversion of an [int] to [DWORD], an unsigned 32-bit integer. *)
Definition to_DWORD (z : Z) : Z := z mod 4294967296.

Inductive wait_result : Type := WAIT_OBJECT_0 | WAIT_TIMEOUT | WAIT_FAILED.

(** The process of the command: none yet, or created, with the instant it
    ends and its exit code once that is settled. *)
Inductive pstate : Type :=
| NoProcess
| Process (due : option (Z * Z)).

Inductive event : Type :=
| EvCreateProcess (command_line : string) (ok : bool)
| EvWaitForSingleObject (h ms : Z) (r : wait_result)
| EvGetExitCodeProcess (h : Z)
| EvTerminateProcess (h code : Z) (ok : bool)
| EvCloseHandle (h : Z) (ok : bool)
| EvSleep (ms : Z)
| EvCerr (line : string).

Record World : Type := mkWorld {
  clock : Z;                                     (* ms *)
  image : string -> option (option (Z * Z));     (* a command line: cannot be started, or
                                                    the run time and exit code of the
                                                    process if it ends by itself *)
  hProcess : Z;                                  (* what [CreateProcess] stores in *)
  hThread : Z;                                   (* [PROCESS_INFORMATION] *)
  dwProcessId : Z;
  process : pstate;
  open_handles : list Z;
  trace : list event
}.

Definition log (e : event) (w : World) : World :=
  mkWorld (clock w) (image w) (hProcess w) (hThread w) (dwProcessId w)
    (process w) (open_handles w) (trace w ++ [e]).
Definition set_clock (c : Z) (w : World) : World :=
  mkWorld c (image w) (hProcess w) (hThread w) (dwProcessId w)
    (process w) (open_handles w) (trace w).
Definition set_process (p : pstate) (w : World) : World :=
  mkWorld (clock w) (image w) (hProcess w) (hThread w) (dwProcessId w)
    p (open_handles w) (trace w).
Definition set_open_handles (hs : list Z) (w : World) : World :=
  mkWorld (clock w) (image w) (hProcess w) (hThread w) (dwProcessId w)
    (process w) hs (trace w).

Definition is_open (h : Z) (w : World) : bool := existsb (Z.eqb h) (open_handles w).

Definition has_ended (due : option (Z * Z)) (now : Z) : bool :=
  match due with
  | Some (t, _) => t <=? now
  | None => false
  end.

(** [CreateProcess(NULL, command_line, ...)]: on success the process runs
    and its two handles are open. *)
Definition CreateProcess (command_line : string) (w : World) : bool * World :=
  match image w command_line with
  | Some own =>
      let due := match own with
                 | Some (d, code) => Some (clock w + d, code)
                 | None => None
                 end in
      (true,
       log (EvCreateProcess command_line true)
         (set_open_handles (hProcess w :: hThread w :: open_handles w)
            (set_process (Process due) w)))
  | None => (false, log (EvCreateProcess command_line false) w)
  end.

(** [CloseHandle(h)] fails on a handle that is not open. *)
Definition CloseHandle (h : Z) (w : World) : bool * World :=
  if is_open h w
  then (true, log (EvCloseHandle h true)
                (set_open_handles (filter (fun x => negb (x =? h)) (open_handles w)) w))
  else (false, log (EvCloseHandle h false) w).

(** [WaitForSingleObject(h, ms)] on the process handle blocks until the
    process has ended or [ms] milliseconds have passed, for ever if [ms] is
    [INFINITE] and the process never ends (no result then); on a handle
    that is not open it fails at once. *)
Definition WaitForSingleObject (h ms : Z) (w : World) : option (wait_result * World) :=
  if is_open h w && (h =? hProcess w) then
    match process w with
    | Process (Some (t, code)) =>
        if (ms =? INFINITE) || (t <=? clock w + ms)
        then Some (WAIT_OBJECT_0,
                   log (EvWaitForSingleObject h ms WAIT_OBJECT_0)
                     (set_clock (Z.max (clock w) t) w))
        else Some (WAIT_TIMEOUT,
                   log (EvWaitForSingleObject h ms WAIT_TIMEOUT)
                     (set_clock (clock w + ms) w))
    | Process None =>
        if ms =? INFINITE then None
        else Some (WAIT_TIMEOUT,
                   log (EvWaitForSingleObject h ms WAIT_TIMEOUT)
                     (set_clock (clock w + ms) w))
    | NoProcess => Some (WAIT_FAILED, log (EvWaitForSingleObject h ms WAIT_FAILED) w)
    end
  else Some (WAIT_FAILED, log (EvWaitForSingleObject h ms WAIT_FAILED) w).

Definition GetExitCodeProcess (h : Z) (w : World) : World :=
  log (EvGetExitCodeProcess h) w.

(** [TerminateProcess(h, code)] ends a running process at once, with
    [code]; it fails on a handle that is not open and on a process that
    has ended. *)
Definition TerminateProcess (h code : Z) (w : World) : bool * World :=
  if is_open h w && (h =? hProcess w) then
    match process w with
    | Process due =>
        if has_ended due (clock w)
        then (false, log (EvTerminateProcess h code false) w)
        else (true, log (EvTerminateProcess h code true)
                      (set_process (Process (Some (clock w, code))) w))
    | NoProcess => (false, log (EvTerminateProcess h code false) w)
    end
  else (false, log (EvTerminateProcess h code false) w).

Definition sleep_for (ms : Z) (w : World) : World :=
  log (EvSleep ms) (set_clock (clock w + ms) w).

(** ** The object and its methods *)

Record Timeout : Type := mkTimeout {
  duration_seconds : Z;
  kill_after_seconds : Z;
  signal_name : string;
  preserve_status : bool;
  verbose : bool;
  command_args : list string;
  process_handle : Z;
  process_id : Z
}.

(** [Timeout::Timeout()] *)
Definition Timeout_new : Timeout :=
  mkTimeout 0 0 EmptyString false false [] INVALID_HANDLE_VALUE 0.

Definition set_process_handle (h : Z) (t : Timeout) : Timeout :=
  mkTimeout (duration_seconds t) (kill_after_seconds t) (signal_name t)
    (preserve_status t) (verbose t) (command_args t) h (process_id t).
Definition set_process_id (p : Z) (t : Timeout) : Timeout :=
  mkTimeout (duration_seconds t) (kill_after_seconds t) (signal_name t)
    (preserve_status t) (verbose t) (command_args t) (process_handle t) p.

Record state : Type := mkState { self : Timeout; os : World }.

(** A method returns, has undefined behaviour, or blocks for ever. *)
Inductive outcome (A : Type) : Type :=
| Ret (a : A) (s : state)
| Undefined
| Blocked.

Arguments Ret {A} a s.
Arguments Undefined {A}.
Arguments Blocked {A}.

Definition M (A : Type) : Type := state -> outcome A.

Definition ret {A} (a : A) : M A := fun s => Ret a s.
Definition bind {A B} (m : M A) (k : A -> M B) : M B :=
  fun s =>
    match m s with
    | Ret a s' => k a s'
    | Undefined => Undefined
    | Blocked => Blocked
    end.

Declare Scope win_scope.
Delimit Scope win_scope with win.
Notation "x <- m ;; k" := (bind m (fun x => k))
  (at level 61, m at next level, right associativity) : win_scope.
Notation "m ;; k" := (bind m (fun _ => k))
  (at level 61, right associativity) : win_scope.
Local Open Scope win_scope.

Definition undefined {A} : M A := fun _ => Undefined.
Definition this : M Timeout := fun s => Ret (self s) s.
Definition assign (f : Timeout -> Timeout) : M unit :=
  fun s => Ret tt (mkState (f (self s)) (os s)).
Definition syscall {A} (f : World -> A * World) : M A :=
  fun s => let '(a, w) := f (os s) in Ret a (mkState (self s) w).
Definition blocking {A} (f : World -> option (A * World)) : M A :=
  fun s => match f (os s) with
           | Some (a, w) => Ret a (mkState (self s) w)
           | None => Blocked
           end.
Definition effect (f : World -> World) : M unit :=
  fun s => Ret tt (mkState (self s) (f (os s))).
Definition cerr (line : string) : M unit := effect (log (EvCerr line)).

(** The loop of [start_process] that builds the command line. *)
Definition quote : string := String (ascii_of_nat 34) EmptyString.

Fixpoint build_command_line (args : list string) (command_line : string) : string :=
  match args with
  | arg :: rest =>
      let command_line :=
        if negb (String.length command_line =? 0)%nat
        then command_line ++ " " else command_line in
      build_command_line rest (command_line ++ (quote ++ arg ++ quote))
  | [] => command_line
  end.

(** [bool start_process()] *)
Definition start_process : M bool :=
  t <- this ;;
  match command_args t with
  | [] => ret false
  | _ :: _ =>
      let command_line := build_command_line (command_args t) EmptyString in
      created <- syscall (CreateProcess command_line) ;;
      if negb created then cerr "Error: failed to start process" ;; ret false
      else
        pi <- syscall (fun w => ((hProcess w, dwProcessId w, hThread w), w)) ;;
        let '(hProcess, dwProcessId, hThread) := pi in
        assign (set_process_handle hProcess) ;;
        assign (set_process_id dwProcessId) ;;
        syscall (CloseHandle hThread) ;;
        ret true
  end.

(** [bool wait_for_process(int timeout_seconds)].  The product
    [timeout_seconds * 1000] is computed in [int]: the behaviour is
    undefined when it overflows. *)
Definition wait_for_process (timeout_seconds : Z) : M bool :=
  t <- this ;;
  if process_handle t =? INVALID_HANDLE_VALUE then ret false else
  let ms := timeout_seconds * 1000 in
  if negb (Cxx.in_int ms) then undefined else
  result <- blocking (WaitForSingleObject (process_handle t) (to_DWORD ms)) ;;
  match result with
  | WAIT_OBJECT_0 =>
      effect (GetExitCodeProcess (process_handle t)) ;;
      syscall (CloseHandle (process_handle t)) ;;
      ret true
  | WAIT_TIMEOUT => ret false
  | WAIT_FAILED => ret false
  end.

(** [void terminate_process()] *)
Definition terminate_process : M unit :=
  t <- this ;;
  if negb (process_handle t =? INVALID_HANDLE_VALUE) then
    syscall (TerminateProcess (process_handle t) 1) ;;
    syscall (CloseHandle (process_handle t)) ;;
    ret tt
  else ret tt.

(** [void kill_process()] *)
Definition kill_process : M unit :=
  t <- this ;;
  if negb (process_handle t =? INVALID_HANDLE_VALUE) then
    syscall (TerminateProcess (process_handle t) 1) ;;
    syscall (CloseHandle (process_handle t)) ;;
    ret tt
  else ret tt.

(** [int run()] *)
Definition run : M Z :=
  started <- start_process ;;
  if negb started then ret 125 else
  t <- this ;;
  finished <- wait_for_process (duration_seconds t) ;;
  if finished then ret 0 else
  terminate_process ;;
  t <- this ;;
  if kill_after_seconds t >? 0 then
    finished <- wait_for_process (kill_after_seconds t) ;;
    if finished then ret (if preserve_status t then 0 else 124)
    else
      kill_process ;;
      effect (sleep_for 100) ;;
      ret 137
  else ret (if preserve_status t then 0 else 124).

(** ** Vocabulary of the properties *)

(** The world when the first wait of [run] has timed out and
    [terminate_process] has returned. *)
Definition timed_out (t : Timeout) (w : World) : World :=
  mkWorld (clock w + duration_seconds t * 1000) (image w) (hProcess w) (hThread w)
    (dwProcessId w)
    (Process (Some (clock w + duration_seconds t * 1000, 1)))
    (filter (fun x => negb (x =? hProcess w))
       (hProcess w :: filter (fun x => negb (x =? hThread w)) (open_handles w)))
    (trace w
     ++ [EvCreateProcess (build_command_line (command_args t) EmptyString) true;
         EvCloseHandle (hThread w) true;
         EvWaitForSingleObject (hProcess w) (duration_seconds t * 1000) WAIT_TIMEOUT;
         EvTerminateProcess (hProcess w) 1 true;
         EvCloseHandle (hProcess w) true]).

(** A world at time 0 in which every command line starts a process that
    behaves as [own] says, with handles 100 and 104. *)
Definition example_world (own : option (Z * Z)) : World :=
  mkWorld 0 (fun _ => Some own) 100 104 4242 NoProcess [] [].

(** A world in which no process can be created. *)
Definition example_world_no_start : World :=
  mkWorld 0 (fun _ => None) 100 104 4242 NoProcess [] [].

(** [timeout DURATION cmd], with the options given. *)
Definition example_config (duration kill_after : Z) (preserve verb : bool) : Timeout :=
  mkTimeout duration kill_after EmptyString preserve verb ["cmd"]
    INVALID_HANDLE_VALUE 0.

End Windows.

(* ================================================================== *)
(** * Vocabulary of the properties                                     *)
(* ================================================================== *)

(** Polling: the events a wait produces. *)
Definition is_poll (e : event) : bool :=
  match e with
  | EvWaitpid _ _ | EvSleep _ => true
  | _ => false
  end.

(** What a wait adds to the trace: its polls, and lines of the error
    stream, which the child wrote as it ended. *)
Definition is_idle (e : event) : bool :=
  match e with
  | EvWaitpid _ _ | EvSleep _ | EvCerr _ => true
  | _ => false
  end.

(** The lines of the error stream in [tr] are lines that are pending in
    [w]. *)
Definition said_by (w : World) (tr : list event) : Prop :=
  forall line, In (EvCerr line) tr ->
  exists t lines, pending w = Some (t, lines) /\ In line lines.

(** Nothing the child is still to write is a diagnostic. *)
Definition calm (w : World) : Prop :=
  forall t lines line,
    pending w = Some (t, lines) -> In line lines ->
    String.prefix "Sending " line = false.

(** A termination action: a signal sent to the child. *)
Definition is_action (e : event) : bool :=
  match e with
  | EvKill _ _ => true
  | _ => false
  end.

(** A diagnostic of a termination action: a line of the error stream that
    starts with [Sending]. *)
Definition is_diagnostic (e : event) : bool :=
  match e with
  | EvCerr line => String.prefix "Sending " line
  | _ => false
  end.

(** The line [terminate_process] and [kill_process] write when verbose. *)
Definition signal_line (signal pid : Z) : string :=
  "Sending signal " ++ show_int signal ++ " to process " ++ show_int pid.
Definition sigkill_line (pid : Z) : string :=
  "Sending SIGKILL to process " ++ show_int pid.

Definition when_verbose (t : Timeout) (line : string) : list event :=
  if verbose t then [EvCerr line] else [].

(** Diagnostics and actions of a stretch of the trace are in balance when
    there is one diagnostic for each action if verbose, and no diagnostic
    at all otherwise. *)
Definition balanced (v : bool) (tr : list event) : Prop :=
  List.length (filter is_diagnostic tr)
  = if v then List.length (filter is_action tr) else 0%nat.

(** The world once [start_process] has forked a child that runs [image]. *)
Definition spawned (image : program) (w : World) : World :=
  log (EvFork (fork_result w))
    (set_child (Child image (due_at (clock w) image)) w).

(** The world once the first wait of [run] has timed out, after the polls
    [polls], and [terminate_process] has sent the initial signal. *)
Definition signalled `{Platform} (t : Timeout) (image : program) (polls : list event)
    (w : World) : World :=
  let pid := fork_result w in
  let signal := parse_signal (signal_name t) in
  kill pid signal
    (log_all (when_verbose t (signal_line signal pid))
       (mkWorld (clock w + 1000 * duration_seconds t) pid (execvp w)
          (Child image (due_at (clock w) image))
          (trace w ++ EvFork pid :: polls) None)).

(** The number a sequence of decimal digits denotes, most significant
    digit first, continuing from [acc]. *)
Fixpoint uint_value (acc : Z) (d : Decimal.uint) : Z :=
  match d with
  | Decimal.Nil => acc
  | Decimal.D0 l => uint_value (10 * acc) l
  | Decimal.D1 l => uint_value (10 * acc + 1) l
  | Decimal.D2 l => uint_value (10 * acc + 2) l
  | Decimal.D3 l => uint_value (10 * acc + 3) l
  | Decimal.D4 l => uint_value (10 * acc + 4) l
  | Decimal.D5 l => uint_value (10 * acc + 5) l
  | Decimal.D6 l => uint_value (10 * acc + 6) l
  | Decimal.D7 l => uint_value (10 * acc + 7) l
  | Decimal.D8 l => uint_value (10 * acc + 8) l
  | Decimal.D9 l => uint_value (10 * acc + 9) l
  end.

(** The twelve names [parse_signal] compares its argument with. *)
Definition signal_names : list string :=
  [ "TERM"; "SIGTERM"; "INT"; "SIGINT"; "HUP"; "SIGHUP"; "KILL"; "SIGKILL";
    "USR1"; "SIGUSR1"; "USR2"; "SIGUSR2" ].

(** What may follow the digits of a whole number of seconds, minutes,
    hours or days: nothing, or one unit letter. *)
Definition is_unit_suffix (suffix : string) : Prop :=
  suffix = EmptyString
  \/ exists u f, suffix = String u EmptyString /\ unit_factor u = Some f.

(** The trace without the diagnostics of the termination actions. *)
Definition quiet (tr : list event) : list event :=
  filter (fun e => negb (is_diagnostic e)) tr.

(** Two objects that differ at most in [verbose], two worlds that differ at
    most in the diagnostics written, two outcomes that differ at most so. *)
Definition same_but_verbose (t1 t0 : Timeout) : Prop :=
  set_verbose false t1 = set_verbose false t0.

Definition same_but_diagnostics (w1 w0 : World) : Prop :=
  clock w1 = clock w0 /\ fork_result w1 = fork_result w0
  /\ execvp w1 = execvp w0 /\ child w1 = child w0
  /\ pending w1 = pending w0
  /\ quiet (trace w1) = quiet (trace w0).

Definition alike (s1 s0 : state) : Prop :=
  same_but_verbose (self s1) (self s0) /\ same_but_diagnostics (os s1) (os s0).

Definition agree {A} (o1 o0 : outcome A) : Prop :=
  match o1, o0 with
  | Ret a1 s1, Ret a0 s0 => a1 = a0 /\ alike s1 s0
  | OutOfFuel, OutOfFuel => True
  | _, _ => False
  end.

(** Concrete commands, configurations and worlds for the examples. *)
Module Examples.

(** A command that runs [ms] milliseconds, exits with [code], and dies of
    any signal at once (the default action). *)
Definition exits_after (ms code : Z) : program :=
  {| own_exit := Some (ms, WExited code);
     on_signal := fun sig => Some (0, WSignaled sig) |}.

(** A command that never ends by itself and ignores every signal. *)
Definition stubborn : program :=
  {| own_exit := None; on_signal := fun _ => None |}.

(** A command that never ends by itself, traps the signals and exits
    with [code], [ms] milliseconds after one arrives. *)
Definition trapper (ms code : Z) : program :=
  {| own_exit := None; on_signal := fun _ => Some (ms, WExited code) |}.

(** A world at time 0 in which every [execvp] gives [image] and the
    child gets pid 4242. *)
Definition world_running (image : program) : World :=
  mkWorld 0 4242 (fun _ => ExecOk image) NoChild [] None.

(** A world in which no command can be executed: [execvp] fails [after]
    milliseconds after [fork], and until then any signal ends the child. *)
Definition world_exec_fails (e : errno) (after : Z) : World :=
  mkWorld 0 4242 (fun _ => ExecFailed e after (fun sig => Some (0, WSignaled sig)))
    NoChild [] None.

(** A world in which [fork] fails. *)
Definition world_fork_fails : World :=
  mkWorld 0 (-1) (fun _ => ExecOk stubborn) NoChild [] None.

(** [timeout DURATION cmd], with the options given. *)
Definition config (duration kill_after : Z) (preserve verb : bool) : Timeout :=
  mkTimeout duration kill_after EmptyString preserve verb ["cmd"] (-1).

End Examples.

(* ================================================================== *)
(** * Proofs                                                            *)
(* ================================================================== *)

(** One step of a method: the monad operations are unfolded and the
    projections of the state reduced. *)
Ltac mstep :=
  cbv beta iota delta [bind ret this assign syscall effect cerr cout steady_now];
  cbn [self os fst snd].
Ltac mstep_in H :=
  cbv beta iota delta [bind ret this assign syscall effect cerr cout steady_now] in H;
  cbn [self os fst snd] in H.
(** Projections of a world that was logged to, or whose clock or child was set. *)
Ltac wsimpl :=
  cbn [log clock set_clock set_child set_pending child fork_result trace execvp
       pending sleep_for].

(** ** Waiting: the polling loop, and the methods one by one *)

Section Waiting.
Context {P : Platform}.

Lemma log_all_trace es w : trace (log_all es w) = (trace w ++ es)%list.
Proof.
  revert w. induction es as [|e es IH]; intros w; cbn [log_all fold_left].
  - rewrite app_nil_r. reflexivity.
  - change (fold_left _ es (log e w)) with (log_all es (log e w)).
    rewrite IH. wsimpl. rewrite <- app_assoc. reflexivity.
Qed.

Lemma log_all_rest es w :
  clock (log_all es w) = clock w /\ fork_result (log_all es w) = fork_result w
  /\ child (log_all es w) = child w /\ execvp (log_all es w) = execvp w.
Proof.
  revert w. induction es as [|e es IH]; intros w; cbn [log_all fold_left]; auto.
  change (fold_left _ es (log e w)) with (log_all es (log e w)).
  destruct (IH (log e w)) as (? & ? & ? & ?). auto.
Qed.

(** What the child wrote as it ended: lines of the error stream, those
    that were pending; nothing when nothing was. *)
Lemma written_idle w due : forallb is_idle (written w due) = true.
Proof.
  unfold written. destruct (pending w) as [[t lines]|]; [|reflexivity].
  destruct due as [[t' st]|]; [|reflexivity].
  destruct (t <=? t'); [|reflexivity].
  induction lines as [|l lines IH]; cbn; auto.
Qed.

Lemma written_said w due : said_by w (written w due).
Proof.
  unfold said_by, written. intros line H.
  destruct (pending w) as [[t lines]|]; [|contradiction].
  destruct due as [[t' st]|]; [|contradiction].
  destruct (t <=? t'); [|contradiction].
  exists t, lines. split; [reflexivity|].
  apply in_map_iff in H as (l & Hl & Hin). injection Hl as <-. exact Hin.
Qed.

Lemma poll_said w tr : forallb is_poll tr = true -> said_by w tr.
Proof.
  intros H line Hin. rewrite forallb_forall in H. specialize (H _ Hin). discriminate.
Qed.

Lemma said_by_same w w' tr : pending w' = pending w -> said_by w tr -> said_by w' tr.
Proof. intros Hp Hs line H. rewrite Hp. apply Hs, H. Qed.

Lemma said_by_app w a b : said_by w a -> said_by w b -> said_by w (a ++ b).
Proof.
  intros Ha Hb line H. apply in_app_or in H as [H|H]; auto.
Qed.

Lemma quot_1000_lt (a c : Z) : 0 <= a -> a < 1000 * c -> (Z.quot a 1000 >=? c) = false.
Proof.
  intros Ha Hc. rewrite Z.geb_leb. apply Z.leb_gt.
  rewrite Z.quot_div_nonneg by lia.
  apply Z.div_lt_upper_bound; lia.
Qed.

Lemma quot_1000_ge (a c : Z) : 1000 * c <= a -> 0 <= c -> (Z.quot a 1000 >=? c) = true.
Proof.
  intros Hc H0. rewrite Z.geb_leb. apply Z.leb_le.
  rewrite Z.quot_div_nonneg by lia.
  apply Z.div_le_lower_bound; lia.
Qed.

Lemma wait_loop_exit_seen (fuel : nat) :
  forall start timeout t w img due st,
    child w = Child img (Some (due, st)) ->
    child_pid t = fork_result w -> 0 < fork_result w ->
    due <= start + 1000 * timeout -> start <= clock w ->
    Z.max 0 (due - clock w) + 100 <= 100 * Z.of_nat fuel ->
    exists w' tr,
      wait_loop fuel start timeout (mkState t w) = Ret true (mkState t w')
      /\ child w' = Reaped
      /\ fork_result w' = fork_result w
      /\ trace w' = (trace w ++ tr)%list
      /\ forallb is_idle tr = true /\ said_by w tr.
Proof.
  induction fuel as [|fuel IH]; intros start timeout t w img due st Hc Hp Hf Hd Hs Hfuel.
  - cbn in Hfuel. lia.
  - rewrite Nat2Z.inj_succ in Hfuel.
    cbn [wait_loop]. mstep. unfold waitpid_nohang. rewrite Hc, Hp, Z.eqb_refl.
    cbn [has_exited].
    destruct (due <=? clock w) eqn:E.
    + mstep. rewrite Z.eqb_refl.
      exists (log (EvWaitpid (fork_result w) (fork_result w))
                (set_child Reaped (log_all (written w (Some (due, st))) w))),
             (written w (Some (due, st))
              ++ [EvWaitpid (fork_result w) (fork_result w)])%list.
      destruct (log_all_rest (written w (Some (due, st))) w) as (_ & Hfr & _).
      repeat split.
      * wsimpl. exact Hfr.
      * wsimpl. rewrite log_all_trace, <- app_assoc. reflexivity.
      * rewrite forallb_app, written_idle. reflexivity.
      * apply said_by_app; [apply written_said|apply poll_said; reflexivity].
    + mstep. apply Z.leb_gt in E.
      replace (0 =? fork_result w) with false by (symmetry; apply Z.eqb_neq; lia).
      replace (0 =? -1) with false by reflexivity.
      mstep. rewrite quot_1000_lt by (wsimpl; lia). mstep.
      destruct (IH start timeout t (sleep_for 100 (log (EvWaitpid (fork_result w) 0) w)) img due st)
        as (w' & tr & Hr & Hch & Hfr & Htr & Hq & Hsaid);
        [exact Hc | exact Hp | exact Hf | exact Hd | wsimpl; lia | wsimpl; lia | ].
      exists w', (EvWaitpid (fork_result w) 0 :: EvSleep 100 :: tr).
      rewrite Hr. repeat split; auto.
      * rewrite Htr. cbn. rewrite <- !app_assoc. reflexivity.
      * change (EvWaitpid (fork_result w) 0 :: EvSleep 100 :: tr)
          with ([EvWaitpid (fork_result w) 0; EvSleep 100] ++ tr)%list.
        apply said_by_app; [apply poll_said; reflexivity|].
        revert Hsaid. apply said_by_same. reflexivity.
Qed.

Lemma wait_loop_times_out (fuel : nat) :
  forall start timeout t w img due k,
    child w = Child img due ->
    child_pid t = fork_result w -> 0 < fork_result w ->
    has_exited due (start + 1000 * timeout) = false ->
    clock w = start + 100 * k -> 0 <= k <= 10 * timeout ->
    10 * timeout - k < Z.of_nat fuel ->
    exists tr,
      wait_loop fuel start timeout (mkState t w)
      = Ret false (mkState t (mkWorld (start + 1000 * timeout) (fork_result w)
                                (execvp w) (child w) (trace w ++ tr) (pending w)))
      /\ forallb is_poll tr = true.
Proof.
  induction fuel as [|fuel IH]; intros start timeout t w img due k Hc Hp Hf Hd Hk Hk' Hfuel.
  - lia.
  - rewrite Nat2Z.inj_succ in Hfuel.
    assert (Hnow : has_exited due (clock w) = false).
    { destruct due as [[d st]|]; cbn [has_exited] in *; [|reflexivity].
      apply Z.leb_gt. apply Z.leb_gt in Hd. lia. }
    cbn [wait_loop]. mstep. unfold waitpid_nohang. rewrite Hc, Hp, Z.eqb_refl, Hnow.
    mstep.
    replace (0 =? fork_result w) with false by (symmetry; apply Z.eqb_neq; lia).
    replace (0 =? -1) with false by reflexivity.
    mstep.
    destruct (Z.eq_dec k (10 * timeout)) as [Hlast|Hmore].
    + rewrite quot_1000_ge by (wsimpl; lia).
      exists [EvWaitpid (fork_result w) 0]. split; [|reflexivity].
      do 2 f_equal. unfold log. rewrite Hc. f_equal. lia.
    + rewrite quot_1000_lt by (wsimpl; lia). mstep.
      destruct (IH start timeout t (sleep_for 100 (log (EvWaitpid (fork_result w) 0) w))
                  img due (k + 1))
        as (tr & Hr & Hq);
        [exact Hc | exact Hp | exact Hf | exact Hd | wsimpl; lia | lia | lia | ].
      exists (EvWaitpid (fork_result w) 0 :: EvSleep 100 :: tr).
      rewrite Hr. split; [|exact Hq].
      wsimpl. rewrite Hc, <- !app_assoc. reflexivity.
Qed.

(** One poll, whatever the world: the clock stands still, and the trace
    grows by what the child wrote, if it is found ended, and by the event
    of the call. *)
Lemma waitpid_nohang_any pid w :
  exists r w1 tr,
    waitpid_nohang pid w = (r, w1)
    /\ fork_result w1 = fork_result w /\ clock w1 = clock w
    /\ trace w1 = (trace w ++ tr)%list
    /\ forallb is_idle tr = true /\ said_by w tr
    /\ (pending w1 = pending w \/ pending w1 = None).
Proof.
  assert (Hone : forall r, forallb is_idle [EvWaitpid pid r] = true
                           /\ said_by w [EvWaitpid pid r]).
  { intros r. split; [reflexivity|apply poll_said; reflexivity]. }
  unfold waitpid_nohang.
  destruct (child w) as [|img due|];
    [| destruct (pid =? fork_result w); [destruct (has_exited due (clock w))|] |].
  2:{ destruct (log_all_rest (written w due) w) as (Hck & Hfr & _).
      eexists _, _, (written w due ++ [EvWaitpid pid pid])%list.
      split; [reflexivity|]. wsimpl. repeat split; auto.
      - rewrite log_all_trace, <- app_assoc. reflexivity.
      - rewrite forallb_app, written_idle. reflexivity.
      - apply said_by_app; [apply written_said|apply poll_said; reflexivity]. }
  all: eexists _, _, [_]; (split; [reflexivity|]); wsimpl;
    repeat split; auto; apply Hone.
Qed.

(** Whatever the world, a wait only polls: the object is unchanged and the
    trace grows by [waitpid] and [sleep] events and by what the child wrote
    as it ended. *)
Lemma wait_loop_polls (fuel : nat) :
  forall start timeout s,
    match wait_loop fuel start timeout s with
    | Ret _ s' =>
        self s' = self s /\ fork_result (os s') = fork_result (os s)
        /\ clock (os s) <= clock (os s')
        /\ (pending (os s') = pending (os s) \/ pending (os s') = None)
        /\ exists tr, trace (os s') = (trace (os s) ++ tr)%list
                      /\ forallb is_idle tr = true /\ said_by (os s) tr
    | OutOfFuel => True
    | _ => False
    end.
Proof.
  induction fuel as [|fuel IH]; intros start timeout [t w]; [exact I|].
  cbn [wait_loop]. mstep.
  destruct (waitpid_nohang_any (child_pid t) w)
    as (r & w1 & tr1 & -> & Hfr & Hck & Htr & Hq1 & Hs1 & Hp1).
  mstep.
  destruct (r =? child_pid t).
  { mstep. repeat split; try assumption; try lia. eexists; repeat split; eassumption. }
  destruct (r =? -1).
  { mstep. repeat split; try assumption; try lia. eexists; repeat split; eassumption. }
  mstep. destruct (_ >=? timeout).
  { mstep. repeat split; try assumption; try lia. eexists; repeat split; eassumption. }
  mstep. specialize (IH start timeout (mkState t (sleep_for 100 w1))).
  destruct (wait_loop fuel start timeout _) as [b s'| | | |]; try exact IH.
  cbn [self os] in IH. destruct IH as (Hs & Hf' & Hc' & Hp' & tr & Ht' & Hq & Hsaid).
  revert Hp' Hsaid. wsimpl. intros Hp' Hsaid.
  repeat split; try assumption.
  - rewrite Hf'. exact Hfr.
  - revert Hc'. wsimpl. lia.
  - destruct Hp' as [Hp'|Hp']; [rewrite Hp'; exact Hp1|right; exact Hp'].
  - exists (tr1 ++ EvSleep 100 :: tr)%list. repeat split.
    + rewrite Ht'. wsimpl. rewrite Htr, <- !app_assoc. reflexivity.
    + rewrite forallb_app, Hq1. cbn. exact Hq.
    + apply said_by_app; [exact Hs1|].
      change (EvSleep 100 :: tr) with ([EvSleep 100] ++ tr)%list.
      apply said_by_app; [apply poll_said; reflexivity|].
      intros line Hin. destruct (Hsaid line Hin) as (t0 & lines & Hpd & Hl).
      destruct Hp1 as [Hp1|Hp1]; [|cbn [pending sleep_for log set_clock] in Hpd; congruence].
      exists t0, lines. split; [|exact Hl].
      cbn [pending sleep_for log set_clock] in Hpd. congruence.
Qed.

(** With enough fuel a wait returns, whatever the child does. *)
Lemma wait_loop_returns (fuel : nat) :
  forall start timeout s k,
    clock (os s) = start + 100 * k -> 0 <= k ->
    Z.max 0 (10 * timeout - k) < Z.of_nat fuel ->
    exists b s', wait_loop fuel start timeout s = Ret b s'.
Proof.
  induction fuel as [|fuel IH]; intros start timeout [t w] k Hk Hk0 Hfuel; [lia|].
  rewrite Nat2Z.inj_succ in Hfuel. cbn [os] in Hk.
  cbn [wait_loop]. mstep.
  destruct (waitpid_nohang_any (child_pid t) w) as (r & w1 & tr1 & -> & _ & Hck & _).
  mstep.
  destruct (r =? child_pid t); [eexists _, _; reflexivity|].
  destruct (r =? -1); [eexists _, _; reflexivity|].
  mstep. destruct (_ >=? timeout) eqn:E; [eexists _, _; reflexivity|].
  mstep. apply (IH start timeout _ (k + 1)); cbn [os]; wsimpl; try lia.
  rewrite Hck, Hk, Z.geb_leb in E. apply Z.leb_gt in E.
  rewrite Z.quot_div_nonneg in E by lia.
  replace (start + 100 * k - start) with (k * 100) in E by lia.
  replace 1000 with (10 * 100) in E by lia.
  rewrite Z.div_mul_cancel_r in E by lia.
  pose proof (Z.mul_succ_div_gt k 10). lia.
Qed.

Lemma bind_Ret {A B} (m : M A) (k : A -> M B) (s s' : state) (a : A) :
  m s = Ret a s' -> bind m k s = k a s'.
Proof. intros H. unfold bind. rewrite H. reflexivity. Qed.

Lemma wait_for_process_exit_seen (fuel : nat) timeout t w img due st :
  child w = Child img (Some (due, st)) ->
  child_pid t = fork_result w -> 0 < fork_result w ->
  due <= clock w + 1000 * timeout -> 0 <= timeout ->
  10 * timeout < Z.of_nat fuel ->
  exists w' tr,
    wait_for_process fuel timeout (mkState t w) = Ret true (mkState t w')
    /\ child w' = Reaped
    /\ fork_result w' = fork_result w
    /\ trace w' = (trace w ++ tr)%list
    /\ forallb is_idle tr = true /\ said_by w tr.
Proof.
  intros Hc Hp Hf Hd Ht Hfuel. unfold wait_for_process. mstep.
  replace (child_pid t =? -1) with false by (symmetry; apply Z.eqb_neq; lia).
  mstep. eapply wait_loop_exit_seen; eauto; lia.
Qed.

Lemma wait_for_process_times_out (fuel : nat) timeout t w img due :
  child w = Child img due ->
  child_pid t = fork_result w -> 0 < fork_result w ->
  has_exited due (clock w + 1000 * timeout) = false -> 0 <= timeout ->
  10 * timeout < Z.of_nat fuel ->
  exists tr,
    wait_for_process fuel timeout (mkState t w)
    = Ret false (mkState t (mkWorld (clock w + 1000 * timeout) (fork_result w)
                              (execvp w) (child w) (trace w ++ tr) (pending w)))
    /\ forallb is_poll tr = true.
Proof.
  intros Hc Hp Hf Hd Ht Hfuel. unfold wait_for_process. mstep.
  replace (child_pid t =? -1) with false by (symmetry; apply Z.eqb_neq; lia).
  mstep. eapply (wait_loop_times_out fuel (clock w) timeout t w img due 0); eauto; lia.
Qed.

Lemma wait_for_process_polls (fuel : nat) timeout s :
  match wait_for_process fuel timeout s with
  | Ret _ s' =>
      self s' = self s /\ fork_result (os s') = fork_result (os s)
      /\ clock (os s) <= clock (os s')
      /\ (pending (os s') = pending (os s) \/ pending (os s') = None)
      /\ exists tr, trace (os s') = (trace (os s) ++ tr)%list
                    /\ forallb is_idle tr = true /\ said_by (os s) tr
  | OutOfFuel => True
  | _ => False
  end.
Proof.
  unfold wait_for_process. mstep. destruct (child_pid (self s) =? -1).
  - mstep. repeat split; try lia; auto. exists []. rewrite app_nil_r.
    repeat split. apply poll_said. reflexivity.
  - mstep. pose proof (wait_loop_polls fuel (clock (os s)) timeout
                         (mkState (self s) (os s))) as H.
    destruct (wait_loop _ _ _ _); auto.
Qed.

Lemma wait_for_process_returns (fuel : nat) timeout s :
  0 <= timeout -> 10 * timeout < Z.of_nat fuel ->
  exists b s', wait_for_process fuel timeout s = Ret b s'.
Proof.
  intros Ht Hfuel. unfold wait_for_process. mstep. destruct (child_pid (self s) =? -1).
  - eexists _, _; reflexivity.
  - mstep. apply (wait_loop_returns fuel _ timeout _ 0); cbn [os]; lia.
Qed.

Lemma start_process_ok t w img :
  command_args t <> [] -> 0 < fork_result w ->
  execvp w (command_args t) = ExecOk img ->
  start_process (mkState t w)
  = Ret true (mkState (set_child_pid (fork_result w) t)
                (log (EvFork (fork_result w))
                   (set_child (Child img (due_at (clock w) img)) w))).
Proof.
  intros Ha Hf He. unfold start_process. mstep.
  destruct (command_args t) as [|a l] eqn:Ea; [congruence|].
  unfold child_branch. mstep. rewrite He. unfold fork.
  apply Z.ltb_lt in Hf as Hf'. rewrite Hf'. cbn [log_all map fold_left]. mstep.
  replace (fork_result w =? -1) with false by (symmetry; apply Z.eqb_neq; lia).
  reflexivity.
Qed.

Lemma start_process_exec_failed t w e after react :
  command_args t <> [] -> 0 < fork_result w ->
  execvp w (command_args t) = ExecFailed e after react ->
  start_process (mkState t w)
  = Ret true (mkState (set_child_pid (fork_result w) t)
                (log (EvFork (fork_result w))
                   (set_pending
                      (Some (clock w + Z.max 0 after,
                             ["Error: failed to execute command"]))
                      (set_child
                         (Child {| own_exit := Some (Z.max 0 after, WExited 127);
                                   on_signal := react |}
                            (Some (clock w + Z.max 0 after, WExited 127))) w)))).
Proof.
  intros Ha Hf He. unfold start_process. mstep.
  destruct (command_args t) as [|a l] eqn:Ea; [congruence|].
  unfold child_branch. mstep. rewrite He. unfold fork.
  apply Z.ltb_lt in Hf as Hf'. rewrite Hf'. cbn [log_all map fold_left]. mstep.
  replace (fork_result w =? -1) with false by (symmetry; apply Z.eqb_neq; lia).
  reflexivity.
Qed.

Lemma start_process_fork_failed t w :
  command_args t <> [] -> fork_result w <= 0 ->
  start_process (mkState t w)
  = Ret false (mkState (set_child_pid (-1) t)
                 (log (EvCerr "Error: failed to fork process")
                    (log (EvFork (-1)) w))).
Proof.
  intros Ha Hf. unfold start_process. mstep.
  destruct (command_args t) as [|a l] eqn:Ea; [congruence|].
  mstep. destruct (child_branch (a :: l) w) as [image msg]. unfold fork.
  replace (0 <? fork_result w) with false by (symmetry; apply Z.ltb_ge; lia).
  mstep. reflexivity.
Qed.

Lemma terminate_process_spec t w :
  child_pid t <> -1 ->
  terminate_process (mkState t w)
  = Ret tt (mkState t
              (kill (child_pid t) (parse_signal (signal_name t))
                 (log_all (when_verbose t (signal_line (parse_signal (signal_name t))
                                             (child_pid t))) w))).
Proof.
  intros Hp. unfold terminate_process, when_verbose, signal_line. mstep.
  replace (child_pid t =? -1) with false by (symmetry; apply Z.eqb_neq; lia).
  cbn [negb]. destruct (verbose t); mstep; reflexivity.
Qed.

Lemma kill_process_spec t w :
  child_pid t <> -1 ->
  kill_process (mkState t w)
  = Ret tt (mkState t
              (kill (child_pid t) SIGKILL
                 (log_all (when_verbose t (sigkill_line (child_pid t))) w))).
Proof.
  intros Hp. unfold kill_process, when_verbose, sigkill_line. mstep.
  replace (child_pid t =? -1) with false by (symmetry; apply Z.eqb_neq; lia).
  cbn [negb]. destruct (verbose t); mstep; reflexivity.
Qed.
End Waiting.

(** ** Reporting: what a run adds to the trace, whatever the world *)

Section Reporting.
Context {P : Platform}.


Lemma balanced_idle v w tr :
  calm w -> forallb is_idle tr = true -> said_by w tr -> balanced v tr.
Proof.
  intros Hc Hi Hs.
  assert (H : filter is_diagnostic tr = [] /\ filter is_action tr = []).
  { induction tr as [|e tr IH]; [split; reflexivity|].
    cbn [forallb] in Hi. apply andb_prop in Hi as [He Ht].
    destruct IH as [IH1 IH2]; [exact Ht|intros line H; apply Hs; right; exact H|].
    destruct e; try discriminate; cbn [filter is_diagnostic is_action];
      try (split; assumption).
    destruct (Hs line (or_introl eq_refl)) as (t0 & lines & Hp & Hl).
    rewrite (Hc _ _ _ Hp Hl). split; assumption. }
  unfold balanced. destruct H as [-> ->]. destruct v; reflexivity.
Qed.

Lemma start_process_any t w :
  exists b t1 w1 tr,
    start_process (mkState t w) = Ret b (mkState t1 w1)
    /\ t1 = set_child_pid (child_pid t1) t
    /\ trace w1 = (trace w ++ tr)%list
    /\ (forall v, balanced v tr)
    /\ (b = true -> calm w1).
Proof.
  unfold start_process. mstep. destruct (command_args t) as [|a l] eqn:Ea.
  - exists false, t, w, []. rewrite app_nil_r. repeat split; try discriminate.
    + destruct t; reflexivity.
    + intros []; reflexivity.
  - mstep. unfold child_branch, fork.
    destruct (execvp w (a :: l)) as [img|e after react];
      destruct (0 <? fork_result w) eqn:Ef; mstep.
    + apply Z.ltb_lt in Ef.
      replace (fork_result w =? -1) with false by (symmetry; apply Z.eqb_neq; lia).
      eexists _, _, _, [_]. repeat split; [intros []; reflexivity|].
      intros _ t0 lines line Hp. discriminate Hp.
    + cbn [Z.eqb Pos.eqb]. mstep. eexists _, _, _, [_; _]. repeat split; try discriminate.
      * wsimpl. rewrite <- app_assoc. reflexivity.
      * intros []; reflexivity.
    + apply Z.ltb_lt in Ef.
      replace (fork_result w =? -1) with false by (symmetry; apply Z.eqb_neq; lia).
      eexists _, _, _, [_]. repeat split; [intros []; reflexivity|].
      intros _ t0 lines line Hp Hl. cbn in Hp. injection Hp as _ <-.
      destruct Hl as [<-|[]]. reflexivity.
    + cbn [Z.eqb Pos.eqb]. mstep. eexists _, _, _, [_; _]. repeat split; try discriminate.
      * wsimpl. rewrite <- app_assoc. reflexivity.
      * intros []; reflexivity.
Qed.

Lemma kill_pending pid sig w : pending (kill pid sig w) = pending w.
Proof.
  unfold kill. destruct (child w); [| destruct (pid =? fork_result w) |]; reflexivity.
Qed.

Lemma kill_trace pid sig w : trace (kill pid sig w) = (trace w ++ [EvKill pid sig])%list.
Proof.
  unfold kill. destruct (child w); [| destruct (pid =? fork_result w) |]; reflexivity.
Qed.

Lemma terminate_process_any t w :
  exists w1 tr,
    terminate_process (mkState t w) = Ret tt (mkState t w1)
    /\ trace w1 = (trace w ++ tr)%list
    /\ balanced (verbose t) tr
    /\ pending w1 = pending w.
Proof.
  unfold terminate_process. mstep. destruct (child_pid t =? -1); cbn [negb].
  - exists w, []. rewrite app_nil_r. repeat split. destruct (verbose t); reflexivity.
  - destruct (verbose t) eqn:Ev; mstep.
    + eexists _, [EvCerr (signal_line (parse_signal (signal_name t)) (child_pid t)); EvKill (child_pid t) (parse_signal (signal_name t))].
      split; [reflexivity|]. rewrite kill_pending. split; [|split; reflexivity].
      rewrite kill_trace. wsimpl. rewrite <- app_assoc. reflexivity.
    + eexists _, [EvKill (child_pid t) (parse_signal (signal_name t))].
      split; [reflexivity|]. rewrite kill_pending. split; [|split; reflexivity].
      rewrite kill_trace. reflexivity.
Qed.

Lemma kill_process_any t w :
  exists w1 tr,
    kill_process (mkState t w) = Ret tt (mkState t w1)
    /\ trace w1 = (trace w ++ tr)%list
    /\ balanced (verbose t) tr
    /\ pending w1 = pending w.
Proof.
  unfold kill_process. mstep. destruct (child_pid t =? -1); cbn [negb].
  - exists w, []. rewrite app_nil_r. repeat split. destruct (verbose t); reflexivity.
  - destruct (verbose t) eqn:Ev; mstep.
    + eexists _, [EvCerr (sigkill_line (child_pid t)); EvKill (child_pid t) (SIGKILL)].
      split; [reflexivity|]. rewrite kill_pending. split; [|split; reflexivity].
      rewrite kill_trace. wsimpl. rewrite <- app_assoc. reflexivity.
    + eexists _, [EvKill (child_pid t) (SIGKILL)].
      split; [reflexivity|]. rewrite kill_pending. split; [|split; reflexivity].
      rewrite kill_trace. reflexivity.
Qed.

Lemma calm_kept w w1 :
  pending w1 = pending w \/ pending w1 = None -> calm w -> calm w1.
Proof.
  intros [H|H] Hc t0 lines line Hp; rewrite H in Hp; [eauto|discriminate].
Qed.

Lemma wait_for_process_any fuel timeout t w b s' :
  wait_for_process fuel timeout (mkState t w) = Ret b s' ->
  exists w1 tr, s' = mkState t w1
    /\ trace w1 = (trace w ++ tr)%list
    /\ (calm w -> (forall v, balanced v tr) /\ calm w1).
Proof.
  intros H. pose proof (wait_for_process_polls fuel timeout (mkState t w)) as Hp.
  rewrite H in Hp. destruct s' as [t' w1]. cbn [self os] in Hp.
  destruct Hp as (-> & _ & _ & Hpd & tr & Ht & Hq & Hs).
  exists w1, tr. repeat split; auto.
  - intros v. apply (balanced_idle v w); assumption.
  - apply (calm_kept w); assumption.
Qed.

End Reporting.

(** ** Supervision: the paths of [run] *)

Section Supervision.
Context {P : Platform}.

Lemma kill_child pid sig w img due :
  child w = Child img due -> pid = fork_result w ->
  child (kill pid sig w) = Child img (deliver sig img due (clock w))
  /\ clock (kill pid sig w) = clock w
  /\ fork_result (kill pid sig w) = fork_result w.
Proof.
  intros Hc ->. unfold kill. rewrite Hc, Z.eqb_refl. auto.
Qed.

Lemma polls_no_action tr : forallb is_poll tr = true -> filter is_action tr = [].
Proof.
  induction tr as [|e tr IH]; cbn; intros H; [reflexivity|].
  apply andb_prop in H as [He Ht]. destruct e; try discriminate; cbn; auto.
Qed.

Lemma idle_no_action tr : forallb is_idle tr = true -> filter is_action tr = [].
Proof.
  induction tr as [|e tr IH]; cbn; intros H; [reflexivity|].
  apply andb_prop in H as [He Ht]. destruct e; try discriminate; cbn; auto.
Qed.

Lemma when_verbose_no_action t line : filter is_action (when_verbose t line) = [].
Proof. unfold when_verbose. destruct (verbose t); reflexivity. Qed.

(** C1, as far as the code goes.  A command that ends by itself before the
    deadline (after [d] ms, with whatever status [st], so also [WExited c]
    for any [c]) makes [run] return, for every non-negative duration and
    whatever [preserve_status]; the child is reaped.  The value returned is
    0 and not the command's code: [wait_for_process] drops the status
    [waitpid] gave it. *)
Theorem run_returns_0_on_timely_exit fuel t w img d st :
  command_args t <> [] -> 0 < fork_result w ->
  execvp w (command_args t) = ExecOk img ->
  own_exit img = Some (d, st) ->
  0 <= duration_seconds t -> d <= 1000 * duration_seconds t ->
  10 * duration_seconds t < Z.of_nat fuel ->
  exists s', run fuel (mkState t w) = Ret 0 s' /\ child (os s') = Reaped.
Proof.
  intros Ha Hf He Hown HD Hd Hfuel. unfold run.
  rewrite (bind_Ret _ _ _ _ _ (start_process_ok t w img Ha Hf He)). cbn [negb].
  unfold bind at 1. unfold this at 1. cbn [self].
  destruct (wait_for_process_exit_seen fuel (duration_seconds t)
              (set_child_pid (fork_result w) t)
              (log (EvFork (fork_result w))
                 (set_child (Child img (due_at (clock w) img)) w))
              img (clock w + d) st)
    as (w2 & tr & Hw & Hc2 & _);
    [ wsimpl; unfold due_at; rewrite Hown; reflexivity
    | reflexivity | exact Hf | wsimpl; lia | exact HD | exact Hfuel | ].
  cbn [set_child_pid duration_seconds].
  rewrite (bind_Ret _ _ _ _ _ Hw). eexists. split; [reflexivity|exact Hc2].
Qed.

(** The timeout path up to the initial signal: whatever follows
    [terminate_process] in [run] starts in the world [signalled]. *)
Lemma timeout_path (k : M Z) fuel t w img :
  command_args t <> [] -> 0 < fork_result w ->
  execvp w (command_args t) = ExecOk img ->
  0 <= duration_seconds t ->
  has_exited (due_at (clock w) img) (clock w + 1000 * duration_seconds t) = false ->
  10 * duration_seconds t < Z.of_nat fuel ->
  exists polls,
    forallb is_poll polls = true /\
    (started <- start_process ;;
     if negb started then ret 125 else
     t0 <- this ;;
     finished <- wait_for_process fuel (duration_seconds t0) ;;
     if finished then ret 0 else
     terminate_process ;; k)%monad (mkState t w)
    = k (mkState (set_child_pid (fork_result w) t) (signalled t img polls w)).
Proof.
  intros Ha Hf He HD Halive Hfuel.
  rewrite (bind_Ret _ _ _ _ _ (start_process_ok t w img Ha Hf He)). cbn [negb].
  unfold bind at 1. unfold this at 1. cbn [self].
  destruct (wait_for_process_times_out fuel (duration_seconds t)
              (set_child_pid (fork_result w) t) (spawned img w)
              img (due_at (clock w) img))
    as (polls & Hw & Hq);
    [ reflexivity | reflexivity | exact Hf | exact Halive | exact HD | exact Hfuel | ].
  exists polls. split; [exact Hq|].
  cbn [set_child_pid duration_seconds]. unfold spawned in Hw |- *.
  rewrite (bind_Ret _ _ _ _ _ Hw).
  assert (Hpid : child_pid (set_child_pid (fork_result w) t) <> -1)
    by (cbn [child_pid set_child_pid]; lia).
  rewrite (bind_Ret _ _ _ _ _ (terminate_process_spec _ _ Hpid)).
  unfold signalled. wsimpl. cbn [child_pid set_child_pid signal_name verbose when_verbose].
  rewrite <- app_assoc. reflexivity.
Qed.

Ltac on_timeout_path fuel t w img Ha Hf He HD Halive Hfuel polls Hq :=
  unfold run;
  match goal with
  | |- context [bind terminate_process (fun _ => ?k)] =>
      destruct (timeout_path k fuel t w img Ha Hf He HD Halive Hfuel)
        as (polls & Hq & ->)
  end;
  unfold bind at 1; unfold this at 1; cbn [self].

Lemma signalled_facts t img polls w :
  let T1 := clock w + 1000 * duration_seconds t in
  child (signalled t img polls w)
  = Child img (deliver (parse_signal (signal_name t)) img (due_at (clock w) img) T1)
  /\ clock (signalled t img polls w) = T1
  /\ fork_result (signalled t img polls w) = fork_result w
  /\ execvp (signalled t img polls w) = execvp w
  /\ trace (signalled t img polls w)
     = (trace w ++ EvFork (fork_result w) :: polls
        ++ when_verbose t (signal_line (parse_signal (signal_name t)) (fork_result w))
        ++ [EvKill (fork_result w) (parse_signal (signal_name t))])%list.
Proof.
  cbv zeta. unfold signalled.
  set (w2 := mkWorld _ _ _ _ _ _). set (es := when_verbose _ _).
  destruct (log_all_rest es w2) as (Hc & Hf & Hch & He).
  destruct (kill_child (fork_result w) (parse_signal (signal_name t)) (log_all es w2)
              img (due_at (clock w) img)) as (Hk1 & Hk2 & Hk3).
  { rewrite Hch. reflexivity. } { rewrite Hf. reflexivity. }
  rewrite Hk1, Hk2, Hk3, Hc, Hf. repeat split.
  - unfold kill. rewrite Hch. cbn [child w2]. rewrite Hf. cbn [fork_result w2].
    rewrite Z.eqb_refl. cbn [execvp log set_child]. exact He.
  - rewrite kill_trace, log_all_trace. cbn [trace w2].
    rewrite <- !app_assoc. reflexivity.
Qed.

(** C2, as far as the code goes.  The deadline elapses with the child
    still running, the initial signal is sent, and the child ends within
    the [kill_after_seconds] that follow: [run] returns 124 when
    [preserve_status] is off, SIGKILL is never sent, and the child is
    reaped.  When [preserve_status] is on it returns 0, whatever status the
    child ended with. *)
Theorem grace_exit_status fuel t w img :
  let T1 := clock w + 1000 * duration_seconds t in
  let signal := parse_signal (signal_name t) in
  command_args t <> [] -> 0 < fork_result w ->
  execvp w (command_args t) = ExecOk img ->
  0 <= duration_seconds t -> 0 < kill_after_seconds t ->
  has_exited (due_at (clock w) img) T1 = false ->
  has_exited (deliver signal img (due_at (clock w) img) T1)
    (T1 + 1000 * kill_after_seconds t) = true ->
  10 * Z.max (duration_seconds t) (kill_after_seconds t) < Z.of_nat fuel ->
  exists s' tr,
    run fuel (mkState t w) = Ret (if preserve_status t then 0 else 124) s'
    /\ child (os s') = Reaped
    /\ trace (os s') = (trace w ++ tr)%list
    /\ filter is_action tr = [EvKill (fork_result w) signal].
Proof.
  intros T1 signal Ha Hf He HD HK Halive Hgrace Hfuel.
  assert (Hfuel1 : 10 * duration_seconds t < Z.of_nat fuel) by lia.
  on_timeout_path fuel t w img Ha Hf He HD Halive Hfuel1 polls Hq.
  cbn [set_child_pid kill_after_seconds preserve_status].
  replace (kill_after_seconds t >? 0) with true by (symmetry; apply Z.gtb_lt; lia).
  destruct (signalled_facts t img polls w) as (Hc & Hck & Hfr & _ & Htr).
  fold T1 signal in Hc, Hck, Htr.
  destruct (deliver signal img (due_at (clock w) img) T1) as [[due st]|] eqn:Edue;
    [|discriminate].
  cbn [has_exited] in Hgrace. apply Z.leb_le in Hgrace.
  destruct (wait_for_process_exit_seen fuel (kill_after_seconds t)
              (set_child_pid (fork_result w) t) (signalled t img polls w) img due st)
    as (w4 & tr4 & Hw4 & Hc4 & Hf4 & Htr4 & Hq4);
    [ exact Hc | cbn [child_pid set_child_pid]; symmetry; exact Hfr
    | rewrite Hfr; exact Hf | rewrite Hck; exact Hgrace | lia | lia | ].
  rewrite (bind_Ret _ _ _ _ _ Hw4). eexists _, _. split; [reflexivity|].
  cbn [os]. split; [exact Hc4|]. rewrite Htr4, Htr. split.
  - rewrite <- app_assoc. reflexivity.
  - cbn [app filter is_action]. rewrite !filter_app, (polls_no_action _ Hq),
      (idle_no_action _ (proj1 Hq4)), when_verbose_no_action. reflexivity.
Qed.

(** C6.  The deadline elapses, the initial signal is sent, and the child
    is still running when the [kill_after_seconds] that follow have
    elapsed too: [run] sends SIGKILL (after the initial signal and nothing
    else), returns 137 whatever [preserve_status], and does return, 100 ms
    after the end of the grace window; the child has been killed. *)
Theorem escalation_returns_137 fuel t w img :
  let T1 := clock w + 1000 * duration_seconds t in
  let T2 := T1 + 1000 * kill_after_seconds t in
  let signal := parse_signal (signal_name t) in
  command_args t <> [] -> 0 < fork_result w ->
  execvp w (command_args t) = ExecOk img ->
  0 <= duration_seconds t -> 0 < kill_after_seconds t ->
  has_exited (due_at (clock w) img) T1 = false ->
  has_exited (deliver signal img (due_at (clock w) img) T1) T2 = false ->
  10 * Z.max (duration_seconds t) (kill_after_seconds t) < Z.of_nat fuel ->
  exists s' tr,
    run fuel (mkState t w) = Ret 137 s'
    /\ trace (os s') = (trace w ++ tr)%list
    /\ filter is_action tr
       = [EvKill (fork_result w) signal; EvKill (fork_result w) SIGKILL]
    /\ child (os s') = Child img (Some (T2, WSignaled SIGKILL))
    /\ clock (os s') = T2 + 100.
Proof.
  intros T1 T2 signal Ha Hf He HD HK Halive Hgrace Hfuel.
  assert (Hfuel1 : 10 * duration_seconds t < Z.of_nat fuel) by lia.
  on_timeout_path fuel t w img Ha Hf He HD Halive Hfuel1 polls Hq.
  cbn [set_child_pid kill_after_seconds preserve_status].
  replace (kill_after_seconds t >? 0) with true by (symmetry; apply Z.gtb_lt; lia).
  destruct (signalled_facts t img polls w) as (Hc & Hck & Hfr & Hex & Htr).
  fold T1 signal in Hc, Hck, Htr.
  set (due1 := deliver signal img (due_at (clock w) img) T1) in *.
  destruct (wait_for_process_times_out fuel (kill_after_seconds t)
              (set_child_pid (fork_result w) t) (signalled t img polls w) img due1)
    as (polls2 & Hw4 & Hq4);
    [ exact Hc | cbn [child_pid set_child_pid]; symmetry; exact Hfr
    | rewrite Hfr; exact Hf | rewrite Hck; exact Hgrace | lia | lia | ].
  rewrite (bind_Ret _ _ _ _ _ Hw4).
  assert (Hpid : child_pid (set_child_pid (fork_result w) t) <> -1)
    by (cbn [child_pid set_child_pid]; lia).
  rewrite (bind_Ret _ _ _ _ _ (kill_process_spec _ _ Hpid)).
  mstep. eexists _, _. split; [reflexivity|]. cbn [os].
  cbn [child_pid set_child_pid verbose].
  set (w4 := mkWorld _ _ _ _ _ _). set (es := when_verbose _ _).
  destruct (log_all_rest es w4) as (Hc5 & Hf5 & Hch5 & _).
  destruct (kill_child (fork_result w) SIGKILL (log_all es w4) img due1)
    as (Hk1 & Hk2 & Hk3).
  { rewrite Hch5. exact Hc. } { rewrite Hf5. symmetry. exact Hfr. }
  wsimpl. rewrite Hk1, Hk2, Hc5, kill_trace, log_all_trace.
  subst w4. cbn [clock trace]. rewrite Hck, Htr.
  fold T2. split; [|split; [|split]].
  - rewrite <- !app_assoc. reflexivity.
  - cbn [app filter is_action]. rewrite !filter_app, (polls_no_action _ Hq),
      (polls_no_action _ Hq4). unfold es. rewrite !when_verbose_no_action. reflexivity.
  - unfold deliver. rewrite Hgrace, Z.eqb_refl. reflexivity.
  - reflexivity.
Qed.

(** C3, as the code has it.  Without a kill-after time
    ([kill_after_seconds] is 0), once the deadline has elapsed [run] sends
    the initial signal and returns at that very instant: the signal is the
    last thing it does, the clock still shows the deadline, the child has
    not been waited for again, and the result is 124 when
    [preserve_status] is off. *)
Theorem no_kill_after_returns_at_once fuel t w img :
  let T1 := clock w + 1000 * duration_seconds t in
  let signal := parse_signal (signal_name t) in
  command_args t <> [] -> 0 < fork_result w ->
  execvp w (command_args t) = ExecOk img ->
  0 <= duration_seconds t -> kill_after_seconds t = 0 ->
  has_exited (due_at (clock w) img) T1 = false ->
  10 * duration_seconds t < Z.of_nat fuel ->
  exists code s' tr,
    run fuel (mkState t w) = Ret code s'
    /\ (preserve_status t = false -> code = 124)
    /\ clock (os s') = T1
    /\ trace (os s') = (trace w ++ tr ++ [EvKill (fork_result w) signal])%list
    /\ child (os s') = Child img (deliver signal img (due_at (clock w) img) T1).
Proof.
  intros T1 signal Ha Hf He HD HK Halive Hfuel.
  on_timeout_path fuel t w img Ha Hf He HD Halive Hfuel polls Hq.
  cbn [set_child_pid kill_after_seconds preserve_status]. rewrite HK.
  change (0 >? 0) with false. cbv beta iota.
  destruct (signalled_facts t img polls w) as (Hc & Hck & Hfr & Hex & Htr).
  exists (if preserve_status t then 0 else 124).
  eexists _, (EvFork (fork_result w) :: polls ++ when_verbose t _)%list.
  split; [reflexivity|]. cbn [os]. split; [|split; [|split]].
  - intros ->. reflexivity.
  - exact Hck.
  - rewrite Htr. cbn [app]. rewrite <- !app_assoc. reflexivity.
  - exact Hc.
Qed.

(** A wait of zero seconds is a single poll. *)
Lemma wait_for_process_zero fuel t w img due :
  child w = Child img due ->
  child_pid t = fork_result w -> 0 < fork_result w ->
  has_exited due (clock w) = false ->
  wait_for_process (S fuel) 0 (mkState t w)
  = Ret false (mkState t (log (EvWaitpid (fork_result w) 0) w)).
Proof.
  intros Hc Hp Hf Hd. unfold wait_for_process. mstep.
  replace (child_pid t =? -1) with false by (symmetry; apply Z.eqb_neq; lia).
  cbn [wait_loop]. mstep. unfold waitpid_nohang. rewrite Hc, Hp, Z.eqb_refl, Hd.
  mstep.
  replace (0 =? fork_result w) with false by (symmetry; apply Z.eqb_neq; lia).
  replace (0 =? -1) with false by reflexivity.
  mstep. wsimpl. rewrite Z.sub_diag. reflexivity.
Qed.

(** With enough fuel [run] returns, whatever the child does. *)
Theorem run_returns fuel t w :
  0 <= duration_seconds t -> 0 <= kill_after_seconds t ->
  10 * Z.max (duration_seconds t) (kill_after_seconds t) < Z.of_nat fuel ->
  exists code s', run fuel (mkState t w) = Ret code s'.
Proof.
  intros HD HK Hfuel. unfold run.
  destruct (start_process_any t w) as (b & t1 & w1 & tr1 & Hs & Ht1 & _).
  rewrite (bind_Ret _ _ _ _ _ Hs).
  assert (Hd1 : duration_seconds t1 = duration_seconds t) by (rewrite Ht1; reflexivity).
  assert (Hk1 : kill_after_seconds t1 = kill_after_seconds t) by (rewrite Ht1; reflexivity).
  destruct b; cbn [negb]; [|eexists _, _; reflexivity].
  unfold bind at 1. unfold this at 1. cbn [self].
  destruct (wait_for_process_returns fuel (duration_seconds t1) (mkState t1 w1))
    as (f & s2 & Hw); [lia | lia |].
  rewrite (bind_Ret _ _ _ _ _ Hw).
  destruct (wait_for_process_any _ _ _ _ _ _ Hw) as (w2 & tr2 & -> & _).
  destruct f; [eexists _, _; reflexivity|].
  destruct (terminate_process_any t1 w2) as (w3 & tr3 & Hterm & _).
  rewrite (bind_Ret _ _ _ _ _ Hterm).
  unfold bind at 1. unfold this at 1. cbn [self].
  destruct (kill_after_seconds t1 >? 0); [|eexists _, _; reflexivity].
  destruct (wait_for_process_returns fuel (kill_after_seconds t1) (mkState t1 w3))
    as (f & s4 & Hw4); [lia | lia |].
  rewrite (bind_Ret _ _ _ _ _ Hw4).
  destruct (wait_for_process_any _ _ _ _ _ _ Hw4) as (w4 & tr4 & -> & _).
  destruct f; [eexists _, _; reflexivity|].
  destruct (kill_process_any t1 w4) as (w5 & tr5 & Hkill & _).
  rewrite (bind_Ret _ _ _ _ _ Hkill). mstep. eexists _, _; reflexivity.
Qed.

(** What follows the initial signal in [run] returns, and only adds to
    the trace. *)
Lemma after_signal_returns fuel t w :
  0 <= kill_after_seconds t -> 10 * kill_after_seconds t < Z.of_nat fuel ->
  exists code s' tr,
    (t0 <- this ;;
     if kill_after_seconds t0 >? 0 then
       finished <- wait_for_process fuel (kill_after_seconds t0) ;;
       if finished then ret (if preserve_status t0 then 0 else 124)
       else kill_process ;; effect (sleep_for 100) ;; ret 137
     else ret (if preserve_status t0 then 0 else 124))%monad (mkState t w)
    = Ret code s'
    /\ trace (os s') = (trace w ++ tr)%list.
Proof.
  intros HK Hfuel. unfold bind at 1. unfold this at 1. cbn [self].
  destruct (kill_after_seconds t >? 0).
  - destruct (wait_for_process_returns fuel (kill_after_seconds t) (mkState t w))
      as (f & s4 & Hw4); [lia | lia |].
    rewrite (bind_Ret _ _ _ _ _ Hw4).
    destruct (wait_for_process_any _ _ _ _ _ _ Hw4) as (w4 & tr4 & -> & Htr4 & _).
    destruct f; [eexists _, _, _; split; [reflexivity|exact Htr4]|].
    destruct (kill_process_any t w4) as (w5 & tr5 & Hkill & Htr5 & _).
    rewrite (bind_Ret _ _ _ _ _ Hkill). mstep.
    eexists _, _, (tr4 ++ tr5 ++ [EvSleep 100])%list. split; [reflexivity|].
    cbn [os]. wsimpl. rewrite Htr5, Htr4, <- !app_assoc. reflexivity.
  - eexists _, _, []. split; [reflexivity|]. cbn [os]. rewrite app_nil_r. reflexivity.
Qed.

(** C4, as the code has it.  With a duration of exactly 0, [run] polls the
    child once, without sleeping; unless the child has ended by then, the
    deadline counts as elapsed and the initial signal is sent at once:
    there is no run without a timeout. *)
Theorem zero_duration_signals_at_once fuel t w img :
  let signal := parse_signal (signal_name t) in
  let pid := fork_result w in
  command_args t <> [] -> 0 < fork_result w ->
  execvp w (command_args t) = ExecOk img ->
  duration_seconds t = 0 -> 0 <= kill_after_seconds t ->
  has_exited (due_at (clock w) img) (clock w) = false ->
  10 * kill_after_seconds t < Z.of_nat fuel ->
  exists code s' tr,
    run fuel (mkState t w) = Ret code s'
    /\ trace (os s')
       = (trace w ++ [EvFork pid; EvWaitpid pid 0]
          ++ when_verbose t (signal_line signal pid)
          ++ [EvKill pid signal] ++ tr)%list.
Proof.
  intros signal pid Ha Hf He HD HK Halive Hfuel.
  destruct fuel as [|fuel]; [lia|].
  unfold run.
  rewrite (bind_Ret _ _ _ _ _ (start_process_ok t w img Ha Hf He)). cbn [negb].
  unfold bind at 1. unfold this at 1. cbn [self].
  cbn [set_child_pid duration_seconds]. rewrite HD.
  rewrite (bind_Ret _ _ _ _ _
             (wait_for_process_zero fuel (set_child_pid (fork_result w) t)
                (log (EvFork (fork_result w))
                   (set_child (Child img (due_at (clock w) img)) w))
                img (due_at (clock w) img) eq_refl eq_refl Hf Halive)).
  assert (Hpid : child_pid (set_child_pid (fork_result w) t) <> -1)
    by (cbn [child_pid set_child_pid]; lia).
  rewrite (bind_Ret _ _ _ _ _ (terminate_process_spec _ _ Hpid)).
  cbv beta.
  lazymatch goal with
  | |- context [mkState ?t1 ?w3] =>
      destruct (after_signal_returns (S fuel) t1 w3) as (c & s' & tr & Hr & Htr);
        [exact HK | exact Hfuel |]
  end.
  exists c, s', tr. split; [exact Hr|].
  rewrite Htr, kill_trace, log_all_trace. wsimpl.
  cbn [child_pid set_child_pid signal_name verbose when_verbose].
  rewrite <- !app_assoc. reflexivity.
Qed.

(** C5, as far as the code goes.  When [execvp] fails in the child, for
    whatever reason [e] (so for ENOENT as for EACCES), the child exits with
    127, and when it does so by the deadline, [after] milliseconds after
    [fork], [run] sees a child that ended in time and returns 0: neither
    127 nor 126 is ever returned. *)
Theorem exec_failure_returns_0 fuel t w e after react :
  command_args t <> [] -> 0 < fork_result w ->
  execvp w (command_args t) = ExecFailed e after react ->
  0 <= duration_seconds t -> after <= 1000 * duration_seconds t ->
  10 * duration_seconds t < Z.of_nat fuel ->
  exists s', run fuel (mkState t w) = Ret 0 s'.
Proof.
  intros Ha Hf He HD Hafter Hfuel. unfold run.
  rewrite (bind_Ret _ _ _ _ _ (start_process_exec_failed t w e after react Ha Hf He)).
  cbn [negb].
  unfold bind at 1. unfold this at 1. cbn [self].
  lazymatch goal with
  | |- context [bind (wait_for_process _ _) _ (mkState ?t1 ?w1)] =>
      destruct (wait_for_process_exit_seen fuel (duration_seconds t) t1 w1
                  {| own_exit := Some (Z.max 0 after, WExited 127);
                     on_signal := react |}
                  (clock w + Z.max 0 after) (WExited 127))
        as (w2 & tr & Hw & _);
        [ reflexivity | reflexivity | exact Hf | wsimpl; lia | exact HD | exact Hfuel | ]
  end.
  cbn [set_child_pid duration_seconds].
  rewrite (bind_Ret _ _ _ _ _ Hw). eexists. reflexivity.
Qed.

(** X14.  When [fork] fails, [run] returns 125, whatever the loop bound
    and the configuration. *)
Theorem fork_failure_returns_125 fuel t w :
  fork_result w <= 0 ->
  exists s', run fuel (mkState t w) = Ret 125 s'.
Proof.
  intros Hf. unfold run.
  destruct (command_args t) as [|a l] eqn:Ea.
  - unfold start_process. mstep. rewrite Ea. mstep. eexists. reflexivity.
  - assert (Ha : command_args t <> []) by (rewrite Ea; discriminate).
    rewrite (bind_Ret _ _ _ _ _ (start_process_fork_failed t w Ha Hf)).
    eexists. reflexivity.
Qed.
End Supervision.

(** ** [std::stoi] on decimal integers *)

Section Signals.
Context {P : Platform}.

Lemma uint_value_of_uint_acc (d : Decimal.uint) :
  forall acc : positive, Z.pos (Pos.of_uint_acc d acc) = uint_value (Z.pos acc) d.
Proof.
  induction d; intros acc; cbn [Pos.of_uint_acc uint_value];
    try rewrite IHd; try reflexivity; f_equal; lia.
Qed.

Lemma uint_value_of_uint (d : Decimal.uint) : uint_value 0 d = Z.of_uint d.
Proof.
  unfold Z.of_uint.
  induction d; cbn [Pos.of_uint uint_value Z.of_N]; try reflexivity;
    try (rewrite uint_value_of_uint_acc; reflexivity).
  exact IHd.
Qed.

Lemma scan_digits_step (c : ascii) (r : list ascii) acc n :
  isdigit c = true ->
  scan_digits acc n (c :: r) = scan_digits (10 * acc + digit_val c) (S n) r.
Proof. intros H. cbn [scan_digits]. rewrite H. reflexivity. Qed.

Ltac eval_digit :=
  match goal with
  | |- context [digit_val ?c] =>
      let v := eval vm_compute in (digit_val c) in
      change (digit_val c) with v
  end.

Lemma scan_digits_uint (s : string) :
  forall d acc n,
    NilEmpty.uint_of_string s = Some d ->
    scan_digits acc n (list_ascii_of_string s)
    = (uint_value acc d, (n + String.length s)%nat, []).
Proof.
  induction s as [|a s IH]; intros d acc n H; cbn in H.
  - injection H as <-. cbn. rewrite Nat.add_0_r. reflexivity.
  - destruct (NilEmpty.uint_of_string s) as [d'|] eqn:E; [|discriminate].
    apply uint_of_char_spec in H.
    cbn [list_ascii_of_string String.length].
    rewrite Nat.add_succ_r.
    assert (Hstep : isdigit a = true /\
                    uint_value acc d = uint_value (10 * acc + digit_val a) d').
    { repeat (destruct H as [[-> ->]|H];
              [split; [reflexivity|cbn [uint_value]; eval_digit;
                                   rewrite ?Z.add_0_r; reflexivity]|]).
      destruct H as [-> ->].
      split; [reflexivity|cbn [uint_value]; eval_digit; reflexivity]. }
    destruct Hstep as [Hd ->]. rewrite (scan_digits_step _ _ _ _ Hd).
    apply (IH d' _ (S n) eq_refl).
Qed.

Lemma stoi_decimal (s : string) (d : Decimal.int) :
  NilZero.int_of_string s = Some d ->
  in_int (Z.of_int d) = true ->
  stoi s = inl (Z.of_int d).
Proof.
  intros H Hr. destruct s as [|a s]; [discriminate|].
  cbn [NilZero.int_of_string] in H. unfold stoi.
  cbn [list_ascii_of_string].
  destruct (Ascii.eqb_spec a "-") as [->|Hminus].
  - cbn [skip_space]. change (isspace "-") with false. cbv iota. cbn [scan_sign].
    destruct (NilZero.uint_of_string s) as [u|] eqn:E; [|discriminate].
    injection H as <-.
    destruct s as [|b s]; [discriminate|]. cbn [NilZero.uint_of_string] in E.
    rewrite (scan_digits_uint _ u 0 0%nat E). cbn [Nat.add String.length].
    rewrite uint_value_of_uint. cbn [Z.of_int] in Hr |- *.
    rewrite Hr. reflexivity.
  - destruct (NilZero.uint_of_string (String a s)) as [u|] eqn:E; [|discriminate].
    injection H as <-. cbn [NilZero.uint_of_string] in E.
    assert (Hd : isdigit a = true).
    { cbn in E. destruct (NilEmpty.uint_of_string s); [|discriminate].
      apply uint_of_char_spec in E.
      repeat (destruct E as [[-> _]|E]; [reflexivity|]). destruct E as [-> _]. reflexivity. }
    assert (Hs : isspace a = false).
    { revert Hd. unfold isdigit, isspace. lia. }
    cbn [skip_space]. rewrite Hs.
    assert (Hsign : scan_sign (a :: list_ascii_of_string s)
                    = (false, a :: list_ascii_of_string s)).
    { unfold scan_sign.
      destruct a as [[|] [|] [|] [|] [|] [|] [|] [|]]; try reflexivity; discriminate. }
    rewrite Hsign.
    change (a :: list_ascii_of_string s) with (list_ascii_of_string (String a s)).
    rewrite (scan_digits_uint _ u 0 0%nat E). cbn [Nat.add String.length].
    rewrite uint_value_of_uint. cbn [Z.of_int] in Hr |- *.
    rewrite Hr. reflexivity.
Qed.

Lemma stoi_failure_not_name (s : string) e :
  stoi s = inr e -> ~ In s signal_names -> parse_signal s = SIGTERM.
Proof.
  intros He Hn. unfold parse_signal. rewrite He.
  destruct (String.length s =? 0)%nat; [reflexivity|].
  repeat match goal with
  | |- context [String.eqb s ?n] =>
      destruct (String.eqb_spec s n) as [->|_];
      [exfalso; apply Hn; cbn; tauto|]
  end.
  reflexivity.
Qed.
End Signals.

(** ** Comparison of [double]s *)

Section Comparison.

Lemma digits2_pos_bounds (m : positive) :
  2 ^ (Z.pos (digits2_pos m) - 1) <= Z.pos m < 2 ^ Z.pos (digits2_pos m).
Proof.
  induction m as [m IH|m IH|]; cbn [digits2_pos].
  - rewrite Pos2Z.inj_succ.
    replace (Z.succ (Z.pos (digits2_pos m)) - 1) with (Z.succ (Z.pos (digits2_pos m) - 1)) by lia.
    rewrite !Z.pow_succ_r by lia. lia.
  - rewrite Pos2Z.inj_succ.
    replace (Z.succ (Z.pos (digits2_pos m)) - 1) with (Z.succ (Z.pos (digits2_pos m) - 1)) by lia.
    rewrite !Z.pow_succ_r by lia. lia.
  - cbn. lia.
Qed.

Lemma bounded_facts (m : positive) (e : Z) :
  bounded prec emax m e = true ->
  Z.pos (digits2_pos m) <= 53
  /\ (Z.pos (digits2_pos m) = 53 \/ e = -1074) /\ -1074 <= e.
Proof.
  unfold bounded, canonical_mantissa, fexp, emin, prec, emax.
  intros H. apply andb_prop in H as [H _]. apply Z.eqb_eq in H. lia.
Qed.

(** Numerator and denominator of the exact value. *)
Lemma Q_of_finite_parts (s : bool) (m : positive) (e : Z) :
  Qnum (Q_of_finite s m e) = (if s then Z.neg m else Z.pos m) * 2 ^ Z.max e 0
  /\ Z.pos (Qden (Q_of_finite s m e)) = 2 ^ Z.max (- e) 0.
Proof.
  unfold Q_of_finite. destruct e as [|p|p]; cbn [Qnum Qden inject_Z Z.max Z.opp Z.compare].
  - split; [rewrite Z.pow_0_r; lia|reflexivity].
  - split; reflexivity.
  - split; [rewrite Z.pow_0_r; lia|]. rewrite Pos2Z.inj_pow. reflexivity.
Qed.

(** Of two canonical positive numbers the one with the lesser exponent is
    the lesser. *)
Lemma magnitude_lt (m1 m2 : positive) (e1 e2 : Z) :
  bounded prec emax m1 e1 = true -> bounded prec emax m2 e2 = true ->
  e1 < e2 ->
  Z.pos m1 * 2 ^ Z.max e1 0 * 2 ^ Z.max (- e2) 0
  < Z.pos m2 * 2 ^ Z.max e2 0 * 2 ^ Z.max (- e1) 0.
Proof.
  intros H1 H2 He.
  apply bounded_facts in H1 as (Hd1 & _ & Hm1).
  apply bounded_facts in H2 as (_ & Hd2 & _).
  assert (Hd : Z.pos (digits2_pos m2) = 53) by lia.
  pose proof (digits2_pos_bounds m1) as [_ Hu].
  pose proof (digits2_pos_bounds m2) as [Hl _]. rewrite Hd in Hl.
  assert (Hu' : Z.pos m1 < 2 ^ 53).
  { eapply Z.lt_le_trans; [exact Hu|]. apply Z.pow_le_mono_r; lia. }
  rewrite <- !Z.mul_assoc, <- !Z.pow_add_r by lia.
  set (A := Z.max e1 0 + Z.max (- e2) 0). set (B := Z.max e2 0 + Z.max (- e1) 0).
  assert (HA : 0 <= A) by lia. assert (HB : A + 1 <= B) by lia.
  assert (H2A : 0 < 2 ^ A) by (apply Z.pow_pos_nonneg; lia).
  apply Z.lt_le_trans with (2 ^ 53 * 2 ^ A).
  { apply Z.mul_lt_mono_pos_r; assumption. }
  apply Z.le_trans with (2 ^ 52 * 2 ^ B).
  { rewrite <- !Z.pow_add_r by lia. apply Z.pow_le_mono_r; lia. }
  apply Z.mul_le_mono_nonneg_r; [apply Z.pow_nonneg; lia|exact Hl].
Qed.

Lemma compare_finite_same_sign (s : bool) (m1 m2 : positive) (e1 e2 : Z) :
  bounded prec emax m1 e1 = true -> bounded prec emax m2 e2 = true ->
  Qcompare (Q_of_finite s m1 e1) (Q_of_finite s m2 e2)
  = let c := match Z.compare e1 e2 with
             | Lt => Lt
             | Gt => Gt
             | Eq => Pos.compare_cont Eq m1 m2
             end in
    if s then CompOpp c else c.
Proof.
  intros H1 H2. unfold Qcompare.
  destruct (Q_of_finite_parts s m1 e1) as [-> ->].
  destruct (Q_of_finite_parts s m2 e2) as [-> ->].
  cbv zeta.
  assert (Hpos : forall a b, Z.neg a * b = - (Z.pos a * b)) by (intros; lia).
  destruct (Z.compare_spec e1 e2) as [->|He|He].
  - change (Pos.compare_cont Eq m1 m2) with (Z.pos m1 ?= Z.pos m2).
    assert (HK1 : 0 < 2 ^ Z.max e2 0) by (apply Z.pow_pos_nonneg; lia).
    assert (HK2 : 0 < 2 ^ Z.max (- e2) 0) by (apply Z.pow_pos_nonneg; lia).
    destruct (Z.compare_spec (Z.pos m1) (Z.pos m2)) as [Hm|Hm|Hm].
    + injection Hm as ->. rewrite Z.compare_refl. destruct s; reflexivity.
    + destruct s; cbn [CompOpp];
        [apply Z.compare_gt_iff|apply Z.compare_lt_iff]; nia.
    + destruct s; cbn [CompOpp];
        [apply Z.compare_lt_iff|apply Z.compare_gt_iff]; nia.
  - pose proof (magnitude_lt m1 m2 e1 e2 H1 H2 He) as Hlt.
    destruct s; cbn [CompOpp].
    + rewrite !Hpos, !Z.mul_opp_l. apply Z.compare_gt_iff. lia.
    + apply Z.compare_lt_iff. exact Hlt.
  - pose proof (magnitude_lt m2 m1 e2 e1 H2 H1 He) as Hlt.
    destruct s; cbn [CompOpp].
    + rewrite !Hpos, !Z.mul_opp_l. apply Z.compare_lt_iff. lia.
    + apply Z.compare_gt_iff. exact Hlt.
Qed.

(** On the numbers of the format, the comparison by exact values is the
    comparison of the Standard Library's specification. *)
Lemma compare_is_SFcompare (x y : double) :
  valid_binary prec emax x = true -> valid_binary prec emax y = true ->
  compare x y = SFcompare x y.
Proof.
  intros Hx Hy.
  destruct x as [sx|sx| |sx mx ex]; destruct y as [sy|sy| |sy my ey];
    try reflexivity;
    try (destruct sx; reflexivity); try (destruct sy; reflexivity);
    try (destruct sx, sy; reflexivity).
  - (* zero, finite *)
    cbn [compare to_Q SFcompare]. f_equal. unfold Qcompare.
    destruct (Q_of_finite_parts sy my ey) as [-> ->]. cbn [Qnum Qden].
    assert (0 < 2 ^ Z.max ey 0) by (apply Z.pow_pos_nonneg; lia).
    destruct sy; [apply Z.compare_gt_iff|apply Z.compare_lt_iff]; nia.
  - (* finite, zero *)
    cbn [compare to_Q SFcompare]. f_equal. unfold Qcompare.
    destruct (Q_of_finite_parts sx mx ex) as [-> ->]. cbn [Qnum Qden].
    assert (0 < 2 ^ Z.max ex 0) by (apply Z.pow_pos_nonneg; lia).
    destruct sx; [apply Z.compare_lt_iff|apply Z.compare_gt_iff]; nia.
  - (* finite, finite *)
    cbn [valid_binary] in Hx, Hy. cbn [compare to_Q SFcompare]. f_equal.
    destruct sx, sy.
    + rewrite (compare_finite_same_sign true) by assumption. cbv zeta.
      destruct (ex ?= ey); reflexivity.
    + unfold Qcompare.
      destruct (Q_of_finite_parts true mx ex) as [-> ->].
      destruct (Q_of_finite_parts false my ey) as [-> ->].
      assert (0 < 2 ^ Z.max ex 0) by (apply Z.pow_pos_nonneg; lia).
      assert (0 < 2 ^ Z.max ey 0) by (apply Z.pow_pos_nonneg; lia).
      assert (0 < 2 ^ Z.max (- ex) 0) by (apply Z.pow_pos_nonneg; lia).
      assert (0 < 2 ^ Z.max (- ey) 0) by (apply Z.pow_pos_nonneg; lia).
      apply Z.compare_lt_iff. nia.
    + unfold Qcompare.
      destruct (Q_of_finite_parts false mx ex) as [-> ->].
      destruct (Q_of_finite_parts true my ey) as [-> ->].
      assert (0 < 2 ^ Z.max ex 0) by (apply Z.pow_pos_nonneg; lia).
      assert (0 < 2 ^ Z.max ey 0) by (apply Z.pow_pos_nonneg; lia).
      assert (0 < 2 ^ Z.max (- ex) 0) by (apply Z.pow_pos_nonneg; lia).
      assert (0 < 2 ^ Z.max (- ey) 0) by (apply Z.pow_pos_nonneg; lia).
      apply Z.compare_gt_iff. nia.
    + rewrite (compare_finite_same_sign false) by assumption. cbv zeta.
      destruct (ex ?= ey); reflexivity.
Qed.

(** So the two tests of [parse_duration] are the library's [SFltb] on
    every number of the format. *)
Lemma guards_are_SFltb (v : double) :
  valid_binary prec emax v = true ->
  ltb v (of_Z 0) = SFltb v (of_Z 0)
  /\ gtb v (of_Z INT_MAX) = SFltb (of_Z INT_MAX) v.
Proof.
  intros Hv. unfold gtb, ltb, SFltb.
  rewrite (compare_is_SFcompare v (of_Z 0) Hv eq_refl).
  rewrite (compare_is_SFcompare (of_Z INT_MAX) v eq_refl Hv).
  split; reflexivity.
Qed.
End Comparison.

(** ** The value [parse_duration] stores *)

Section Durations.

Lemma to_Q_finite_or_zero (v : double) (q : Q) :
  to_Q v = Some q ->
  forall y qy, to_Q y = Some qy -> compare v y = Some (Qcompare q qy).
Proof.
  intros Hv y qy Hy.
  destruct v; try discriminate; destruct y; try discriminate;
    cbn [compare]; rewrite ?Hv, ?Hy; cbn [to_Q] in *;
    injection Hv as <-; injection Hy as <-; reflexivity.
Qed.

Lemma to_Q_INT_MAX :
  exists qmax, to_Q (of_Z INT_MAX) = Some qmax /\ (qmax == inject_Z INT_MAX)%Q.
Proof. eexists. split; [vm_compute; reflexivity|]. vm_compute. reflexivity. Qed.

Lemma to_Q_zero : to_Q (of_Z 0) = Some 0%Q.
Proof. reflexivity. Qed.

Lemma not_negative (v : double) (q : Q) :
  to_Q v = Some q -> (0 <= q)%Q -> ltb v (of_Z 0) = false.
Proof.
  intros Hv Hq. unfold ltb. rewrite (to_Q_finite_or_zero v q Hv _ _ to_Q_zero).
  destruct (Qcompare q 0) eqn:E; try reflexivity.
  apply Qlt_alt in E. exfalso. apply (Qlt_not_le _ _ E Hq).
Qed.

Lemma gtb_INT_MAX (v : double) (q : Q) :
  to_Q v = Some q -> gtb v (of_Z INT_MAX) = true <-> (inject_Z INT_MAX < q)%Q.
Proof.
  intros Hv. destruct to_Q_INT_MAX as (qmax & Hm & Heq).
  unfold gtb, ltb. rewrite (to_Q_finite_or_zero _ qmax Hm v q Hv).
  rewrite <- Heq, Qlt_alt. destruct (Qcompare qmax q); split; congruence.
Qed.

Lemma to_int_floor (v : double) (q : Q) :
  to_Q v = Some q -> (0 <= q <= inject_Z INT_MAX)%Q ->
  exists d, to_int v = Some d /\ 0 <= d <= INT_MAX
            /\ (inject_Z d <= q < inject_Z d + 1)%Q.
Proof.
  intros Hv [H0 Hmax]. unfold to_int. rewrite Hv.
  destruct q as [n m]. cbn [Qnum Qden].
  unfold Qle in H0, Hmax. cbn [Qnum Qden inject_Z] in H0, Hmax.
  change (Qnum 0) with 0 in H0. change (Z.pos (Qden 0)) with 1 in H0.
  assert (Hn : 0 <= n) by lia.
  rewrite Z.quot_div_nonneg by lia.
  pose proof (Z.div_pos n (Z.pos m) Hn ltac:(lia)) as Hd0.
  pose proof (Z.mul_div_le n (Z.pos m) ltac:(lia)) as Hle.
  pose proof (Z.mul_succ_div_gt n (Z.pos m) ltac:(lia)) as Hgt.
  assert (Hdm : n / Z.pos m <= INT_MAX).
  { apply Z.div_le_upper_bound; lia. }
  exists (n / Z.pos m). split; [|split; [lia|]].
  - unfold in_int. replace (INT_MIN <=? n / Z.pos m) with true
      by (symmetry; apply Z.leb_le; unfold INT_MIN; lia).
    replace (n / Z.pos m <=? INT_MAX) with true by (symmetry; apply Z.leb_le; lia).
    reflexivity.
  - unfold Qle, Qlt, Qplus. cbn [Qnum Qden inject_Z]. split; nia.
Qed.

Lemma length_nonempty (str : string) :
  str <> EmptyString -> (String.length str =? 0)%nat = false.
Proof. destruct str; [congruence|reflexivity]. Qed.

(** The value [parse_duration] computes decides the result: above
    [INT_MAX] it is refused, from 0 to [INT_MAX] its integer part is
    stored. *)
Lemma parse_duration_value (str : string) (s : state) value pos v q :
  str <> EmptyString ->
  stod str = inl (value, pos) ->
  scaled_value str value pos = Some v ->
  to_Q v = Some q ->
  ((inject_Z INT_MAX < q)%Q -> parse_duration str s = Ret false s)
  /\ ((0 <= q <= inject_Z INT_MAX)%Q ->
      exists d, parse_duration str s
                = Ret true (mkState (set_duration_seconds d (self s)) (os s))
                /\ 0 <= d <= INT_MAX
                /\ (inject_Z d <= q < inject_Z d + 1)%Q).
Proof.
  intros Hne Hstod Hsc Hq. unfold parse_duration.
  rewrite (length_nonempty _ Hne), Hstod, Hsc. split.
  - intros Hbig. apply (gtb_INT_MAX v q Hq) in Hbig. rewrite Hbig, orb_true_r.
    reflexivity.
  - intros Hrange.
    rewrite (not_negative v q Hq (proj1 Hrange)).
    replace (gtb v (of_Z INT_MAX)) with false.
    2:{ symmetry. apply not_true_is_false. intros H.
        apply (gtb_INT_MAX v q Hq) in H. apply (Qlt_not_le _ _ H (proj2 Hrange)). }
    cbn [orb].
    destruct (to_int_floor v q Hq Hrange) as (d & Hd & Hr & Hfl).
    rewrite Hd. exists d. repeat split; try apply Hr; try apply Hfl.
Qed.

End Durations.

(* ================================================================== *)
(** * Parsing: the claims about [parse_duration] and [parse_signal]     *)
(* ================================================================== *)

(** C7.  [parse_duration] gives 120 for "2m", 5400 for "1.5h" and 259200
    for "3d", and returns [false] for "-1s".  For "bogus" it does not
    return [false]: [std::stod] throws [std::invalid_argument], which
    nothing catches. *)
Theorem parse_duration_examples (s : state) :
  parse_duration "2m" s
  = Ret true (mkState (set_duration_seconds 120 (self s)) (os s))
  /\ parse_duration "1.5h" s
     = Ret true (mkState (set_duration_seconds 5400 (self s)) (os s))
  /\ parse_duration "3d" s
     = Ret true (mkState (set_duration_seconds 259200 (self s)) (os s))
  /\ parse_duration "bogus" s = Throw (invalid_argument "stod") s
  /\ parse_duration "-1s" s = Ret false s.
Proof. repeat split; vm_compute; reflexivity. Qed.

(** The exception leaves [main]: the program is aborted, without the
    message and the exit status 125 of an invalid duration... *)
Lemma main_aborts_on_bogus `{Platform} fuel t w :
  main fuel ["timeout"; "bogus"; "cmd"] (mkState t w)
  = Throw (invalid_argument "stod") (mkState Timeout_new w).
Proof. reflexivity. Qed.

(** ... which a number with a wrong unit does get. *)
Lemma main_reports_bad_unit `{Platform} fuel t w :
  exists s',
    main fuel ["timeout"; "5x"; "cmd"] (mkState t w) = Ret 125 s'
    /\ trace (os s')
       = (trace w ++ EvCerr "Error: invalid duration: 5x" :: map EvCout usage_text)%list.
Proof.
  eexists. split; [reflexivity|]. cbn. rewrite <- !app_assoc. reflexivity.
Qed.

(** Not a number: the comparisons are both false and the conversion to
    [int] is undefined. *)
Lemma parse_duration_nan (s : state) : parse_duration "nan" s = Undefined.
Proof. reflexivity. Qed.


(** C8, as the code has it.  [parse_signal] maps a decimal integer (an
    optional minus sign and digits) that fits an [int] to that number, each
    of TERM, INT, HUP, KILL, USR1 and USR2, with or without the prefix SIG,
    to its signal, and every text that [std::stoi] refuses and that is none
    of these names to SIGTERM. *)
Theorem parse_signal_mapping `{Platform} :
  (forall s d, NilZero.int_of_string s = Some d ->
               in_int (Z.of_int d) = true ->
               parse_signal s = Z.of_int d)
  /\ (parse_signal "TERM" = SIGTERM /\ parse_signal "INT" = SIGINT
      /\ parse_signal "HUP" = SIGHUP /\ parse_signal "KILL" = SIGKILL
      /\ parse_signal "USR1" = SIGUSR1 /\ parse_signal "USR2" = SIGUSR2
      /\ parse_signal "SIGTERM" = SIGTERM /\ parse_signal "SIGINT" = SIGINT
      /\ parse_signal "SIGHUP" = SIGHUP /\ parse_signal "SIGKILL" = SIGKILL
      /\ parse_signal "SIGUSR1" = SIGUSR1 /\ parse_signal "SIGUSR2" = SIGUSR2)
  /\ (forall s e, stoi s = inr e -> ~ In s signal_names ->
                  parse_signal s = SIGTERM).
Proof.
  split; [|split].
  - intros s d Hd Hr. unfold parse_signal.
    rewrite (stoi_decimal s d Hd Hr).
    destruct s; [discriminate|]. reflexivity.
  - repeat split.
  - apply stoi_failure_not_name.
Qed.

(** [std::stoi] also takes white space and a plus sign before the digits,
    and anything after them; the empty string gives SIGTERM. *)
Lemma parse_signal_other_spellings `{Platform} :
  parse_signal " 9abc" = 9 /\ parse_signal "+3" = 3
  /\ parse_signal EmptyString = SIGTERM.
Proof. repeat split. Qed.

(* ================================================================== *)
(** * Diagnostics                                                       *)
(* ================================================================== *)


(* ================================================================== *)
(** * Concrete runs: witnesses and counterexamples                      *)
(* ================================================================== *)

Import Examples.

(** C1 at a command that exits with code 3 after 0.3 s, under a timeout of
    1 s: [run] returns 0. *)
Lemma run_returns_0_on_timely_exit_witness :
  own_exit (exits_after 300 3) = Some (300, WExited 3)
  /\ 300 <= 1000 * duration_seconds (config 1 0 false false)
  /\ exists s',
       run 20 (mkState (config 1 0 false false) (world_running (exits_after 300 3)))
       = Ret 0 s' /\ child (os s') = Reaped.
Proof.
  split; [reflexivity|]. split; [cbn; lia|].
  apply (run_returns_0_on_timely_exit (P:=linux) 20 (config 1 0 false false)
           (world_running (exits_after 300 3)) (exits_after 300 3) 300 (WExited 3));
    try reflexivity; try discriminate; cbn; lia.
Defined.

(** C2 at a command that traps the signal and exits with code 3 half a
    second later, under [-p -k 2 1]: [run] returns 0. *)
Lemma grace_exit_status_witness :
  has_exited (due_at 0 (trapper 500 3)) 1000 = false
  /\ deliver SIGTERM (trapper 500 3) (due_at 0 (trapper 500 3)) 1000
     = Some (1500, WExited 3)
  /\ exists s' tr,
       run 30 (mkState (config 1 2 true false) (world_running (trapper 500 3)))
       = Ret 0 s'
       /\ child (os s') = Reaped
       /\ trace (os s') = ([] ++ tr)%list
       /\ filter is_action tr = [EvKill 4242 SIGTERM].
Proof.
  split; [reflexivity|]. split; [reflexivity|].
  apply (grace_exit_status (P:=linux) 30 (config 1 2 true false)
           (world_running (trapper 500 3)) (trapper 500 3));
    try reflexivity; try discriminate; cbn; lia.
Defined.

(** C6 at a command that ignores every signal, under [-k 1 1], with and
    without [-p]. *)
Lemma escalation_returns_137_witness :
  (exists s' tr,
     run 20 (mkState (config 1 1 true true) (world_running stubborn)) = Ret 137 s'
     /\ trace (os s') = ([] ++ tr)%list
     /\ filter is_action tr = [EvKill 4242 SIGTERM; EvKill 4242 SIGKILL]
     /\ child (os s') = Child stubborn (Some (2000, WSignaled SIGKILL))
     /\ clock (os s') = 2100)
  /\ (exists s' tr,
        run 20 (mkState (config 1 1 false true) (world_running stubborn)) = Ret 137 s'
        /\ trace (os s') = ([] ++ tr)%list
        /\ filter is_action tr = [EvKill 4242 SIGTERM; EvKill 4242 SIGKILL]
        /\ child (os s') = Child stubborn (Some (2000, WSignaled SIGKILL))
        /\ clock (os s') = 2100).
Proof.
  split.
  - apply (escalation_returns_137 (P:=linux) 20 (config 1 1 true true)
             (world_running stubborn) stubborn);
      try reflexivity; try discriminate; cbn; lia.
  - apply (escalation_returns_137 (P:=linux) 20 (config 1 1 false true)
             (world_running stubborn) stubborn);
      try reflexivity; try discriminate; cbn; lia.
Defined.

(** C3 refuted: under a timeout of 1 s and no kill-after time, [run]
    returns 124 although the command, which ignores the signal, is still
    running. *)
Lemma c3_returns_while_child_runs :
  match run 20 (mkState (config 1 0 false false) (world_running stubborn)) with
  | Ret code s' => code = 124 /\ child_running (os s') = true
  | _ => False
  end.
Proof. vm_compute. split; reflexivity. Qed.

Lemma no_kill_after_returns_at_once_witness :
  has_exited (due_at 0 stubborn) 1000 = false
  /\ exists code s' tr,
       run 20 (mkState (config 1 0 false false) (world_running stubborn)) = Ret code s'
       /\ (false = false -> code = 124)
       /\ clock (os s') = 1000
       /\ trace (os s') = ([] ++ tr ++ [EvKill 4242 SIGTERM])%list
       /\ child (os s') = Child stubborn None.
Proof.
  split; [reflexivity|].
  apply (no_kill_after_returns_at_once (P:=linux) 20 (config 1 0 false false)
           (world_running stubborn) stubborn);
    try reflexivity; try discriminate; cbn; lia.
Defined.

(** C4 refuted: with a duration of 0, a command that would exit with
    status 0 after half a second is sent SIGTERM at time 0, and [run]
    returns 124 without waiting for it. *)
Lemma c4_zero_duration_signals :
  match run 20 (mkState (config 0 0 false false) (world_running (exits_after 500 0))) with
  | Ret code s' =>
      code = 124 /\ clock (os s') = 0
      /\ filter is_action (trace (os s')) = [EvKill 4242 SIGTERM]
  | _ => False
  end.
Proof. vm_compute. repeat split; reflexivity. Qed.

Lemma zero_duration_signals_at_once_witness :
  has_exited (due_at 0 (exits_after 500 0)) 0 = false
  /\ exists code s' tr,
       run 20 (mkState (config 0 0 false true) (world_running (exits_after 500 0)))
       = Ret code s'
       /\ trace (os s')
          = ([] ++ [EvFork 4242; EvWaitpid 4242 0]
             ++ [EvCerr (signal_line SIGTERM 4242)]
             ++ [EvKill 4242 SIGTERM] ++ tr)%list.
Proof.
  split; [reflexivity|].
  apply (zero_duration_signals_at_once (P:=linux) 20 (config 0 0 false true)
           (world_running (exits_after 500 0)) (exits_after 500 0));
    try reflexivity; try discriminate; cbn; lia.
Defined.

(** C5 at a command that does not exist, which the child finds out 1 ms
    after [fork], under a timeout of 5 s. *)
Lemma exec_failure_returns_0_witness :
  execvp (world_exec_fails ENOENT 1) ["cmd"]
  = ExecFailed ENOENT 1 (fun sig => Some (0, WSignaled sig))
  /\ 1 <= 1000 * duration_seconds (config 5 0 false false)
  /\ exists s',
       run 60 (mkState (config 5 0 false false) (world_exec_fails ENOENT 1))
       = Ret 0 s'.
Proof.
  split; [reflexivity|]. split; [cbn; lia|].
  apply (exec_failure_returns_0 (P:=linux) 60 (config 5 0 false false)
           (world_exec_fails ENOENT 1) ENOENT 1 (fun sig => Some (0, WSignaled sig)));
    try reflexivity; try discriminate; cbn; lia.
Defined.

(** The same command under a timeout of 0 s.  [run] returns 0 only when the
    child has failed before the first poll; when it fails later, be it by
    1 ms, the first poll finds it running, the signal ends it before it
    has written its message, and [run] returns 124. *)
Lemma exec_failure_under_zero_duration :
  match run 20 (mkState (config 0 0 false false) (world_exec_fails ENOENT 0)) with
  | Ret code s' =>
      code = 0
      /\ trace (os s')
         = [EvFork 4242; EvCerr "Error: failed to execute command";
            EvWaitpid 4242 4242]
  | _ => False
  end
  /\ match run 20 (mkState (config 0 0 false false) (world_exec_fails ENOENT 1)) with
     | Ret code s' =>
         code = 124
         /\ trace (os s') = [EvFork 4242; EvWaitpid 4242 0; EvKill 4242 SIGTERM]
         /\ child (os s')
            = Child {| own_exit := Some (1, WExited 127);
                       on_signal := fun sig => Some (0, WSignaled sig) |}
                (Some (0, WSignaled SIGTERM))
     | _ => False
     end.
Proof. vm_compute. repeat split; reflexivity. Qed.

(** The part of C5 the code does have: 125 when [fork] fails. *)
Lemma fork_failure_returns_125_example :
  exists s', run 20 (mkState (config 5 0 false false) world_fork_fails) = Ret 125 s'.
Proof.
  apply (fork_failure_returns_125 (P:=linux) 20 (config 5 0 false false) world_fork_fails).
  cbn. lia.
Defined.

(** C8 refuted: a decimal integer too large for an [int] is mapped to
    SIGTERM, not to that number. *)
Lemma c8_out_of_range_number :
  option_map Z.of_int (NilZero.int_of_string "99999999999") = Some 99999999999
  /\ parse_signal "99999999999" = SIGTERM
  /\ SIGTERM <> 99999999999.
Proof. repeat split. discriminate. Qed.

Lemma parse_signal_mapping_witness :
  (NilZero.int_of_string "-9" = Some (Decimal.Neg (Decimal.D9 Decimal.Nil))
   /\ parse_signal "-9" = -9)
  /\ (stoi "bogus" = inr (invalid_argument "stoi")
      /\ parse_signal "bogus" = SIGTERM).
Proof.
  split; (split; [reflexivity|]).
  - apply (proj1 (parse_signal_mapping (H:=linux)) "-9"
             (Decimal.Neg (Decimal.D9 Decimal.Nil))); reflexivity.
  - apply (proj2 (proj2 (parse_signal_mapping (H:=linux))) "bogus"
             (invalid_argument "stoi")); [reflexivity|].
    cbn. intros H. repeat (destruct H as [H|H]; [discriminate H|]). exact H.
Defined.




(* ================================================================== *)
(** * Parsing the command line                                         *)
(* ================================================================== *)

Section CommandLine.
Context {P : Platform}.

(** The two tests of [parse_duration] bound the value that is converted. *)
Lemma guards_give_range (v : double) (q : Q) :
  to_Q v = Some q ->
  ltb v (of_Z 0) = false -> gtb v (of_Z INT_MAX) = false ->
  (0 <= q <= inject_Z INT_MAX)%Q.
Proof.
  intros Hv Hl Hg. split.
  - apply Qnot_lt_le. intros Hneg. unfold ltb in Hl.
    rewrite (to_Q_finite_or_zero v q Hv _ _ to_Q_zero) in Hl.
    destruct (Qcompare q 0) eqn:E; try discriminate;
      apply (proj1 (Qlt_alt _ _)) in Hneg; congruence.
  - apply Qnot_lt_le. intros Hbig. apply (gtb_INT_MAX v q Hv) in Hbig. congruence.
Qed.

(** Every way [parse_duration] can end. *)
Lemma parse_duration_cases (str : string) (s : state) :
  match parse_duration str s with
  | Ret true s' =>
      exists d, 0 <= d <= INT_MAX
                /\ s' = mkState (set_duration_seconds d (self s)) (os s)
  | Ret false s' => s' = s
  | Throw e s' => s' = s /\ stod str = inr e
  | Undefined =>
      exists value pos, stod str = inl (value, pos)
                        /\ scaled_value str value pos = Some S754_nan
  | Exit _ _ | OutOfFuel => False
  end.
Proof.
  unfold parse_duration.
  destruct (String.length str =? 0)%nat; [reflexivity|].
  destruct (stod str) as [[value pos]|e]; [|split; reflexivity].
  destruct (scaled_value str value pos) as [v|] eqn:Hsc; [|reflexivity].
  destruct (ltb v (of_Z 0)) eqn:Hl; [reflexivity|].
  destruct (gtb v (of_Z INT_MAX)) eqn:Hg; [reflexivity|]. cbn [orb].
  destruct v as [sg|sg| |sg m e].
  - exists 0. split; [unfold INT_MAX; lia|reflexivity].
  - destruct sg; vm_compute in Hl, Hg; discriminate.
  - exists value, pos. split; [reflexivity|exact Hsc].
  - destruct (to_int_floor (S754_finite sg m e) (Q_of_finite sg m e) eq_refl
                (guards_give_range (S754_finite sg m e) (Q_of_finite sg m e)
                   eq_refl Hl Hg)) as (d & Hd & Hr & _).
    rewrite Hd. mstep. exists d. split; [exact Hr|reflexivity].
Qed.


Lemma print_usage_spec (s : state) :
  print_usage s
  = Ret tt (mkState (self s) (log_all (map EvCout usage_text) (os s))).
Proof. reflexivity. Qed.

(** Every way the option loop can end, by induction on the arguments left. *)
Lemma parse_options_cases (n : nat) :
  forall rest t w, (List.length rest <= n)%nat ->
    match parse_options rest (mkState t w) with
    | Ret (Some rest') s' =>
        os s' = w
        /\ command_args (self s') = command_args t
        /\ child_pid (self s') = child_pid t
        /\ (0 <= kill_after_seconds t <= INT_MAX ->
            0 <= kill_after_seconds (self s') <= INT_MAX)
        /\ (exists opts, rest = (opts ++ rest')%list)
        /\ match rest' with a :: _ => is_option a = false | [] => True end
    | Ret None s' =>
        exists line, os s' = log (EvCerr line) w
                     /\ String.prefix "Error: " line = true
    | Exit c s' =>
        c = 0 /\ os s' = log_all (map EvCout usage_text) w
        /\ (In "-h" rest \/ In "--help" rest)
    | Throw e s' =>
        os s' = w /\ exists arg, In arg rest /\ stod arg = inr e
    | Undefined =>
        exists arg value pos, In arg rest /\ stod arg = inl (value, pos)
                              /\ scaled_value arg value pos = Some S754_nan
    | OutOfFuel => False
    end.
Proof.
  induction n as [|n IH]; intros rest t w Hn.
  - destruct rest; [|cbn in Hn; lia]. cbn. repeat split; auto; try lia. exists []. reflexivity.
  - destruct rest as [|arg rest1].
    { cbn. repeat split; auto; try lia. exists []. reflexivity. }
    cbn [parse_options]. destruct (is_option arg) eqn:Eopt.
    2:{ mstep. repeat split; auto; try lia. exists []. reflexivity. }
    destruct ((arg =? "-k")%string || (arg =? "--kill-after")%string).
    { destruct rest1 as [|val rest2]; [mstep; eexists; split; reflexivity|].
      unfold bind at 1.
      pose proof (parse_duration_cases val (mkState t w)) as Hd.
      destruct (parse_duration val (mkState t w)) as [b s1|e s1|c s1| |];
        try contradiction.
      - destruct b.
        + destruct Hd as (d & Hr & ->). cbn [negb]. mstep.
          specialize (IH rest2
                        (set_duration_seconds 0
                           (set_kill_after_seconds d (set_duration_seconds d t))) w).
          cbn [List.length] in Hn.
          cbn [duration_seconds set_duration_seconds] in *.
          destruct (parse_options rest2 _) as [[rest'|] s'|e s'|c s'| |];
            try (specialize (IH ltac:(lia))).
          * destruct IH as (Hos & Hca & Hcp & Hk & (opts & Ho) & Hhd).
            split; [exact Hos|]. split; [exact Hca|]. split; [exact Hcp|].
            split; [intros _; apply Hk; exact Hr|].
            split; [|exact Hhd].
            exists (arg :: val :: opts). rewrite Ho. reflexivity.
          * exact IH.
          * destruct IH as (Hos & arg' & Hin & Hst). split; [exact Hos|].
            exists arg'. split; [right; right; exact Hin|exact Hst].
          * destruct IH as (Hc & Hos & Hin). repeat split; auto.
            destruct Hin; [left|right]; right; right; assumption.
          * destruct IH as (arg' & v' & p' & Hin & Hst).
            exists arg', v', p'. split; [right; right; exact Hin|exact Hst].
          * exact IH.
        + subst s1. cbn [negb]. mstep. eexists; split; reflexivity.
      - destruct Hd as [-> Hst]. split; [reflexivity|].
        exists val. split; [right; left; reflexivity|exact Hst].
      - destruct Hd as (v' & p' & Hst & Hsc).
        exists val, v', p'. split; [right; left; reflexivity|split; assumption]. }
    destruct ((arg =? "-s")%string || (arg =? "--signal")%string).
    { destruct rest1 as [|val rest2]; [mstep; eexists; split; reflexivity|].
      mstep. specialize (IH rest2 (set_signal_name val t) w).
      cbn [List.length] in Hn.
      destruct (parse_options rest2 _) as [[rest'|] s'|e s'|c s'| |];
        try (specialize (IH ltac:(lia))).
      * destruct IH as (Hos & Hca & Hcp & Hk & (opts & Ho) & Hhd).
        split; [exact Hos|]. split; [exact Hca|]. split; [exact Hcp|].
        split; [exact Hk|]. split; [|exact Hhd].
        exists (arg :: val :: opts). rewrite Ho. reflexivity.
      * exact IH.
      * destruct IH as (Hos & arg' & Hin & Hst). split; [exact Hos|].
        exists arg'. split; [right; right; exact Hin|exact Hst].
      * destruct IH as (Hc & Hos & Hin). repeat split; auto.
        destruct Hin; [left|right]; right; right; assumption.
      * destruct IH as (arg' & v' & p' & Hin & Hst).
        exists arg', v', p'. split; [right; right; exact Hin|exact Hst].
      * exact IH. }
    assert (Hflag : forall f,
              match parse_options rest1 (mkState (f t) w) with
              | Ret (Some rest') s' =>
                  os s' = w
                  /\ command_args (self s') = command_args (f t)
                  /\ child_pid (self s') = child_pid (f t)
                  /\ (0 <= kill_after_seconds (f t) <= INT_MAX ->
                      0 <= kill_after_seconds (self s') <= INT_MAX)
                  /\ (exists opts, (arg :: rest1) = (opts ++ rest')%list)
                  /\ match rest' with a :: _ => is_option a = false | [] => True end
              | Ret None s' =>
                  exists line, os s' = log (EvCerr line) w
                               /\ String.prefix "Error: " line = true
              | Exit c s' =>
                  c = 0 /\ os s' = log_all (map EvCout usage_text) w
                  /\ (In "-h" (arg :: rest1) \/ In "--help" (arg :: rest1))
              | Throw e s' =>
                  os s' = w /\ exists a, In a (arg :: rest1) /\ stod a = inr e
              | Undefined =>
                  exists a value pos, In a (arg :: rest1) /\ stod a = inl (value, pos)
                                      /\ scaled_value a value pos = Some S754_nan
              | OutOfFuel => False
              end).
    { intros f. specialize (IH rest1 (f t) w). cbn [List.length] in Hn.
      destruct (parse_options rest1 _) as [[rest'|] s'|e s'|c s'| |];
        try (specialize (IH ltac:(lia))).
      * destruct IH as (Hos & Hca & Hcp & Hk & (opts & Ho) & Hhd).
        split; [exact Hos|]. split; [exact Hca|]. split; [exact Hcp|].
        split; [exact Hk|]. split; [|exact Hhd].
        exists (arg :: opts). rewrite Ho. reflexivity.
      * exact IH.
      * destruct IH as (Hos & arg' & Hin & Hst). split; [exact Hos|].
        exists arg'. split; [right; exact Hin|exact Hst].
      * destruct IH as (Hc & Hos & Hin). repeat split; auto.
        destruct Hin; [left|right]; right; assumption.
      * destruct IH as (arg' & v' & p' & Hin & Hst).
        exists arg', v', p'. split; [right; exact Hin|exact Hst].
      * exact IH. }
    destruct ((arg =? "-p")%string || (arg =? "--preserve-status")%string).
    { mstep. exact (Hflag (set_preserve_status true)). }
    destruct ((arg =? "-v")%string || (arg =? "--verbose")%string).
    { mstep. exact (Hflag (set_verbose true)). }
    destruct ((arg =? "-h")%string || (arg =? "--help")%string) eqn:Eh.
    { unfold bind. rewrite print_usage_spec. unfold exit. cbn [os self].
      repeat split.
      apply orb_prop in Eh as [Eh|Eh]; apply String.eqb_eq in Eh; subst arg;
        [left|right]; left; reflexivity. }
    mstep. eexists; split; reflexivity.
Qed.


(** Every way [parse_args] can end. *)
Lemma parse_args_cases (argv : list string) (t : Timeout) (w : World) :
  match parse_args argv (mkState t w) with
  | Ret true s' =>
      os s' = w
      /\ child_pid (self s') = child_pid t
      /\ 0 <= duration_seconds (self s') <= INT_MAX
      /\ (0 <= kill_after_seconds t <= INT_MAX ->
          0 <= kill_after_seconds (self s') <= INT_MAX)
      /\ command_args (self s') <> []
      /\ exists opts dur cmd,
           tl argv = (opts ++ dur :: cmd)%list /\ is_option dur = false
           /\ command_args (self s') = (command_args t ++ cmd)%list
  | Ret false s' =>
      exists line, os s' = log (EvCerr line) w
                   /\ String.prefix "Error: " line = true
  | Exit c s' =>
      c = 0 /\ os s' = log_all (map EvCout usage_text) w
      /\ (In "-h" (tl argv) \/ In "--help" (tl argv))
  | Throw e s' =>
      os s' = w /\ exists arg, In arg (tl argv) /\ stod arg = inr e
  | Undefined =>
      exists arg value pos, In arg (tl argv) /\ stod arg = inl (value, pos)
                            /\ scaled_value arg value pos = Some S754_nan
  | OutOfFuel => False
  end.
Proof.
  unfold parse_args. unfold bind at 1.
  pose proof (parse_options_cases (List.length (tl argv)) (tl argv) t w (le_n _)) as Ho.
  destruct (parse_options (tl argv) (mkState t w)) as [[rest'|] [t1 w1]|e s1|c s1| |];
    try exact Ho.
  cbn [os self] in Ho. destruct Ho as (-> & Hca & Hcp & Hk & (opts & Hsplit) & Hhd).
  destruct rest' as [|dur cmd]; [mstep; eexists; split; reflexivity|].
  assert (Hin : In dur (tl argv)).
  { rewrite Hsplit. apply in_or_app. right. left. reflexivity. }
  unfold bind at 1.
  pose proof (parse_duration_cases dur (mkState t1 w)) as Hd.
  destruct (parse_duration dur (mkState t1 w)) as [b s2|e s2|c s2| |];
    try contradiction.
  - destruct b; cbn [negb].
    + destruct Hd as (d & Hr & ->). mstep.
      cbn [command_args set_command_args set_duration_seconds].
      destruct (command_args t1 ++ cmd)%list as [|a l] eqn:Ea.
      * mstep. eexists; split; reflexivity.
      * mstep. cbn [command_args child_pid duration_seconds kill_after_seconds].
        split; [reflexivity|]. split; [exact Hcp|]. split; [exact Hr|].
        split; [exact Hk|]. split; [discriminate|].
        exists opts, dur, cmd. rewrite <- Ea, Hca. auto.
    + subst s2. mstep. eexists; split; reflexivity.
  - destruct Hd as [-> Hst]. split; [reflexivity|]. exists dur. auto.
  - destruct Hd as (v' & p' & Hst & Hsc). exists dur, v', p'. auto.
Qed.

(** X1.  [parse_duration] ends in one of four ways: it returns [true]
    having stored a number of seconds from 0 to [INT_MAX] and changed
    nothing else; it returns [false] and changes nothing; the exception of
    [std::stod] leaves it, nothing changed; or the value is not a number
    and the conversion to [int] is undefined.  It never calls [exit]. *)
Theorem parse_duration_outcomes (str : string) (s : state) :
  match parse_duration str s with
  | Ret true s' =>
      exists d, 0 <= d <= INT_MAX
                /\ s' = mkState (set_duration_seconds d (self s)) (os s)
  | Ret false s' => s' = s
  | Throw e s' => s' = s /\ stod str = inr e
  | Undefined =>
      exists value pos, stod str = inl (value, pos)
                        /\ scaled_value str value pos = Some S754_nan
  | Exit _ _ | OutOfFuel => False
  end.
Proof. apply parse_duration_cases. Qed.

(** X2.  When [parse_args] returns [true] it has written nothing, the
    command is not empty, the duration is from 0 to [INT_MAX], so is the
    kill-after time if it was before, and the command is a final part of
    the arguments, taken as it stands after a duration that does not
    start with a dash: the words of the command are never read as options. *)
Theorem parse_args_accepts argv t w s' :
  parse_args argv (mkState t w) = Ret true s' ->
  os s' = w
  /\ command_args (self s') <> []
  /\ 0 <= duration_seconds (self s') <= INT_MAX
  /\ (0 <= kill_after_seconds t <= INT_MAX ->
      0 <= kill_after_seconds (self s') <= INT_MAX)
  /\ exists opts dur cmd,
       tl argv = (opts ++ dur :: cmd)%list /\ is_option dur = false
       /\ command_args (self s') = (command_args t ++ cmd)%list.
Proof.
  intros H. pose proof (parse_args_cases argv t w) as Hc. rewrite H in Hc.
  destruct Hc as (Hos & _ & Hd & Hk & Hne & Hcmd). auto.
Qed.
End CommandLine.

(* ================================================================== *)
(** * Every path of [run]                                             *)
(* ================================================================== *)

Section Paths.
Context {P : Platform}.

(** The test [elapsed.count() >= timeout_seconds] after [k] sleeps. *)
Lemma elapsed_seconds (start k timeout : Z) :
  0 <= k ->
  (Z.quot (start + 100 * k - start) 1000 >=? timeout) = (10 * timeout <=? k).
Proof.
  intros Hk. replace (start + 100 * k - start) with (100 * k) by lia.
  rewrite Z.quot_div_nonneg by lia.
  replace 1000 with (100 * 10) by reflexivity.
  rewrite Z.div_mul_cancel_l by lia.
  rewrite Z.geb_leb. apply Bool.eq_iff_eq_true. rewrite !Z.leb_le.
  pose proof (Z.div_mod k 10 ltac:(lia)). pose proof (Z.mod_pos_bound k 10 ltac:(lia)).
  lia.
Qed.

(** The polling loop on a child that has not been waited for, whatever the
    loop bound and the timeout. *)
Lemma wait_loop_live (fuel : nat) :
  forall start timeout t w img due k,
    child w = Child img due ->
    child_pid t = fork_result w -> 0 < fork_result w ->
    clock w = start + 100 * k -> 0 <= k <= 10 * Z.max 0 timeout ->
    match wait_loop fuel start timeout (mkState t w) with
    | Ret b s' =>
        self s' = t /\ fork_result (os s') = fork_result w
        /\ (exists tr, trace (os s') = (trace w ++ tr)%list
                       /\ forallb is_idle tr = true)
        /\ if b then
             child (os s') = Reaped
             /\ has_exited due (clock (os s')) = true
             /\ clock w <= clock (os s') <= start + 1000 * Z.max 0 timeout
             /\ (clock (os s') = clock w
                 \/ has_exited due (clock (os s') - 100) = false)
           else
             child (os s') = Child img due
             /\ has_exited due (clock (os s')) = false
             /\ clock (os s') = start + 1000 * Z.max 0 timeout
    | OutOfFuel => True
    | _ => False
    end.
Proof.
  induction fuel as [|fuel IH]; intros start timeout t w img due k Hc Hp Hf Hk Hk'.
  { exact I. }
  cbn [wait_loop]. mstep. unfold waitpid_nohang. rewrite Hc, Hp, Z.eqb_refl.
  destruct (has_exited due (clock w)) eqn:E.
  - mstep. rewrite Z.eqb_refl. cbn [self os]. wsimpl.
    destruct (log_all_rest (written w due) w) as (Hck0 & Hfr0 & _).
    rewrite Hck0, Hfr0, log_all_trace.
    split; [reflexivity|]. split; [reflexivity|].
    split.
    { exists (written w due ++ [EvWaitpid (fork_result w) (fork_result w)])%list.
      split; [rewrite <- app_assoc; reflexivity|].
      rewrite forallb_app, written_idle. reflexivity. }
    split; [reflexivity|]. split; [exact E|]. split; [lia|]. left. reflexivity.
  - mstep.
    replace (0 =? fork_result w) with false by (symmetry; apply Z.eqb_neq; lia).
    replace (0 =? -1) with false by reflexivity.
    mstep. wsimpl. rewrite Hk, elapsed_seconds by lia.
    destruct (10 * timeout <=? k) eqn:El.
    + apply Z.leb_le in El. cbn [self os]. wsimpl.
      split; [reflexivity|]. split; [reflexivity|].
      split; [eexists [_]; split; reflexivity|].
      split; [exact Hc|]. split; [exact E|]. lia.
    + apply Z.leb_gt in El. mstep.
      specialize (IH start timeout t (sleep_for 100 (log (EvWaitpid (fork_result w) 0) w))
                    img due (k + 1) Hc Hp Hf).
      revert IH. wsimpl. intros IH.
      specialize (IH ltac:(lia) ltac:(lia)).
      destruct (wait_loop fuel start timeout _) as [b s'| | | |]; try exact IH.
      destruct IH as (Hs & Hfr & (tr & Htr & Hq) & Hb).
      split; [exact Hs|]. split; [exact Hfr|].
      split.
      { exists (EvWaitpid (fork_result w) 0 :: EvSleep 100 :: tr).
        split; [|exact Hq]. rewrite Htr, <- !app_assoc. reflexivity. }
      destruct b.
      * destruct Hb as (Hr & Hex & Hck & Hfirst).
        split; [exact Hr|]. split; [exact Hex|]. split; [lia|].
        right. destruct Hfirst as [Heq|Hprev]; [|exact Hprev].
        rewrite Heq. replace (clock w + 100 - 100) with (clock w) by lia. exact E.
      * exact Hb.
Qed.

Lemma wait_for_process_live (fuel : nat) timeout t w img due :
  child w = Child img due ->
  child_pid t = fork_result w -> 0 < fork_result w ->
  match wait_for_process fuel timeout (mkState t w) with
  | Ret b s' =>
      self s' = t /\ fork_result (os s') = fork_result w
      /\ (exists tr, trace (os s') = (trace w ++ tr)%list
                     /\ forallb is_idle tr = true)
      /\ if b then
           child (os s') = Reaped
           /\ has_exited due (clock (os s')) = true
           /\ clock w <= clock (os s') <= clock w + 1000 * Z.max 0 timeout
           /\ (clock (os s') = clock w
               \/ has_exited due (clock (os s') - 100) = false)
         else
           child (os s') = Child img due
           /\ has_exited due (clock (os s')) = false
           /\ clock (os s') = clock w + 1000 * Z.max 0 timeout
  | OutOfFuel => True
  | _ => False
  end.
Proof.
  intros Hc Hp Hf. unfold wait_for_process. mstep.
  replace (child_pid t =? -1) with false by (symmetry; apply Z.eqb_neq; lia).
  mstep. apply (wait_loop_live fuel (clock w) timeout t w img due 0); auto; lia.
Qed.

Lemma has_exited_mono due a b : a <= b -> has_exited due a = true -> has_exited due b = true.
Proof.
  destruct due as [[d st]|]; cbn; [|discriminate].
  rewrite !Z.leb_le. lia.
Qed.

(** Where [wait_for_process] leaves a child that has not been waited for. *)
Lemma wait_for_process_settles (fuel : nat) timeout t w img due :
  child w = Child img due ->
  child_pid t = fork_result w -> 0 < fork_result w ->
  10 * Z.max 0 timeout < Z.of_nat fuel ->
  let deadline := clock w + 1000 * Z.max 0 timeout in
  exists s',
    wait_for_process fuel timeout (mkState t w) = Ret (has_exited due deadline) s'
    /\ self s' = t
    /\ if has_exited due deadline then
         child (os s') = Reaped
         /\ has_exited due (clock (os s')) = true
         /\ (clock (os s') = clock w
             \/ has_exited due (clock (os s') - 100) = false)
         /\ clock w <= clock (os s') <= deadline
       else
         child (os s') = Child img due /\ clock (os s') = deadline.
Proof.
  intros Hc Hp Hf Hfuel deadline.
  pose proof (wait_for_process_live fuel timeout t w img due Hc Hp Hf) as Hl.
  assert (Hret : exists b s', wait_for_process fuel timeout (mkState t w) = Ret b s').
  { unfold wait_for_process. mstep.
    replace (child_pid t =? -1) with false by (symmetry; apply Z.eqb_neq; lia).
    mstep. apply (wait_loop_returns fuel (clock w) timeout _ 0); cbn [os]; lia. }
  destruct Hret as (b & s' & Hr). rewrite Hr in Hl |- *.
  destruct Hl as (Hs & _ & _ & Hb). exists s'.
  destruct b.
  - destruct Hb as (Hre & Hex & Hck & Hfirst).
    assert (Hd : has_exited due deadline = true).
    { apply (has_exited_mono due (clock (os s'))); [unfold deadline; lia|exact Hex]. }
    rewrite Hd. repeat split; auto; lia.
  - destruct Hb as (Hch & Hex & Hck).
    fold deadline in Hck. rewrite Hck in Hex. rewrite Hex. auto.
Qed.

(** X3.  On a child that has not been waited for, [wait_for_process]
    returns [true] exactly when the child ends by the deadline; it then
    has reaped it, at the first poll at or after its end, so less than
    100 ms late.  Otherwise it returns [false] at the deadline, the child
    untouched.  A negative timeout counts as 0. *)
Theorem wait_for_process_deadline (fuel : nat) timeout t w img due :
  child w = Child img due ->
  child_pid t = fork_result w -> 0 < fork_result w ->
  10 * Z.max 0 timeout < Z.of_nat fuel ->
  let deadline := clock w + 1000 * Z.max 0 timeout in
  exists s',
    wait_for_process fuel timeout (mkState t w) = Ret (has_exited due deadline) s'
    /\ self s' = t
    /\ if has_exited due deadline then
         child (os s') = Reaped
         /\ has_exited due (clock (os s')) = true
         /\ (clock (os s') = clock w
             \/ has_exited due (clock (os s') - 100) = false)
         /\ clock w <= clock (os s') <= deadline
       else
         child (os s') = Child img due /\ clock (os s') = deadline.
Proof. apply wait_for_process_settles. Qed.

Lemma start_process_cases t w :
  exists b t1 w1 tr,
    start_process (mkState t w) = Ret b (mkState t1 w1)
    /\ t1 = set_child_pid (child_pid t1) t
    /\ trace w1 = (trace w ++ tr)%list
    /\ filter is_action tr = []
    /\ clock w1 = clock w /\ fork_result w1 = fork_result w
    /\ if b then
         child_pid t1 = fork_result w /\ 0 < fork_result w
         /\ command_args t <> []
         /\ exists img, child w1 = Child img (due_at (clock w) img)
       else child w1 = child w /\ (command_args t = [] \/ fork_result w <= 0).
Proof.
  unfold start_process. mstep. destruct (command_args t) as [|a l] eqn:Ea.
  - exists false, t, w, []. rewrite app_nil_r. repeat split; auto.
    destruct t; reflexivity.
  - mstep. unfold child_branch, fork.
    destruct (execvp w (a :: l)) as [img|e after react];
      destruct (0 <? fork_result w) eqn:Ef; mstep.
    + apply Z.ltb_lt in Ef.
      replace (fork_result w =? -1) with false by (symmetry; apply Z.eqb_neq; lia).
      eexists true, _, _, [EvFork (fork_result w)].
      repeat split; try exact Ef; try discriminate. eexists. reflexivity.
    + apply Z.ltb_ge in Ef. cbn [Z.eqb Pos.eqb]. mstep.
      eexists false, _, _, [EvFork (-1); EvCerr "Error: failed to fork process"].
      repeat split; auto. wsimpl. rewrite <- app_assoc. reflexivity.
    + apply Z.ltb_lt in Ef.
      replace (fork_result w =? -1) with false by (symmetry; apply Z.eqb_neq; lia).
      eexists true, _, _, [EvFork (fork_result w)].
      repeat split; try exact Ef; try discriminate. eexists. reflexivity.
    + apply Z.ltb_ge in Ef. cbn [Z.eqb Pos.eqb]. mstep.
      eexists false, _, _, [EvFork (-1); EvCerr "Error: failed to fork process"].
      repeat split; auto. wsimpl. rewrite <- app_assoc. reflexivity.
Qed.


Lemma terminate_process_facts t w img due :
  child_pid t = fork_result w -> 0 < fork_result w ->
  child w = Child img due ->
  exists w',
    terminate_process (mkState t w) = Ret tt (mkState t w')
    /\ trace w'
       = (trace w
          ++ when_verbose t (signal_line (parse_signal (signal_name t)) (child_pid t))
          ++ [EvKill (child_pid t) (parse_signal (signal_name t))])%list
    /\ clock w' = clock w /\ fork_result w' = fork_result w
    /\ child w' = Child img (deliver (parse_signal (signal_name t)) img due (clock w)).
Proof.
  intros Hp Hf Hc. eexists. split; [apply terminate_process_spec; lia|].
  rewrite kill_trace, log_all_trace, <- app_assoc.
  destruct (log_all_rest (when_verbose t (signal_line (parse_signal (signal_name t))
                                            (child_pid t))) w)
    as (Hck & Hfr & Hch & _).
  destruct (kill_child (child_pid t) (parse_signal (signal_name t)) _ img due
              ltac:(rewrite Hch; exact Hc) ltac:(rewrite Hfr; exact Hp))
    as (Hc' & Hck' & Hfr').
  rewrite Hc', Hck', Hfr', Hck, Hfr. auto.
Qed.

Lemma kill_process_facts t w img due :
  child_pid t = fork_result w -> 0 < fork_result w ->
  child w = Child img due ->
  exists w',
    kill_process (mkState t w) = Ret tt (mkState t w')
    /\ trace w'
       = (trace w ++ when_verbose t (sigkill_line (child_pid t))
          ++ [EvKill (child_pid t) SIGKILL])%list
    /\ clock w' = clock w /\ fork_result w' = fork_result w
    /\ child w' = Child img (deliver SIGKILL img due (clock w)).
Proof.
  intros Hp Hf Hc. eexists. split; [apply kill_process_spec; lia|].
  rewrite kill_trace, log_all_trace, <- app_assoc.
  destruct (log_all_rest (when_verbose t (sigkill_line (child_pid t))) w)
    as (Hck & Hfr & Hch & _).
  destruct (kill_child (child_pid t) SIGKILL _ img due
              ltac:(rewrite Hch; exact Hc) ltac:(rewrite Hfr; exact Hp))
    as (Hc' & Hck' & Hfr').
  rewrite Hc', Hck', Hfr', Hck, Hfr. auto.
Qed.

Lemma actions_of_signal t line e :
  filter is_action (when_verbose t line ++ [e]) = filter is_action [e].
Proof. rewrite filter_app, when_verbose_no_action. reflexivity. Qed.

(** The four paths of [run]: what it returns, the signals it sent, how long
    it took and what became of the child. *)
Lemma run_paths fuel t w code s' :
  run fuel (mkState t w) = Ret code s' ->
  let pid := fork_result w in
  let signal := parse_signal (signal_name t) in
  let D := Z.max 0 (duration_seconds t) in
  let K := kill_after_seconds t in
  exists tr, trace (os s') = (trace w ++ tr)%list /\
   ((code = 125 /\ filter is_action tr = []
     /\ clock (os s') = clock w /\ child (os s') = child w
     /\ (command_args t = [] \/ pid <= 0))
    \/ (0 < pid /\ command_args t <> []) /\
    ((code = 0 /\ filter is_action tr = [] /\ 0 < pid
        /\ child (os s') = Reaped
        /\ clock w <= clock (os s') <= clock w + 1000 * D)
    \/ (code = (if preserve_status t then 0 else 124)
        /\ filter is_action tr = [EvKill pid signal] /\ 0 < pid
        /\ ((K <= 0 /\ clock (os s') = clock w + 1000 * D
             /\ exists img due, child (os s') = Child img due)
            \/ (0 < K /\ child (os s') = Reaped
                /\ clock w + 1000 * D <= clock (os s') <= clock w + 1000 * (D + K))))
    \/ (code = 137
        /\ filter is_action tr = [EvKill pid signal; EvKill pid SIGKILL]
        /\ 0 < pid /\ 0 < K
        /\ clock (os s') = clock w + 1000 * (D + K) + 100
        /\ child_running (os s') = false
        /\ exists img due, child (os s') = Child img due))).
Proof.
  intros H pid signal D K. unfold run in H.
  destruct (start_process_cases t w)
    as (b & t1 & w1 & tr1 & Hs & Ht1 & Htr1 & Ha1 & Hck1 & Hfr1 & Hb).
  rewrite (bind_Ret _ _ _ _ _ Hs) in H.
  destruct b; cbn [negb] in H.
  2:{ inversion H; subst code s'. exists tr1. split; [exact Htr1|].
      left. cbn [os]. destruct Hb. auto. }
  destruct Hb as (Hpid & Hpos & Hargs & img & Hch1).
  rewrite Hpid in Ht1. subst t1.
  set (t1 := set_child_pid (fork_result w) t) in *.
  assert (Hp1 : child_pid t1 = fork_result w1) by (rewrite Hfr1; reflexivity).
  assert (Hf1 : 0 < fork_result w1) by (rewrite Hfr1; exact Hpos).
  unfold bind at 1 in H. unfold this at 1 in H. cbn [self] in H.
  unfold bind at 1 in H.
  pose proof (wait_for_process_live fuel (duration_seconds t1) t1 w1 img _ Hch1 Hp1 Hf1)
    as Hl.
  destruct (wait_for_process fuel (duration_seconds t1) (mkState t1 w1))
    as [f [t2 w2]| | | |]; try discriminate.
  cbn [self os] in Hl. destruct Hl as (-> & Hfr2 & (tr2 & Htr2 & Hq2) & Hf).
  change (duration_seconds t1) with (duration_seconds t) in Hf. fold D in Hf.
  destruct f.
  { inversion H; subst code s'. exists (tr1 ++ tr2)%list. cbn [os].
    split; [rewrite Htr2, Htr1, app_assoc; reflexivity|].
    right. split; [auto|]. left. destruct Hf as (Hre & _ & Hck & _).
    rewrite filter_app, Ha1, (idle_no_action _ Hq2).
    repeat split; auto; lia. }
  destruct Hf as (Hch2 & Hex2 & Hck2).
  destruct (terminate_process_facts t1 w2 img _ ltac:(rewrite Hfr2; exact Hp1)
              ltac:(rewrite Hfr2; exact Hf1) Hch2)
    as (w3 & Hterm & Htr3 & Hck3 & Hfr3 & Hch3).
  rewrite (bind_Ret _ _ _ _ _ Hterm) in H.
  unfold bind at 1 in H. unfold this at 1 in H. cbn [self] in H.
  change (child_pid t1) with pid in Htr3.
  change (parse_signal (signal_name t1)) with signal in Htr3, Hch3.
  change (kill_after_seconds t1) with K in H.
  change (preserve_status t1) with (preserve_status t) in H.
  set (due3 := deliver signal img _ (clock w2)) in *. clearbody due3.
  assert (Hacts : filter is_action
                    (tr1 ++ tr2 ++ when_verbose t1 (signal_line signal pid)
                     ++ [EvKill pid signal])%list = [EvKill pid signal]).
  { rewrite !filter_app, Ha1, (idle_no_action _ Hq2), when_verbose_no_action.
    reflexivity. }
  destruct (K >? 0) eqn:EK.
  - apply Z.gtb_lt in EK. unfold bind at 1 in H.
    pose proof (wait_for_process_live fuel K t1 w3 img _ Hch3
                  ltac:(rewrite Hfr3, Hfr2; exact Hp1)
                  ltac:(rewrite Hfr3, Hfr2; exact Hf1)) as Hl.
    destruct (wait_for_process fuel K (mkState t1 w3))
      as [f [t4 w4]| | | |]; try discriminate.
    cbn [self os] in Hl. destruct Hl as (-> & Hfr4 & (tr4 & Htr4 & Hq4) & Hf).
    replace (Z.max 0 K) with K in Hf by lia.
    destruct f.
    + inversion H; subst code s'. cbn [os].
      exists (tr1 ++ tr2 ++ (when_verbose t1 (signal_line signal pid)
                             ++ [EvKill pid signal]) ++ tr4)%list.
      split; [rewrite Htr4, Htr3, Htr2, Htr1, <- !app_assoc; reflexivity|].
      right. split; [auto|]. right; left. destruct Hf as (Hre & _ & Hck & _).
      split; [reflexivity|]. split.
      { rewrite !filter_app, Ha1, (idle_no_action _ Hq2), when_verbose_no_action,
          (idle_no_action _ Hq4). reflexivity. }
      split; [exact Hpos|]. right. repeat split; auto; lia.
    + destruct Hf as (Hch4 & Hex4 & Hck4).
      destruct (kill_process_facts t1 w4 img _
                  ltac:(rewrite Hfr4, Hfr3, Hfr2; exact Hp1)
                  ltac:(rewrite Hfr4, Hfr3, Hfr2; exact Hf1) Hch4)
        as (w5 & Hkill & Htr5 & Hck5 & Hfr5 & Hch5).
      rewrite (bind_Ret _ _ _ _ _ Hkill) in H. mstep_in H.
      inversion H; subst code s'. cbn [os].
      change (child_pid t1) with pid in Htr5.
      exists (tr1 ++ tr2 ++ (when_verbose t1 (signal_line signal pid)
                             ++ [EvKill pid signal]) ++ tr4
              ++ (when_verbose t1 (sigkill_line pid) ++ [EvKill pid SIGKILL])
              ++ [EvSleep 100])%list.
      split.
      { wsimpl. rewrite Htr5, Htr4, Htr3, Htr2, Htr1, <- !app_assoc. reflexivity. }
      right. split; [auto|]. right; right.
      split; [reflexivity|]. split.
      { rewrite !filter_app, Ha1, (idle_no_action _ Hq2), !when_verbose_no_action,
          (idle_no_action _ Hq4). reflexivity. }
      split; [exact Hpos|]. split; [exact EK|].
      wsimpl. split; [lia|].
      unfold child_running. wsimpl. rewrite Hch5.
      split; [|eauto].
      unfold deliver. rewrite Hex4, Z.eqb_refl. cbn [has_exited negb].
      replace (clock w4 <=? clock w5 + 100) with true
        by (symmetry; apply Z.leb_le; lia).
      reflexivity.
  - assert (HK : K <= 0) by (rewrite Z.gtb_ltb in EK; apply Z.ltb_ge in EK; exact EK).
    inversion H; subst code s'. cbn [os].
    exists (tr1 ++ tr2 ++ when_verbose t1 (signal_line signal pid)
            ++ [EvKill pid signal])%list.
    split; [rewrite Htr3, Htr2, Htr1, <- !app_assoc; reflexivity|].
    right. split; [auto|]. right; left. split; [reflexivity|]. split; [exact Hacts|].
    split; [exact Hpos|]. left. split; [exact HK|]. split; [lia|]. eauto.
Qed.


(** [run] neither throws nor calls [exit]. *)
Lemma run_ends fuel s :
  match run fuel s with
  | Ret _ _ | OutOfFuel => True
  | _ => False
  end.
Proof.
  destruct s as [t w]. unfold run.
  destruct (start_process_any t w) as (b & t1 & w1 & tr1 & Hs & _).
  rewrite (bind_Ret _ _ _ _ _ Hs).
  destruct b; cbn [negb]; [|exact I].
  unfold bind at 1. unfold this at 1. cbn [self]. unfold bind at 1.
  pose proof (wait_for_process_polls fuel (duration_seconds t1) (mkState t1 w1)) as Hp.
  destruct (wait_for_process fuel (duration_seconds t1) (mkState t1 w1))
    as [f [t2 w2]| | | |]; try exact Hp.
  destruct f; [exact I|].
  destruct (terminate_process_any t2 w2) as (w3 & tr3 & Hterm & _).
  rewrite (bind_Ret _ _ _ _ _ Hterm).
  unfold bind at 1. unfold this at 1. cbn [self].
  destruct (kill_after_seconds t2 >? 0); [|exact I].
  unfold bind at 1.
  pose proof (wait_for_process_polls fuel (kill_after_seconds t2) (mkState t2 w3)) as Hp4.
  destruct (wait_for_process fuel (kill_after_seconds t2) (mkState t2 w3))
    as [f [t4 w4]| | | |]; try exact Hp4.
  destruct f; [exact I|].
  destruct (kill_process_any t4 w4) as (w5 & tr5 & Hkill & _).
  rewrite (bind_Ret _ _ _ _ _ Hkill). exact I.
Qed.

(** X4.  What [run] returns goes with the signals it sent: 125 and no
    signal when no child could be started (no command, or [fork] failed);
    otherwise 0 and no signal, or the initial signal alone and 124 (0 with
    [preserve_status]), or the initial signal, then SIGKILL, and 137, which
    needs a positive kill-after time and leaves the child dead.  Signals go
    to the pid [fork] returned, which is positive, and to no other. *)
Theorem run_exit_codes_and_signals fuel t w code s' :
  run fuel (mkState t w) = Ret code s' ->
  let pid := fork_result w in
  let signal := parse_signal (signal_name t) in
  exists tr, trace (os s') = (trace w ++ tr)%list /\
    ((code = 125 /\ filter is_action tr = []
      /\ (command_args t = [] \/ pid <= 0))
     \/ (command_args t <> [] /\ 0 < pid
         /\ ((code = 0 /\ filter is_action tr = [])
             \/ (code = (if preserve_status t then 0 else 124)
                 /\ filter is_action tr = [EvKill pid signal])
             \/ (code = 137 /\ 0 < kill_after_seconds t
                 /\ filter is_action tr = [EvKill pid signal; EvKill pid SIGKILL]
                 /\ child_running (os s') = false)))).
Proof.
  intros H pid signal. destruct (run_paths _ _ _ _ _ H) as (tr & Htr & Hc).
  exists tr. split; [exact Htr|].
  destruct Hc as [(Hc & Ha & _ & _ & Hno)|((Hpid & Hargs) & Hc)]; [left; auto|].
  right. split; [exact Hargs|]. split; [exact Hpid|].
  destruct Hc as [(Hc & Ha & _)|[(Hc & Ha & _)|(Hc & Ha & _ & HK & _ & Hrun & _)]]; auto.
  right; right. auto.
Qed.

(** X5.  On the clock of the model [run] takes at most the duration plus
    the kill-after time plus 100 ms; no more than the duration when it
    sends no signal, at least the duration when it sends one, and the three
    together exactly when it returns 137. *)
Theorem run_timing fuel t w code s' :
  run fuel (mkState t w) = Ret code s' ->
  let D := Z.max 0 (duration_seconds t) in
  let K := Z.max 0 (kill_after_seconds t) in
  let elapsed := clock (os s') - clock w in
  exists tr, trace (os s') = (trace w ++ tr)%list
    /\ 0 <= elapsed <= 1000 * (D + K) + 100
    /\ (filter is_action tr = [] -> elapsed <= 1000 * D)
    /\ (filter is_action tr <> [] -> 1000 * D <= elapsed)
    /\ (code = 124 -> elapsed <= 1000 * (D + K))
    /\ (code = 137 -> elapsed = 1000 * (D + K) + 100).
Proof.
  intros H D K elapsed. destruct (run_paths _ _ _ _ _ H) as (tr & Htr & Hc).
  exists tr. split; [exact Htr|]. unfold elapsed. fold D in Hc.
  destruct Hc as [(Hc & Ha & Hck & _)|(_ & [(Hc & Ha & _ & _ & Hck)
                  |[(Hc & Ha & _ & Hck)|(Hc & Ha & _ & HK & Hck & _)]])].
  - rewrite Ha. subst code. repeat split; intros; try congruence; lia.
  - rewrite Ha. subst code. repeat split; intros; try congruence; lia.
  - rewrite Ha. subst code.
    destruct Hck as [(HK & Hck & _)|(HK & _ & Hck)]; destruct (preserve_status t);
      repeat split; intros; try congruence; try discriminate; lia.
  - rewrite Ha. subst code. repeat split; intros; try congruence; try discriminate; lia.
Qed.
End Paths.

(* ================================================================== *)
(** * The program as a whole                                          *)
(* ================================================================== *)

Section Program.
Context {P : Platform}.

(** Every way [main] can end. *)
Lemma main_cases fuel argv t w :
  match main fuel argv (mkState t w) with
  | Ret code s' => code = 0 \/ code = 124 \/ code = 125 \/ code = 137
  | Exit c s' =>
      c = 0 /\ os s' = log_all (map EvCout usage_text) w
      /\ (In "-h" (tl argv) \/ In "--help" (tl argv))
  | Throw e s' =>
      os s' = w /\ exists arg, In arg (tl argv) /\ stod arg = inr e
  | Undefined =>
      exists arg value pos, In arg (tl argv) /\ stod arg = inl (value, pos)
                            /\ scaled_value arg value pos = Some S754_nan
  | OutOfFuel => True
  end.
Proof.
  unfold main. unfold bind at 1. unfold assign at 1. cbn [self os].
  unfold bind at 1.
  pose proof (parse_args_cases argv Timeout_new w) as Ha.
  destruct (parse_args argv (mkState Timeout_new w)) as [b [t1 w1]|e s1|c s1| |];
    try exact Ha; try contradiction.
  destruct b; cbn [negb].
  - pose proof (run_ends fuel (mkState t1 w1)) as He.
    destruct (run fuel (mkState t1 w1)) as [code s'| | | |] eqn:Er;
      try contradiction; [|exact I].
    destruct (run_paths _ _ _ _ _ Er) as (tr & _ & Hc).
    destruct Hc as [(-> & _)|(_ & [(-> & _)|[(-> & _)|(-> & _)]])];
      try destruct (preserve_status t1); tauto.
  - unfold bind. rewrite print_usage_spec. unfold ret. tauto.
Qed.

(** X6.  When [parse_args] rejects the arguments, [main] returns 125
    having written one line that starts with [Error: ] on the error stream
    and then the usage text on the output; no process is started and no
    time passes. *)
Theorem main_rejects_with_125 fuel argv t w s1 :
  parse_args argv (mkState Timeout_new w) = Ret false s1 ->
  exists line s',
    main fuel argv (mkState t w) = Ret 125 s'
    /\ String.prefix "Error: " line = true
    /\ trace (os s') = (trace w ++ EvCerr line :: map EvCout usage_text)%list
    /\ child (os s') = child w /\ clock (os s') = clock w.
Proof.
  intros H. pose proof (parse_args_cases argv Timeout_new w) as Hc. rewrite H in Hc.
  destruct Hc as (line & Hos & Hpre).
  exists line. unfold main. unfold bind at 1. unfold assign at 1. cbn [self os].
  rewrite (bind_Ret _ _ _ _ _ H). cbn [negb].
  unfold bind. rewrite print_usage_spec. unfold ret. eexists. split; [reflexivity|].
  split; [exact Hpre|]. cbn [os]. rewrite Hos, log_all_trace.
  destruct (log_all_rest (map EvCout usage_text) (log (EvCerr line) w))
    as (Hck & _ & Hch & _).
  rewrite Hck, Hch. wsimpl. rewrite <- app_assoc. repeat split.
Qed.

(** X7.  [main] calls [exit] only for [-h] or [--help], with status 0,
    after the usage text and nothing else; no process is started. *)
Theorem main_exits_only_for_help fuel argv t w c s' :
  main fuel argv (mkState t w) = Exit c s' ->
  c = 0
  /\ (In "-h" (tl argv) \/ In "--help" (tl argv))
  /\ trace (os s') = (trace w ++ map EvCout usage_text)%list
  /\ child (os s') = child w.
Proof.
  intros H. pose proof (main_cases fuel argv t w) as Hc. rewrite H in Hc.
  destruct Hc as (-> & -> & Hin). rewrite log_all_trace.
  destruct (log_all_rest (map EvCout usage_text) w) as (_ & _ & Hch & _).
  auto.
Qed.

(** X8.  An exception leaves [main] only when [std::stod] throws it on one
    of the arguments; nothing has been written or started by then. *)
Theorem main_throws_only_from_stod fuel argv t w e s' :
  main fuel argv (mkState t w) = Throw e s' ->
  os s' = w /\ exists arg, In arg (tl argv) /\ stod arg = inr e.
Proof.
  intros H. pose proof (main_cases fuel argv t w) as Hc. rewrite H in Hc. exact Hc.
Qed.

(** X9.  The behaviour of [main] is undefined only when the value of one
    of the arguments, after the unit, is not a number. *)
Theorem main_undefined_only_for_nan fuel argv t w :
  main fuel argv (mkState t w) = Undefined ->
  exists arg value pos,
    In arg (tl argv) /\ stod arg = inl (value, pos)
    /\ scaled_value arg value pos = Some S754_nan.
Proof.
  intros H. pose proof (main_cases fuel argv t w) as Hc. rewrite H in Hc. exact Hc.
Qed.

(** X10.  [main] returns 0, 124, 125 or 137 and nothing else: never 126 or
    127, never the status of the command. *)
Theorem main_exit_codes fuel argv t w code s' :
  main fuel argv (mkState t w) = Ret code s' ->
  code = 0 \/ code = 124 \/ code = 125 \/ code = 137.
Proof.
  intros H. pose proof (main_cases fuel argv t w) as Hc. rewrite H in Hc. exact Hc.
Qed.

(** X11.  [main] ends whatever the arguments and the command: a wait
    polls at most ten times a second for at most [INT_MAX] seconds, so a
    loop bound above [10 * INT_MAX] is never used up. *)
Theorem main_terminates fuel argv t w :
  10 * INT_MAX < Z.of_nat fuel ->
  main fuel argv (mkState t w) <> OutOfFuel.
Proof.
  intros Hfuel. unfold main. unfold bind at 1. unfold assign at 1. cbn [self os].
  unfold bind at 1.
  pose proof (parse_args_cases argv Timeout_new w) as Ha.
  destruct (parse_args argv (mkState Timeout_new w)) as [b [t1 w1]|e s1|c s1| |];
    try discriminate; try contradiction.
  destruct b; cbn [negb].
  - cbn [self os] in Ha. destruct Ha as (_ & _ & HD & HK & _).
    specialize (HK ltac:(cbn; unfold INT_MAX; lia)).
    destruct (run_returns fuel t1 w1) as (code & s' & Hr); try lia.
    rewrite Hr. discriminate.
  - unfold bind. rewrite print_usage_spec. discriminate.
Qed.
End Program.

(* ================================================================== *)
(** * The plain invocation, and the verbose one                       *)
(* ================================================================== *)

Section Usage.
Context {P : Platform}.

(** Without [-s] the signal is SIGTERM. *)
Lemma parse_signal_default : parse_signal EmptyString = SIGTERM.
Proof. reflexivity. Qed.

(** X22.  [timeout DURATION COMMAND], no option, with a command that can
    be started: [main] returns 0 having sent no signal when the command
    ends by the deadline, and otherwise 124 at the deadline, SIGTERM to
    the child being the one signal sent. *)
Theorem main_plain_usage fuel prog dur N cmd t w img :
  is_option dur = false ->
  parse_duration dur (mkState Timeout_new w)
  = Ret true (mkState (set_duration_seconds N Timeout_new) w) ->
  cmd <> [] -> execvp w cmd = ExecOk img -> 0 < fork_result w ->
  10 * N < Z.of_nat fuel ->
  let deadline := clock w + 1000 * N in
  let ended := has_exited (due_at (clock w) img) deadline in
  exists s' tr,
    main fuel (prog :: dur :: cmd) (mkState t w) = Ret (if ended then 0 else 124) s'
    /\ trace (os s') = (trace w ++ tr)%list
    /\ filter is_action tr = (if ended then [] else [EvKill (fork_result w) SIGTERM])
    /\ if ended then child (os s') = Reaped /\ clock (os s') <= deadline
       else clock (os s') = deadline.
Proof.
  intros Hopt Hdur Hcmd Hex Hf Hfuel deadline ended.
  assert (HN : 0 <= N).
  { pose proof (parse_duration_cases dur (mkState Timeout_new w)) as Hc.
    rewrite Hdur in Hc. destruct Hc as (d & Hd & Heq).
    injection Heq as Heq. lia. }
  unfold main. unfold bind at 1. unfold assign at 1. cbn [self os].
  assert (Hargs : parse_args (prog :: dur :: cmd) (mkState Timeout_new w)
                  = Ret true (mkState (set_command_args cmd
                                         (set_duration_seconds N Timeout_new)) w)).
  { unfold parse_args. cbn [tl parse_options]. rewrite Hopt. mstep.
    rewrite Hdur. mstep. cbn [command_args set_duration_seconds Timeout_new app].
    destruct cmd; [congruence|reflexivity]. }
  rewrite (bind_Ret _ _ _ _ _ Hargs). cbn [negb].
  set (t1 := set_command_args cmd (set_duration_seconds N Timeout_new)).
  unfold run.
  rewrite (bind_Ret _ _ _ _ _ (start_process_ok t1 w img Hcmd Hf Hex)). cbn [negb].
  unfold bind at 1. unfold this at 1. cbn [self].
  change (duration_seconds (set_child_pid (fork_result w) t1)) with N.
  destruct (wait_for_process_settles fuel N (set_child_pid (fork_result w) t1)
              (log (EvFork (fork_result w))
                 (set_child (Child img (due_at (clock w) img)) w))
              img (due_at (clock w) img) eq_refl eq_refl Hf ltac:(lia))
    as (s2 & Hw & Hs2 & Hend).
  revert Hw Hend. wsimpl. replace (Z.max 0 N) with N by lia.
  fold deadline. fold ended. intros Hw Hend.
  rewrite (bind_Ret _ _ _ _ _ Hw).
  pose proof (wait_for_process_polls fuel N
                (mkState (set_child_pid (fork_result w) t1)
                   (log (EvFork (fork_result w))
                      (set_child (Child img (due_at (clock w) img)) w)))) as Hp.
  rewrite Hw in Hp. cbn [self os] in Hp. revert Hp. wsimpl.
  intros (_ & Hfr2 & _ & _ & tr2 & Htr2 & Hq2 & _).
  destruct ended.
  - destruct Hend as (Hre & _ & _ & Hck).
    exists s2, (EvFork (fork_result w) :: tr2). split; [reflexivity|].
    split; [rewrite Htr2, <- app_assoc; reflexivity|].
    split; [cbn [filter is_action]; apply idle_no_action, Hq2|].
    split; [exact Hre|lia].
  - destruct Hend as (Hch & Hck). destruct s2 as [t2 w2]. cbn [self os] in *. subst t2.
    destruct (terminate_process_facts (set_child_pid (fork_result w) t1) w2 img _
                ltac:(rewrite Hfr2; reflexivity) ltac:(rewrite Hfr2; exact Hf) Hch)
      as (w3 & Hterm & Htr3 & Hck3 & _).
    rewrite (bind_Ret _ _ _ _ _ Hterm).
    unfold bind at 1. unfold this at 1. cbn [self].
    change (kill_after_seconds (set_child_pid (fork_result w) t1) >? 0) with false.
    cbv iota.
    eexists _, (EvFork (fork_result w) :: tr2
                ++ when_verbose (set_child_pid (fork_result w) t1) _ ++ [_])%list.
    split; [reflexivity|]. cbn [os].
    split; [rewrite Htr3, Htr2, <- !app_assoc; reflexivity|].
    split; [|lia].
    cbn [filter is_action]. rewrite filter_app, (idle_no_action _ Hq2).
    cbn [app]. rewrite actions_of_signal. reflexivity.
Qed.
End Usage.

Section Verbosity.
Context {P : Platform}.

Lemma same_but_verbose_fields t1 t0 :
  same_but_verbose t1 t0 ->
  duration_seconds t1 = duration_seconds t0
  /\ kill_after_seconds t1 = kill_after_seconds t0
  /\ signal_name t1 = signal_name t0
  /\ preserve_status t1 = preserve_status t0
  /\ command_args t1 = command_args t0
  /\ child_pid t1 = child_pid t0.
Proof.
  unfold same_but_verbose, set_verbose. intros H. injection H. intros.
  repeat split; assumption.
Qed.

Lemma quiet_app a b : quiet (a ++ b) = (quiet a ++ quiet b)%list.
Proof. apply filter_app. Qed.

(** The relation is kept by whatever is done to both worlds alike. *)
Lemma same_log e w1 w0 :
  same_but_diagnostics w1 w0 -> same_but_diagnostics (log e w1) (log e w0).
Proof.
  intros (Hc & Hf & Hx & Hch & Hpd & Htr). unfold same_but_diagnostics. wsimpl.
  rewrite !quiet_app, Htr. repeat split; auto.
Qed.

Lemma same_log_all es w1 w0 :
  same_but_diagnostics w1 w0 ->
  same_but_diagnostics (log_all es w1) (log_all es w0).
Proof.
  revert w1 w0. induction es as [|e es IH]; intros w1 w0 H; [exact H|].
  cbn [log_all fold_left]. apply IH, same_log, H.
Qed.

Lemma same_set_child p w1 w0 :
  same_but_diagnostics w1 w0 ->
  same_but_diagnostics (set_child p w1) (set_child p w0).
Proof. intros (Hc & Hf & Hx & Hch & Hpd & Htr). repeat split; assumption. Qed.

Lemma same_set_pending q w1 w0 :
  same_but_diagnostics w1 w0 ->
  same_but_diagnostics (set_pending q w1) (set_pending q w0).
Proof. intros (Hc & Hf & Hx & Hch & Hpd & Htr). repeat split; assumption. Qed.

Lemma same_sleep_for ms w1 w0 :
  same_but_diagnostics w1 w0 ->
  same_but_diagnostics (sleep_for ms w1) (sleep_for ms w0).
Proof.
  intros H. apply same_log. destruct H as (Hc & Hf & Hx & Hch & Hpd & Htr).
  unfold same_but_diagnostics. wsimpl. rewrite Hc. repeat split; assumption.
Qed.

Lemma agree_bind {A B} (m1 m0 : M A) (k1 k0 : A -> M B) s1 s0 :
  agree (m1 s1) (m0 s0) ->
  (forall a s1' s0', alike s1' s0' -> agree (k1 a s1') (k0 a s0')) ->
  agree (bind m1 k1 s1) (bind m0 k0 s0).
Proof.
  intros Hm Hk. unfold bind.
  destruct (m1 s1) as [a1 s1'| | | |]; destruct (m0 s0) as [a0 s0'| | | |];
    try contradiction; try exact I.
  destruct Hm as [-> Hs]. apply Hk, Hs.
Qed.

Lemma agree_waitpid pid w1 w0 :
  same_but_diagnostics w1 w0 ->
  fst (waitpid_nohang pid w1) = fst (waitpid_nohang pid w0)
  /\ same_but_diagnostics (snd (waitpid_nohang pid w1)) (snd (waitpid_nohang pid w0)).
Proof.
  intros Hw. pose proof Hw as (Hc & Hf & Hx & Hch & Hpd & Htr).
  unfold waitpid_nohang, written. rewrite Hch, Hf, Hc, Hpd.
  destruct (child w0) as [|img due|] eqn:E;
    [| destruct (pid =? fork_result w0); [destruct (has_exited due (clock w0))|] |];
    cbn [fst snd]; (split; [reflexivity|]);
    repeat first [apply same_log | apply same_set_child | apply same_log_all];
    exact Hw.
Qed.

Lemma agree_wait_loop (fuel : nat) :
  forall start timeout s1 s0,
    alike s1 s0 ->
    agree (wait_loop fuel start timeout s1) (wait_loop fuel start timeout s0).
Proof.
  induction fuel as [|fuel IH]; intros start timeout [t1 w1] [t0 w0] [Ht Hw];
    [exact I|].
  cbn [self os] in Ht, Hw.
  destruct (same_but_verbose_fields _ _ Ht) as (_ & _ & _ & _ & _ & Hpid).
  cbn [wait_loop]. mstep. rewrite Hpid.
  destruct (agree_waitpid (child_pid t0) w1 w0 Hw) as [Hr Hw'].
  destruct (waitpid_nohang (child_pid t0) w1) as [r1 w1'].
  destruct (waitpid_nohang (child_pid t0) w0) as [r0 w0'].
  cbn [fst snd] in Hr, Hw'. subst r1. mstep.
  destruct (r0 =? child_pid t0); [split; [reflexivity|split; assumption]|].
  destruct (r0 =? -1); [split; [reflexivity|split; assumption]|].
  mstep. rewrite (proj1 Hw').
  destruct (_ >=? timeout); [split; [reflexivity|split; assumption]|].
  mstep. apply IH. split; [exact Ht|]. cbn [os]. apply same_sleep_for, Hw'.
Qed.

Lemma agree_wait_for_process fuel timeout s1 s0 :
  alike s1 s0 ->
  agree (wait_for_process fuel timeout s1) (wait_for_process fuel timeout s0).
Proof.
  destruct s1 as [t1 w1], s0 as [t0 w0]. intros [Ht Hw]. cbn [self os] in Ht, Hw.
  destruct (same_but_verbose_fields _ _ Ht) as (_ & _ & _ & _ & _ & Hpid).
  unfold wait_for_process. mstep. rewrite Hpid.
  destruct (child_pid t0 =? -1); [split; [reflexivity|split; assumption]|].
  mstep. rewrite (proj1 Hw).
  apply agree_wait_loop. split; [exact Ht|exact Hw].
Qed.

Lemma agree_start_process s1 s0 :
  alike s1 s0 -> agree (start_process s1) (start_process s0).
Proof.
  destruct s1 as [t1 w1], s0 as [t0 w0]. intros [Ht Hw]. cbn [self os] in Ht, Hw.
  destruct (same_but_verbose_fields _ _ Ht) as (_ & _ & _ & _ & Hargs & _).
  unfold start_process. mstep. rewrite Hargs.
  destruct (command_args t0) as [|a l]; [split; [reflexivity|split; assumption]|].
  mstep. unfold child_branch, fork.
  pose proof Hw as (Hc & Hf & Hx & Hch & Hpd & Htr). rewrite Hx, Hf, Hc.
  assert (Hobj : forall p, same_but_verbose (set_child_pid p t1) (set_child_pid p t0)).
  { intros p. unfold same_but_verbose in *. unfold set_verbose, set_child_pid in *.
    cbn. injection Ht. intros. congruence. }
  destruct (execvp w0 (a :: l)) as [img|e after react];
    destruct (0 <? fork_result w0) eqn:Ef; mstep;
    try (apply Z.ltb_lt in Ef;
         replace (fork_result w0 =? -1) with false by (symmetry; apply Z.eqb_neq; lia));
    try (cbn [Z.eqb Pos.eqb]; mstep);
    (split; [reflexivity|]); (split; [apply Hobj|]); cbn [os];
    repeat first [apply same_log | apply same_set_pending | apply same_set_child];
    exact Hw.
Qed.

Lemma same_kill pid sig w1 w0 :
  same_but_diagnostics w1 w0 ->
  same_but_diagnostics (kill pid sig w1) (kill pid sig w0).
Proof.
  intros Hw. pose proof Hw as (Hc & Hf & Hx & Hch & Hpd & Htr).
  unfold kill. rewrite Hch, Hf, Hc, Hpd. apply same_log.
  destruct (child w0) as [|img due|]; [| destruct (pid =? fork_result w0) |];
    repeat first [apply same_set_pending | apply same_set_child]; exact Hw.
Qed.

Lemma same_diagnostic_left line w1 w0 :
  is_diagnostic (EvCerr line) = true ->
  same_but_diagnostics w1 w0 -> same_but_diagnostics (log (EvCerr line) w1) w0.
Proof.
  intros Hd (Hc & Hf & Hx & Hch & Hpd & Htr). unfold same_but_diagnostics. wsimpl.
  rewrite quiet_app. unfold quiet at 2. cbn [filter]. rewrite Hd. cbn [negb].
  rewrite app_nil_r. auto 6.
Qed.

Lemma same_sym w1 w0 : same_but_diagnostics w1 w0 -> same_but_diagnostics w0 w1.
Proof. intros (Hc & Hf & Hx & Hch & Hpd & Htr). repeat split; auto. Qed.

Lemma same_when_verbose t1 t0 line w1 w0 :
  String.prefix "Sending " line = true ->
  same_but_diagnostics w1 w0 ->
  same_but_diagnostics (log_all (when_verbose t1 line) w1) (log_all (when_verbose t0 line) w0).
Proof.
  intros Hl Hw. unfold when_verbose.
  destruct (verbose t1), (verbose t0); cbn [log_all fold_left]; auto.
  - apply same_diagnostic_left; [exact Hl|].
    apply same_sym, same_diagnostic_left; [exact Hl|]. apply same_sym, Hw.
  - apply same_diagnostic_left; assumption.
  - apply same_sym, same_diagnostic_left; [exact Hl|]. apply same_sym, Hw.
Qed.

Lemma agree_terminate_process s1 s0 :
  alike s1 s0 -> agree (terminate_process s1) (terminate_process s0).
Proof.
  destruct s1 as [t1 w1], s0 as [t0 w0]. intros [Ht Hw]. cbn [self os] in Ht, Hw.
  destruct (same_but_verbose_fields _ _ Ht) as (_ & _ & Hsig & _ & _ & Hpid).
  destruct (Z.eq_dec (child_pid t0) (-1)) as [Hno|Hyes].
  - unfold terminate_process. mstep. rewrite Hpid, Hno. cbn [Z.eqb Pos.eqb negb].
    split; [reflexivity|split; assumption].
  - rewrite !terminate_process_spec by congruence.
    split; [reflexivity|]. split; [exact Ht|]. cbn [os].
    rewrite Hsig, Hpid. apply same_kill, same_when_verbose; [reflexivity|exact Hw].
Qed.

Lemma agree_kill_process s1 s0 :
  alike s1 s0 -> agree (kill_process s1) (kill_process s0).
Proof.
  destruct s1 as [t1 w1], s0 as [t0 w0]. intros [Ht Hw]. cbn [self os] in Ht, Hw.
  destruct (same_but_verbose_fields _ _ Ht) as (_ & _ & _ & _ & _ & Hpid).
  destruct (Z.eq_dec (child_pid t0) (-1)) as [Hno|Hyes].
  - unfold kill_process. mstep. rewrite Hpid, Hno. cbn [Z.eqb Pos.eqb negb].
    split; [reflexivity|split; assumption].
  - rewrite !kill_process_spec by congruence.
    split; [reflexivity|]. split; [exact Ht|]. cbn [os].
    rewrite Hpid. apply same_kill, same_when_verbose; [reflexivity|exact Hw].
Qed.

Lemma agree_this {B} (k1 k0 : Timeout -> M B) s1 s0 :
  agree (k1 (self s1) s1) (k0 (self s0) s0) -> agree (bind this k1 s1) (bind this k0 s0).
Proof. intros H. exact H. Qed.

Lemma agree_run fuel s1 s0 : alike s1 s0 -> agree (run fuel s1) (run fuel s0).
Proof.
  intros Hs. unfold run.
  apply agree_bind; [apply agree_start_process, Hs|].
  intros started s1' s0' Hs'. destruct started; cbn [negb]; [|split; [reflexivity|exact Hs']].
  apply agree_this.
  destruct (same_but_verbose_fields _ _ (proj1 Hs')) as (HD & _).
  rewrite HD.
  apply agree_bind; [apply agree_wait_for_process, Hs'|].
  intros finished s1'' s0'' Hs''. destruct finished; [split; [reflexivity|exact Hs'']|].
  apply agree_bind; [apply agree_terminate_process, Hs''|].
  intros _ s1_3 s0_3 Hs3.
  apply agree_this.
  destruct (same_but_verbose_fields _ _ (proj1 Hs3)) as (_ & HK & _ & Hpre & _).
  rewrite HK, Hpre.
  destruct (kill_after_seconds (self s0_3) >? 0); [|split; [reflexivity|exact Hs3]].
  apply agree_bind; [apply agree_wait_for_process, Hs3|].
  intros finished s1_4 s0_4 Hs4. destruct finished; [split; [reflexivity|exact Hs4]|].
  apply agree_bind; [apply agree_kill_process, Hs4|].
  intros _ s1_5 s0_5 [Ht5 Hw5]. mstep. split; [reflexivity|]. split; [exact Ht5|].
  cbn [os]. apply same_sleep_for, Hw5.
Qed.

(** X23.  [verbose] changes nothing but the diagnostics: with it or
    without it [run] returns the same value at the same instant and leaves
    the child in the same state, and the two traces are the same once the
    lines that start with [Sending] are dropped. *)
Theorem verbose_only_adds_diagnostics fuel t w :
  match run fuel (mkState (set_verbose true t) w),
        run fuel (mkState (set_verbose false t) w) with
  | Ret c1 s1, Ret c0 s0 =>
      c1 = c0 /\ clock (os s1) = clock (os s0) /\ child (os s1) = child (os s0)
      /\ quiet (trace (os s1)) = quiet (trace (os s0))
  | OutOfFuel, OutOfFuel => True
  | _, _ => False
  end.
Proof.
  assert (Hs : alike (mkState (set_verbose true t) w) (mkState (set_verbose false t) w)).
  { split; [reflexivity|]. repeat split. }
  pose proof (agree_run fuel _ _ Hs) as H. unfold agree in H.
  destruct (run fuel (mkState (set_verbose true t) w)) as [c1 s1| | | |];
    destruct (run fuel (mkState (set_verbose false t) w)) as [c0 s0| | | |];
    try exact H.
  destruct H as (Hc & _ & Hck & _ & _ & Hch & _ & Htr). auto.
Qed.
End Verbosity.

(* ================================================================== *)
(** * Whole numbers are read exactly                                  *)
(* ================================================================== *)

Section Exact.

(** The number of binary digits is determined by the bounds. *)
Lemma digits2_pos_unique (m : positive) (d : Z) :
  2 ^ (d - 1) <= Z.pos m < 2 ^ d -> Z.pos (digits2_pos m) = d.
Proof.
  intros [Hl Hu]. pose proof (digits2_pos_bounds m) as [Hl' Hu'].
  destruct (Z.lt_trichotomy (Z.pos (digits2_pos m)) d) as [H|[H|H]]; [|exact H|].
  - assert (2 ^ Z.pos (digits2_pos m) <= 2 ^ (d - 1)) by (apply Z.pow_le_mono_r; lia).
    lia.
  - assert (2 ^ d <= 2 ^ (Z.pos (digits2_pos m) - 1)) by (apply Z.pow_le_mono_r; lia).
    lia.
Qed.

Lemma digits2_pos_shift (N M : positive) (j : Z) :
  0 <= j -> Z.pos M = Z.pos N * 2 ^ j ->
  Z.pos (digits2_pos M) = Z.pos (digits2_pos N) + j.
Proof.
  intros Hj HM. apply digits2_pos_unique. pose proof (digits2_pos_bounds N) as [Hl Hu].
  assert (Hp : 0 < 2 ^ j) by (apply Z.pow_pos_nonneg; lia).
  rewrite HM.
  replace (Z.pos (digits2_pos N) + j - 1) with ((Z.pos (digits2_pos N) - 1) + j) by lia.
  rewrite !Z.pow_add_r by lia. split; nia.
Qed.

Lemma iter_xO (p m : positive) : Z.pos (Pos.iter xO m p) = Z.pos m * 2 ^ Z.pos p.
Proof.
  induction p as [|p IH] using Pos.peano_ind.
  - cbn [Pos.iter]. rewrite Pos2Z.inj_xO. change (2 ^ 1) with 2. lia.
  - rewrite Pos.iter_succ, Pos2Z.inj_xO, IH, Pos2Z.inj_succ, Z.pow_succ_r by lia. lia.
Qed.

(** Shifting out zero bits loses nothing. *)
Lemma shr_exact (p : positive) :
  forall M Q : positive,
    Z.pos M = Z.pos Q * 2 ^ Z.pos p ->
    iter_pos shr_1 p {| shr_m := Z.pos M; shr_r := false; shr_s := false |}
    = {| shr_m := Z.pos Q; shr_r := false; shr_s := false |}.
Proof.
  induction p as [p IH|p IH|]; intros M Q H.
  - assert (E : 2 ^ Z.pos p~1 = 2 * (2 ^ Z.pos p * 2 ^ Z.pos p)).
    { replace (Z.pos p~1) with (Z.pos p + Z.pos p + 1) by lia.
      rewrite !Z.pow_add_r by lia. change (2 ^ 1) with 2. lia. }
    rewrite E in H. cbn [iter_pos].
    destruct M as [M1|M1|]; [rewrite Pos2Z.inj_xI in H; lia| |lia].
    cbn [shr_1 orb]. rewrite Pos2Z.inj_xO in H.
    rewrite (IH M1 (Q * 2 ^ p)%positive), (IH (Q * 2 ^ p)%positive Q); auto.
    + rewrite Pos2Z.inj_mul, Pos2Z.inj_pow. reflexivity.
    + rewrite Pos2Z.inj_mul, Pos2Z.inj_pow. lia.
  - assert (E : 2 ^ Z.pos p~0 = 2 ^ Z.pos p * 2 ^ Z.pos p).
    { replace (Z.pos p~0) with (Z.pos p + Z.pos p) by lia.
      rewrite !Z.pow_add_r by lia. reflexivity. }
    rewrite E in H. cbn [iter_pos].
    rewrite (IH M (Q * 2 ^ p)%positive), (IH (Q * 2 ^ p)%positive Q); auto.
    + rewrite Pos2Z.inj_mul, Pos2Z.inj_pow. reflexivity.
    + rewrite Pos2Z.inj_mul, Pos2Z.inj_pow. lia.
  - change (2 ^ 1) with 2 in H. cbn [iter_pos].
    destruct M as [M1|M1|]; [rewrite Pos2Z.inj_xI in H; lia| |lia].
    cbn [shr_1 orb]. rewrite Pos2Z.inj_xO in H. do 2 f_equal. lia.
Qed.


Lemma fexp_small (d : Z) : 1 <= d -> fexp prec emax d = d - 53.
Proof. intros H. unfold fexp, emin, prec, emax. lia. Qed.

Lemma digits2_pos_le_53 (N : positive) : Z.pos N < 2 ^ 53 -> Z.pos (digits2_pos N) <= 53.
Proof.
  intros H. pose proof (digits2_pos_bounds N) as [Hl _].
  destruct (Z_le_gt_dec (Z.pos (digits2_pos N)) 53) as [|Hgt]; [assumption|].
  assert (2 ^ 53 <= 2 ^ (Z.pos (digits2_pos N) - 1)) by (apply Z.pow_le_mono_r; lia).
  lia.
Qed.

(** Rounding [N * 2^j] for [N] below 2^53 is exact. *)
Lemma binary_round_aux_exact (s : bool) (M N : positive) (j : Z) :
  0 <= j -> Z.pos M = Z.pos N * 2 ^ j -> Z.pos N < 2 ^ 53 ->
  let j' := Z.min j (53 - Z.pos (digits2_pos N)) in
  exists M',
    binary_round_aux prec emax s (Z.pos M) (- j) loc_Exact = S754_finite s M' (- j')
    /\ Z.pos M' = Z.pos N * 2 ^ j'.
Proof.
  intros Hj HM HN j'.
  pose proof (digits2_pos_le_53 N HN) as Hd.
  pose proof (digits2_pos_shift N M j Hj HM) as HdM.
  set (d := Z.pos (digits2_pos N)) in *.
  assert (Hd1 : 1 <= d) by (unfold d; lia).
  unfold binary_round_aux, shr_fexp. cbn [Zdigits2 shr_record_of_loc].
  rewrite HdM. replace (d + j + - j) with d by lia. rewrite (fexp_small d Hd1).
  destruct (d - 53 - - j) as [|p|p] eqn:Es.
  - cbn [shr shr_m loc_of_shr_record round_nearest_even Zdigits2 shr_record_of_loc].
    rewrite HdM. replace (d + j + - j) with d by lia. rewrite (fexp_small d Hd1), Es.
    cbn [shr shr_m].
    replace (- j <=? emax - prec) with true
      by (symmetry; apply Z.leb_le; unfold emax, prec; lia).
    exists M. replace j' with j by (unfold j'; lia). auto.
  - assert (HQ : 0 < Z.pos N * 2 ^ (53 - d)).
    { apply Z.mul_pos_pos; [lia|apply Z.pow_pos_nonneg; lia]. }
    set (Q := Z.to_pos (Z.pos N * 2 ^ (53 - d))).
    assert (HQv : Z.pos Q = Z.pos N * 2 ^ (53 - d)) by (unfold Q; rewrite Z2Pos.id; lia).
    assert (HMQ : Z.pos M = Z.pos Q * 2 ^ Z.pos p).
    { rewrite HM, HQv, <- Z.mul_assoc, <- Z.pow_add_r by lia. do 2 f_equal. lia. }
    cbn [shr]. rewrite (shr_exact p M Q HMQ).
    cbn [shr_m loc_of_shr_record round_nearest_even Zdigits2 shr_record_of_loc].
    rewrite (digits2_pos_shift N Q (53 - d) ltac:(lia) HQv). fold d.
    replace (d + (53 - d) + (- j + Z.pos p)) with d by lia.
    rewrite (fexp_small d Hd1).
    replace (d - 53 - (- j + Z.pos p)) with 0 by lia.
    cbn [shr shr_m].
    replace (- j + Z.pos p <=? emax - prec) with true
      by (symmetry; apply Z.leb_le; unfold emax, prec; lia).
    exists Q. replace j' with (53 - d) by (unfold j'; lia).
    split; [|exact HQv]. f_equal. lia.
  - cbn [shr shr_m loc_of_shr_record round_nearest_even Zdigits2 shr_record_of_loc].
    rewrite HdM. replace (d + j + - j) with d by lia. rewrite (fexp_small d Hd1), Es.
    cbn [shr shr_m].
    replace (- j <=? emax - prec) with true
      by (symmetry; apply Z.leb_le; unfold emax, prec; lia).
    exists M. replace j' with j by (unfold j'; lia). auto.
Qed.

(** An integer below 2^53 is a [double]: the conversion is exact, and
    gives a normal number. *)
Lemma of_Z_exact (n : positive) :
  Z.pos n < 2 ^ 53 ->
  exists M j, of_Z (Z.pos n) = S754_finite false M (- j)
              /\ 0 <= j /\ Z.pos M = Z.pos n * 2 ^ j
              /\ Z.pos (digits2_pos M) = 53.
Proof.
  intros Hn. pose proof (digits2_pos_le_53 n Hn) as Hd.
  unfold of_Z, binary_normalize, binary_round, shl_align.
  rewrite Z.add_0_r, fexp_small by lia.
  destruct (Z.pos (digits2_pos n) - 53 - 0) as [|p|p] eqn:Es.
  - destruct (binary_round_aux_exact false n n 0 ltac:(lia) ltac:(rewrite Z.pow_0_r; lia) Hn)
      as (M' & Hr & Hv).
    change (- 0) with 0 in Hr. rewrite Hr.
    replace (Z.min 0 (53 - Z.pos (digits2_pos n))) with 0 in * by lia.
    exists M', 0. repeat split; auto; try lia.
    rewrite (digits2_pos_shift n M' 0 ltac:(lia) Hv). lia.
  - lia.
  - pose proof (iter_xO p n) as Hi.
    destruct (binary_round_aux_exact false (Pos.iter xO n p) n (Z.pos p)
                ltac:(lia) Hi Hn) as (M' & Hr & Hv).
    replace (Z.pos (digits2_pos n) - 53) with (- Z.pos p) by lia. rewrite Hr.
    replace (Z.min (Z.pos p) (53 - Z.pos (digits2_pos n))) with (Z.pos p) in * by lia.
    exists M', (Z.pos p). repeat split; auto; try lia.
    rewrite (digits2_pos_shift n M' (Z.pos p) ltac:(lia) Hv). lia.
Qed.

(** The product of two such integers, when it is below 2^53 too. *)
Lemma mul_exact (n k : positive) :
  Z.pos n * Z.pos k < 2 ^ 53 ->
  exists M j, mul (of_Z (Z.pos n)) (of_Z (Z.pos k)) = S754_finite false M (- j)
              /\ 0 <= j /\ Z.pos M = Z.pos n * Z.pos k * 2 ^ j.
Proof.
  intros Hnk.
  assert (Hn : Z.pos n < 2 ^ 53) by nia.
  assert (Hk : Z.pos k < 2 ^ 53) by nia.
  destruct (of_Z_exact n Hn) as (M1 & j1 & -> & Hj1 & HM1 & _).
  destruct (of_Z_exact k Hk) as (M2 & j2 & -> & Hj2 & HM2 & _).
  unfold mul, SFmul. cbn [xorb].
  destruct (binary_round_aux_exact false (M1 * M2) (n * k) (j1 + j2) ltac:(lia))
    as (M' & Hr & Hv).
  { rewrite !Pos2Z.inj_mul, HM1, HM2, Z.pow_add_r by lia. ring. }
  { rewrite Pos2Z.inj_mul. exact Hnk. }
  replace (- j1 + - j2) with (- (j1 + j2)) by lia. rewrite Hr.
  eexists M', _. split; [reflexivity|]. rewrite Pos2Z.inj_mul in Hv.
  pose proof (digits2_pos_le_53 (n * k) ltac:(rewrite Pos2Z.inj_mul; exact Hnk)).
  split; [lia|exact Hv].
Qed.

(** The exact value of a number [M * 2^-j]. *)
Lemma to_Q_scaled (M : positive) (j N : Z) :
  0 <= j -> Z.pos M = N * 2 ^ j ->
  exists q, to_Q (S754_finite false M (- j)) = Some q /\ (q == inject_Z N)%Q.
Proof.
  intros Hj HM. eexists. split; [reflexivity|].
  unfold Qeq. destruct (Q_of_finite_parts false M (- j)) as [-> ->].
  cbn [inject_Z Qnum Qden]. rewrite Z.opp_involutive.
  replace (Z.max (- j) 0) with 0 by lia. replace (Z.max j 0) with j by lia.
  rewrite Z.pow_0_r. lia.
Qed.
End Exact.

Section Numerals.
Context {P : Platform}.

Lemma list_ascii_of_string_app (s1 s2 : string) :
  list_ascii_of_string (s1 ++ s2)
  = (list_ascii_of_string s1 ++ list_ascii_of_string s2)%list.
Proof. induction s1 as [|a s1 IH]; cbn; [reflexivity|]. rewrite IH. reflexivity. Qed.

Lemma append_empty (s : string) : s ++ EmptyString = s.
Proof. induction s as [|a s IH]; cbn; [reflexivity|]. rewrite IH. reflexivity. Qed.

(** The value of a digit that is known. *)
Ltac digit_value :=
  match goal with
  | |- context [digit_val ?c] =>
      let v := eval vm_compute in (digit_val c) in
      change (digit_val c) with v
  end.

(** A character that [uint_of_char] accepts is a decimal digit, and adds
    its value to the number read so far. *)
Lemma uint_of_char_digit (a : ascii) (d d' : Decimal.uint) (acc : Z) :
  uint_of_char a (Some d') = Some d ->
  isdigit a = true
  /\ uint_value acc d = uint_value (10 * acc + digit_val a) d'.
Proof.
  intros H. apply uint_of_char_spec in H.
  repeat (destruct H as [[-> ->]|H];
          [split; [reflexivity|cbn [uint_value]; digit_value; rewrite ?Z.add_0_r; reflexivity]|]).
  destruct H as [-> ->].
  split; [reflexivity|cbn [uint_value]; digit_value; rewrite ?Z.add_0_r; reflexivity].
Qed.


Lemma scan_digits_prefix (s : string) :
  forall d acc n rest,
    NilEmpty.uint_of_string s = Some d ->
    match rest with c :: _ => isdigit c = false | [] => True end ->
    scan_digits acc n (list_ascii_of_string s ++ rest)
    = (uint_value acc d, (n + String.length s)%nat, rest).
Proof.
  induction s as [|a s IH]; intros d acc n rest H Hrest; cbn in H.
  - injection H as <-. cbn. rewrite Nat.add_0_r.
    destruct rest as [|c r]; [reflexivity|]. cbn [scan_digits]. rewrite Hrest. reflexivity.
  - destruct (NilEmpty.uint_of_string s) as [d'|] eqn:E; [|discriminate].
    destruct (uint_of_char_digit a d d' acc H) as [Hd ->].
    cbn [list_ascii_of_string String.length app]. rewrite Nat.add_succ_r.
    rewrite (scan_digits_step _ _ _ _ Hd).
    apply (IH d' _ (S n) rest eq_refl Hrest).
Qed.

Lemma unit_letter (u : ascii) f :
  unit_factor u = Some f ->
  (u = "s" \/ u = "m" \/ u = "h" \/ u = "d")%char.
Proof.
  unfold unit_factor. intros H.
  destruct (Ascii.eqb_spec u "s"); [auto|].
  destruct (Ascii.eqb_spec u "m"); [auto|].
  destruct (Ascii.eqb_spec u "h"); [auto|].
  destruct (Ascii.eqb_spec u "d"); [auto|]. discriminate.
Qed.

Lemma digit_starts_no_word (a : ascii) (r : list ascii) :
  isdigit a = true ->
  isspace a = false
  /\ scan_sign (a :: r) = (false, a :: r)
  /\ scan_word (list_ascii_of_string "infinity") (a :: r) = None
  /\ scan_word (list_ascii_of_string "inf") (a :: r) = None
  /\ scan_word (list_ascii_of_string "nan") (a :: r) = None.
Proof.
  intros H.
  destruct a as [[|] [|] [|] [|] [|] [|] [|] [|]]; try discriminate H;
    repeat split; reflexivity.
Qed.

Lemma digit_starts_no_hex (a c : ascii) (r : list ascii) :
  isdigit a = true ->
  (isdigit c = true \/ c = "s" \/ c = "m" \/ c = "h" \/ c = "d")%char ->
  scan_word (list_ascii_of_string "0x") (a :: c :: r) = None.
Proof.
  intros Ha Hc. cbn [list_ascii_of_string scan_word].
  destruct (Ascii.eqb "0" (tolower a)); [|reflexivity].
  replace (Ascii.eqb "x" (tolower c)) with false; [reflexivity|].
  destruct Hc as [Hc|[->|[->|[->| ->]]]]; try reflexivity.
  destruct c as [[|] [|] [|] [|] [|] [|] [|] [|]]; try discriminate Hc; reflexivity.
Qed.


Lemma uint_of_char_none (a : ascii) : uint_of_char a None = None.
Proof. destruct a as [[|] [|] [|] [|] [|] [|] [|] [|]]; reflexivity. Qed.

Lemma uint_of_string_first (a : ascii) (s : string) d :
  NilEmpty.uint_of_string (String a s) = Some d -> isdigit a = true.
Proof.
  cbn [NilEmpty.uint_of_string].
  destruct (NilEmpty.uint_of_string s) as [d'|];
    [|rewrite uint_of_char_none; discriminate].
  intros H. apply (uint_of_char_digit a d d' 0 H).
Qed.

(** [std::stod] on the digits of a whole number, followed by nothing or by
    a unit letter. *)
Lemma stod_whole (ds suffix : string) (d : Decimal.uint) :
  NilEmpty.uint_of_string ds = Some d -> ds <> EmptyString ->
  is_unit_suffix suffix ->
  Z.of_uint d < 2 ^ 53 ->
  stod (ds ++ suffix) = inl (of_Z (Z.of_uint d), String.length ds).
Proof.
  intros Hd Hne Hsuf Hsmall.
  destruct ds as [|a ds']; [congruence|].
  pose proof (uint_of_string_first a ds' d Hd) as Ha.
  assert (Hrest : match list_ascii_of_string suffix with
                  | c :: _ => isdigit c = false /\ c <> "."%char
                              /\ Ascii.eqb (tolower c) "e" = false
                              /\ (c = "s" \/ c = "m" \/ c = "h" \/ c = "d")%char
                  | [] => True
                  end).
  { destruct Hsuf as [->|(u & f & -> & Hu)]; [exact I|].
    cbn. destruct (unit_letter u f Hu) as [->|[->|[->| ->]]];
      repeat split; try discriminate; auto. }
  unfold stod. rewrite list_ascii_of_string_app.
  set (whole := (list_ascii_of_string (String a ds') ++ list_ascii_of_string suffix)%list).
  assert (Hw : whole = a :: (list_ascii_of_string ds' ++ list_ascii_of_string suffix)%list)
    by reflexivity.
  destruct (digit_starts_no_word a (list_ascii_of_string ds' ++ list_ascii_of_string suffix)%list Ha)
    as (Hsp & Hsign & Hw1 & Hw2 & Hw3).
  assert (Hskip : skip_space whole = whole).
  { rewrite Hw. cbn [skip_space]. rewrite Hsp. reflexivity. }
  rewrite Hskip. rewrite Hw at 1. rewrite Hsign, <- Hw.
  rewrite Hw at 1. rewrite Hw1. rewrite Hw at 1. rewrite Hw2.
  rewrite Hw at 1. rewrite Hw3.
  assert (Hhex : scan_word (list_ascii_of_string "0x") whole = None).
  { rewrite Hw.
    destruct (list_ascii_of_string ds' ++ list_ascii_of_string suffix)%list as [|c r] eqn:Er.
    - cbn [list_ascii_of_string scan_word].
      destruct (Ascii.eqb "0" (tolower a)); reflexivity.
    - apply digit_starts_no_hex; [exact Ha|].
      destruct ds' as [|b ds'']; cbn in Er.
      + rewrite Er in Hrest. tauto.
      + assert (Hb : b = c) by congruence. subst c. left.
        change (NilEmpty.uint_of_string (String a (String b ds'')))
          with (uint_of_char a (NilEmpty.uint_of_string (String b ds''))) in Hd.
        destruct (NilEmpty.uint_of_string (String b ds'')) as [d'|] eqn:E.
        * apply (uint_of_string_first b ds'' d' E).
        * rewrite uint_of_char_none in Hd. discriminate. }
  rewrite Hhex.
  unfold stod_decimal, scan_mantissa.
  assert (Hscan : scan_digits 0 0 whole
                  = (uint_value 0 d, String.length (String a ds'),
                     list_ascii_of_string suffix)).
  { unfold whole. rewrite (scan_digits_prefix _ d 0 0%nat _ Hd); [reflexivity|].
    destruct (list_ascii_of_string suffix); [exact I|tauto]. }
  rewrite Hscan.
  assert (Hcons : consumed whole (list_ascii_of_string suffix)
                  = String.length (String a ds')).
  { unfold consumed, whole. rewrite length_app.
    replace (List.length (list_ascii_of_string (String a ds'))) with
      (String.length (String a ds')).
    - lia.
    - clear. generalize (String a ds'). intros s.
      induction s; cbn; [reflexivity|]. rewrite IHs. reflexivity. }
  assert (Hfin : finish false (uint_value 0 d) 10 (0 - Z.of_nat 0)
                   (String.length (String a ds'))
                 = inl (of_Z (Z.of_uint d), String.length (String a ds'))).
  { rewrite uint_value_of_uint. unfold finish.
    destruct (Z.of_uint d) as [|n|n] eqn:En.
    - reflexivity.
    - cbn [Z.of_nat Z.sub Z.opp Z.add]. unfold of_scaled. cbn [round_scaled].
      change (Z.pos 10 ^ 0) with 1. rewrite Z.mul_1_r.
      change (binary_normalize prec emax (Z.pos n) 0 false) with (of_Z (Z.pos n)).
      destruct (of_Z_exact n Hsmall) as (M & j & -> & Hj & HM & Hdig).
      destruct (to_Q_scaled M j (Z.pos n) Hj HM) as (q & Hq & Heq).
      cbn [is_infinite]. rewrite Hq.
      replace (Qeq_bool q (exact_scaled false n 10 0)) with true.
      + rewrite andb_false_r. reflexivity.
      + symmetry. apply Qeq_bool_iff. rewrite Heq. unfold exact_scaled.
        cbn [Qpower]. apply Qeq_sym, Qmult_1_r.
    - unfold Z.of_uint in En. destruct (Pos.of_uint d); discriminate. }
  destruct (list_ascii_of_string suffix) as [|c r] eqn:Es.
  - cbn [String.length]. cbn [scan_exponent]. rewrite Hcons. exact Hfin.
  - destruct Hrest as (Hnd & Hdot & He & _).
    destruct (Ascii.eqb_spec c ".") as [->|_]; [congruence|].
    replace (match c with
             | "."%char => _
             | _ => (uint_value 0 d, String.length (String a ds'), 0%nat, c :: r)
             end) with (uint_value 0 d, String.length (String a ds'), 0%nat, c :: r).
    2:{ destruct c as [[|] [|] [|] [|] [|] [|] [|] [|]]; try reflexivity. congruence. }
    cbn [String.length]. cbn [scan_exponent]. rewrite He, Hcons. exact Hfin.
Qed.


Lemma length_append (s1 s2 : string) :
  String.length (s1 ++ s2) = (String.length s1 + String.length s2)%nat.
Proof. induction s1 as [|a s1 IH]; cbn; [reflexivity|]. rewrite IH. reflexivity. Qed.

(** The decimal numeral of a natural number: its digits, read back. *)
Lemma show_int_digits (n : Z) :
  0 <= n ->
  exists d, NilEmpty.uint_of_string (show_int n) = Some d
            /\ show_int n <> EmptyString /\ Z.of_uint d = n.
Proof.
  intros Hn. unfold show_int. destruct n as [|p|p]; [| |lia].
  - exists (Decimal.D0 Decimal.Nil). repeat split. discriminate.
  - cbn [Z.to_int NilZero.string_of_int].
    pose proof (DecimalPos.Unsigned.to_uint_nonnil p) as Hnil.
    exists (Pos.to_uint p).
    assert (Hs : NilZero.string_of_uint (Pos.to_uint p)
                 = NilEmpty.string_of_uint (Pos.to_uint p)).
    { destruct (Pos.to_uint p); [congruence|reflexivity..]. }
    rewrite Hs. split; [apply NilEmpty.usu|]. split.
    + destruct (Pos.to_uint p); [congruence|discriminate..].
    + unfold Z.of_uint. rewrite DecimalPos.Unsigned.of_to. reflexivity.
Qed.

Lemma exact_value_stored (str : string) (s : state) value pos v (N : Z) :
  str <> EmptyString ->
  stod str = inl (value, pos) ->
  scaled_value str value pos = Some v ->
  (exists q, to_Q v = Some q /\ (q == inject_Z N)%Q) ->
  0 <= N <= INT_MAX ->
  parse_duration str s = Ret true (mkState (set_duration_seconds N (self s)) (os s)).
Proof.
  intros Hne Hstod Hsc (q & Hq & Heq) HN.
  destruct (proj2 (parse_duration_value str s value pos v q Hne Hstod Hsc Hq))
    as (d & Hr & _ & Hlo & Hhi).
  - rewrite Heq. change 0%Q with (inject_Z 0). rewrite <- !Zle_Qle. exact HN.
  - rewrite Heq in Hlo, Hhi.
    rewrite <- Zle_Qle in Hlo.
    change (inject_Z d + 1)%Q with (inject_Z d + inject_Z 1)%Q in Hhi.
    rewrite <- inject_Z_plus, <- Zlt_Qlt in Hhi.
    replace N with d by lia. exact Hr.
Qed.

Lemma parse_duration_whole (n k : Z) (suffix : string) (s : state) :
  0 <= n ->
  (suffix = EmptyString /\ k = 1
   \/ exists u f, suffix = String u EmptyString /\ unit_factor u = Some f
                  /\ k = match f with Some k => k | None => 1 end) ->
  n * k <= INT_MAX ->
  parse_duration (show_int n ++ suffix) s
  = Ret true (mkState (set_duration_seconds (n * k) (self s)) (os s)).
Proof.
  intros Hn Hsuf Hmax.
  destruct (show_int_digits n Hn) as (d & Hd & Hne & Hv).
  assert (Hk : 1 <= k <= 86400).
  { destruct Hsuf as [[_ ->]|(u & f & _ & Hu & ->)]; [lia|].
    destruct (unit_letter u f Hu) as [->|[->|[->| ->]]];
      vm_compute in Hu; injection Hu as <-; lia. }
  assert (Hsmall : n < 2 ^ 53) by (unfold INT_MAX in Hmax; nia).
  assert (Hunit : is_unit_suffix suffix).
  { destruct Hsuf as [[-> _]|(u & f & -> & Hu & _)]; [left; reflexivity|].
    right. exists u, f. auto. }
  pose proof (stod_whole (show_int n) suffix d Hd Hne Hunit ltac:(rewrite Hv; exact Hsmall))
    as Hstod.
  rewrite Hv in Hstod.
  assert (Hstr : show_int n ++ suffix <> EmptyString).
  { destruct (show_int n); [congruence|discriminate]. }
  destruct Hsuf as [[-> ->]|(u & f & -> & Hu & ->)].
  - (* no unit *)
    apply (exact_value_stored _ s (of_Z n) (String.length (show_int n)) (of_Z n));
      auto.
    + unfold scaled_value. rewrite append_empty, Nat.ltb_irrefl. reflexivity.
    + rewrite Z.mul_1_r. destruct n as [|p|p]; [| |lia].
      * exists 0%Q. split; reflexivity.
      * destruct (of_Z_exact p Hsmall) as (M & j & -> & Hj & HM & _).
        apply to_Q_scaled; assumption.
    + unfold INT_MAX in *. lia.
  - apply (exact_value_stored _ s (of_Z n) (String.length (show_int n))
             (scale (of_Z n) f)); auto.
    + unfold scaled_value. rewrite length_append. cbn [String.length].
      replace (String.length (show_int n) <? String.length (show_int n) + 1)%nat
        with true by (symmetry; apply Nat.ltb_lt; lia).
      pose proof (append_correct2 (show_int n) (String u EmptyString) 0) as Hget.
      cbn [String.get Nat.add] in Hget. rewrite <- Hget, Hu. reflexivity.
    + destruct f as [k|]; cbn [scale].
      * destruct n as [|p|p]; [| |lia].
        -- destruct k as [|k|k]; [lia| |lia].
           destruct (of_Z_exact k ltac:(lia)) as (M & j & -> & _).
           exists 0%Q. split; reflexivity.
        -- destruct k as [|k|k]; [lia| |lia].
           destruct (mul_exact p k ltac:(unfold INT_MAX in Hmax; lia))
             as (M & j & -> & Hj & HM).
           apply to_Q_scaled; assumption.
      * rewrite Z.mul_1_r. destruct n as [|p|p]; [| |lia].
        -- exists 0%Q. split; reflexivity.
        -- destruct (of_Z_exact p Hsmall) as (M & j & -> & Hj & HM & _).
           apply to_Q_scaled; assumption.
    + unfold INT_MAX in *. nia.
Qed.

(** X12.  A whole number of seconds, minutes, hours or days, written in
    decimal with or without the unit letter, is stored exactly, as long as
    the number of seconds is at most [INT_MAX]: the arithmetic in [double]
    loses nothing. *)
Theorem parse_duration_whole_numbers (n : Z) (s : state) :
  0 <= n ->
  let stored d := Ret true (mkState (set_duration_seconds d (self s)) (os s)) in
  (n <= INT_MAX ->
   parse_duration (show_int n) s = stored n
   /\ parse_duration (show_int n ++ "s") s = stored n)
  /\ (60 * n <= INT_MAX -> parse_duration (show_int n ++ "m") s = stored (60 * n))
  /\ (3600 * n <= INT_MAX -> parse_duration (show_int n ++ "h") s = stored (3600 * n))
  /\ (86400 * n <= INT_MAX -> parse_duration (show_int n ++ "d") s = stored (86400 * n)).
Proof.
  intros Hn stored. unfold stored.
  split; [intros Hmax; split|split; [intros Hmax|split; intros Hmax]].
  - rewrite <- (append_empty (show_int n)) at 1.
    rewrite (parse_duration_whole n 1 EmptyString s Hn); [|auto|lia].
    rewrite Z.mul_1_r. reflexivity.
  - rewrite (parse_duration_whole n 1 "s" s Hn); [| |lia].
    + rewrite Z.mul_1_r. reflexivity.
    + right. exists "s"%char, None. auto.
  - rewrite (parse_duration_whole n 60 "m" s Hn); [| |lia].
    + rewrite Z.mul_comm. reflexivity.
    + right. exists "m"%char, (Some 60). auto.
  - rewrite (parse_duration_whole n 3600 "h" s Hn); [| |lia].
    + rewrite Z.mul_comm. reflexivity.
    + right. exists "h"%char, (Some 3600). auto.
  - rewrite (parse_duration_whole n 86400 "d" s Hn); [| |lia].
    + rewrite Z.mul_comm. reflexivity.
    + right. exists "d"%char, (Some 86400). auto.
Qed.

(** X13.  [parse_signal] reads back the number that [operator<<] writes in
    the diagnostic of [terminate_process], for every [int]. *)
Theorem parse_signal_reads_back (n : Z) :
  in_int n = true -> parse_signal (show_int n) = n.
Proof.
  intros Hr. unfold show_int.
  assert (Hisi : NilZero.int_of_string (NilZero.string_of_int (Z.to_int n))
                 = Some (Z.to_int n)).
  { apply NilZero.isi; destruct n as [|p|p]; cbn [Z.to_int]; try discriminate;
      intros H; injection H as H; exact (DecimalPos.Unsigned.to_uint_nonnil p H). }
  pose proof (stoi_decimal _ _ Hisi) as Hstoi.
  rewrite DecimalZ.of_to in Hstoi. specialize (Hstoi Hr).
  unfold parse_signal. rewrite Hstoi.
  destruct (NilZero.string_of_int (Z.to_int n)); [discriminate Hisi|reflexivity].
Qed.
End Numerals.

(* ================================================================== *)
(** * Properties of the [_WIN32] build                                *)
(* ================================================================== *)

Section WindowsBuild.
Import Windows.
Local Open Scope win_scope.

Ltac wstep :=
  cbv beta iota zeta delta [bind ret this assign syscall blocking effect cerr undefined];
  cbn [self os fst snd negb]; cbv beta.

Ltac wproj :=
  unfold sleep_for, GetExitCodeProcess;
  unfold log, set_clock, set_process, set_open_handles;
  cbn [clock image hProcess hThread dwProcessId process open_handles trace].

Lemma to_DWORD_ms (n : Z) :
  0 <= n -> Cxx.in_int (n * 1000) = true ->
  to_DWORD (n * 1000) = n * 1000 /\ (n * 1000 =? INFINITE) = false.
Proof.
  intros Hn Hr. unfold Cxx.in_int, Cxx.INT_MIN, Cxx.INT_MAX in Hr.
  apply andb_prop in Hr as [_ Hr]. apply Z.leb_le in Hr.
  unfold to_DWORD, INFINITE. split.
  - apply Z.mod_small. lia.
  - apply Z.eqb_neq. lia.
Qed.

(** After a successful [start_process] the process runs, its handle is
    open and stored in the object. *)
Lemma win_start_process_ok t w own :
  command_args t <> [] ->
  image w (build_command_line (command_args t) EmptyString) = Some own ->
  hProcess w <> hThread w ->
  let cl := build_command_line (command_args t) EmptyString in
  let due := match own with
             | Some (d, code) => Some (clock w + d, code)
             | None => None
             end in
  start_process (mkState t w)
  = Ret true
      (mkState (set_process_id (dwProcessId w) (set_process_handle (hProcess w) t))
         (mkWorld (clock w) (image w) (hProcess w) (hThread w) (dwProcessId w)
            (Process due)
            (hProcess w :: filter (fun x => negb (x =? hThread w)) (open_handles w))
            (trace w ++ [EvCreateProcess cl true; EvCloseHandle (hThread w) true]))).
Proof.
  intros Ha Hi Hh cl due. unfold start_process. wstep.
  destruct (command_args t) as [|a l]; [congruence|].
  unfold CreateProcess. cbn [os self]. rewrite Hi. wstep. wproj.
  unfold CloseHandle, is_open. wproj. cbn [existsb filter].
  rewrite Z.eqb_refl, orb_true_r. cbn [orb negb].
  replace (hProcess w =? hThread w) with false by (symmetry; apply Z.eqb_neq; lia).
  cbn [negb]. wstep. wproj. rewrite <- app_assoc. reflexivity.
Qed.


Lemma win_bind_Ret {A B} (m : M A) (k : A -> M B) (s s' : state) (a : A) :
  m s = Ret a s' -> bind m k s = k a s'.
Proof. intros H. unfold bind. rewrite H. reflexivity. Qed.

(** A wait on the open handle of the process. *)
Lemma wait_for_process_open n t w due :
  process_handle t = hProcess w -> hProcess w <> INVALID_HANDLE_VALUE ->
  is_open (hProcess w) w = true -> process w = Process due ->
  0 <= n -> Cxx.in_int (n * 1000) = true ->
  wait_for_process n (mkState t w)
  = match due with
    | Some (e, _) =>
        if e <=? clock w + n * 1000 then
          Ret true
            (mkState t
               (mkWorld (Z.max (clock w) e) (image w) (hProcess w) (hThread w)
                  (dwProcessId w) (process w)
                  (filter (fun x => negb (x =? hProcess w)) (open_handles w))
                  (trace w ++ [EvWaitForSingleObject (hProcess w) (n * 1000) WAIT_OBJECT_0;
                               EvGetExitCodeProcess (hProcess w);
                               EvCloseHandle (hProcess w) true])))
        else
          Ret false
            (mkState t
               (mkWorld (clock w + n * 1000) (image w) (hProcess w) (hThread w)
                  (dwProcessId w) (process w) (open_handles w)
                  (trace w ++ [EvWaitForSingleObject (hProcess w) (n * 1000) WAIT_TIMEOUT])))
    | None =>
        Ret false
          (mkState t
             (mkWorld (clock w + n * 1000) (image w) (hProcess w) (hThread w)
                (dwProcessId w) (process w) (open_handles w)
                (trace w ++ [EvWaitForSingleObject (hProcess w) (n * 1000) WAIT_TIMEOUT])))
    end.
Proof.
  intros Hh Hv Ho Hp Hn Hr. unfold wait_for_process. wstep. rewrite Hh.
  replace (hProcess w =? INVALID_HANDLE_VALUE) with false
    by (symmetry; apply Z.eqb_neq; exact Hv).
  rewrite Hr. cbn [negb]. wstep.
  destruct (to_DWORD_ms n Hn Hr) as [-> Hinf].
  unfold WaitForSingleObject. rewrite Ho, Z.eqb_refl, Hp, Hinf. cbn [andb orb].
  destruct due as [[e code]|].
  - destruct (e <=? clock w + n * 1000).
    + wstep. unfold CloseHandle. wproj.
      replace (is_open (hProcess w) _) with true by (symmetry; exact Ho).
      wstep. wproj. rewrite Hp, <- !app_assoc. reflexivity.
    + wstep. wproj. rewrite Hp. reflexivity.
  - wstep. wproj. rewrite Hp. reflexivity.
Qed.

(** A wait on a handle that has been closed fails at once. *)
Lemma wait_for_process_closed n t w :
  process_handle t <> INVALID_HANDLE_VALUE ->
  is_open (process_handle t) w = false ->
  Cxx.in_int (n * 1000) = true ->
  wait_for_process n (mkState t w)
  = Ret false
      (mkState t (log (EvWaitForSingleObject (process_handle t)
                         (to_DWORD (n * 1000)) WAIT_FAILED) w)).
Proof.
  intros Hv Ho Hr. unfold wait_for_process. wstep.
  replace (process_handle t =? INVALID_HANDLE_VALUE) with false
    by (symmetry; apply Z.eqb_neq; exact Hv).
  rewrite Hr. cbn [negb]. wstep. unfold WaitForSingleObject. rewrite Ho. cbn [andb].
  wstep. reflexivity.
Qed.

Lemma wait_for_process_overflow n t w :
  process_handle t <> INVALID_HANDLE_VALUE ->
  Cxx.in_int (n * 1000) = false ->
  wait_for_process n (mkState t w) = Undefined.
Proof.
  intros Hv Hr. unfold wait_for_process. wstep.
  replace (process_handle t =? INVALID_HANDLE_VALUE) with false
    by (symmetry; apply Z.eqb_neq; exact Hv).
  rewrite Hr. reflexivity.
Qed.

Lemma is_open_filtered h w hs :
  is_open h (mkWorld (clock w) (image w) (hProcess w) (hThread w) (dwProcessId w)
               (process w) (filter (fun x => negb (x =? h)) hs) (trace w)) = false.
Proof.
  unfold is_open. cbn [open_handles].
  induction hs as [|x hs IH]; cbn [filter existsb]; [reflexivity|].
  destruct (x =? h) eqn:E; cbn [negb]; [exact IH|].
  cbn [existsb]. rewrite IH, Z.eqb_sym, E. reflexivity.
Qed.

(** The two methods that end the process, on its open handle while it
    runs... *)
Lemma terminate_process_open t w due :
  process_handle t = hProcess w -> hProcess w <> INVALID_HANDLE_VALUE ->
  is_open (hProcess w) w = true -> process w = Process due ->
  has_ended due (clock w) = false ->
  terminate_process (mkState t w)
  = Ret tt
      (mkState t
         (mkWorld (clock w) (image w) (hProcess w) (hThread w) (dwProcessId w)
            (Process (Some (clock w, 1)))
            (filter (fun x => negb (x =? hProcess w)) (open_handles w))
            (trace w ++ [EvTerminateProcess (hProcess w) 1 true;
                         EvCloseHandle (hProcess w) true]))).
Proof.
  intros Hh Hv Ho Hp He. unfold terminate_process. wstep. rewrite Hh.
  replace (hProcess w =? INVALID_HANDLE_VALUE) with false
    by (symmetry; apply Z.eqb_neq; exact Hv).
  cbn [negb]. wstep. unfold TerminateProcess. rewrite Ho, Z.eqb_refl, Hp, He. cbn [andb].
  wstep. unfold CloseHandle. wproj.
  replace (is_open (hProcess w) _) with true by (symmetry; exact Ho).
  wstep. wproj. rewrite <- !app_assoc. reflexivity.
Qed.

(** ... and on a handle that has been closed. *)
Lemma kill_process_closed t w :
  process_handle t <> INVALID_HANDLE_VALUE ->
  is_open (process_handle t) w = false ->
  kill_process (mkState t w)
  = Ret tt
      (mkState t
         (mkWorld (clock w) (image w) (hProcess w) (hThread w) (dwProcessId w)
            (process w) (open_handles w)
            (trace w ++ [EvTerminateProcess (process_handle t) 1 false;
                         EvCloseHandle (process_handle t) false]))).
Proof.
  intros Hv Ho. unfold kill_process. wstep.
  replace (process_handle t =? INVALID_HANDLE_VALUE) with false
    by (symmetry; apply Z.eqb_neq; exact Hv).
  cbn [negb]. wstep. unfold TerminateProcess. rewrite Ho. cbn [andb].
  wstep. unfold CloseHandle. wproj.
  replace (is_open (process_handle t) _) with false by (symmetry; exact Ho).
  wstep. wproj. rewrite <- !app_assoc. reflexivity.
Qed.


Lemma is_open_head h w hs :
  is_open h (mkWorld (clock w) (image w) (hProcess w) (hThread w) (dwProcessId w)
               (process w) (h :: hs) (trace w)) = true.
Proof. unfold is_open. cbn [open_handles existsb]. rewrite Z.eqb_refl. reflexivity. Qed.

Lemma int_ms (n : Z) : 0 <= n <= 2147483 -> Cxx.in_int (n * 1000) = true.
Proof.
  intros H. unfold Cxx.in_int, Cxx.INT_MIN, Cxx.INT_MAX.
  apply andb_true_intro. split; apply Z.leb_le; lia.
Qed.

Lemma int_ms_overflow (n : Z) : 2147483 < n -> Cxx.in_int (n * 1000) = false.
Proof.
  intros H. unfold Cxx.in_int, Cxx.INT_MIN, Cxx.INT_MAX.
  apply andb_false_intro2. apply Z.leb_gt. lia.
Qed.

Lemma win_run_until_terminated t w own :
  command_args t <> [] ->
  image w (build_command_line (command_args t) EmptyString) = Some own ->
  hProcess w <> hThread w -> hProcess w <> INVALID_HANDLE_VALUE ->
  0 <= duration_seconds t <= 2147483 ->
  match own with Some (d, _) => duration_seconds t * 1000 < d | None => True end ->
  run (mkState t w)
  = (t <- this ;;
     if kill_after_seconds t >? 0 then
       finished <- wait_for_process (kill_after_seconds t) ;;
       if finished then ret (if preserve_status t then 0 else 124)
       else
         kill_process ;;
         effect (sleep_for 100) ;;
         ret 137
     else ret (if preserve_status t then 0 else 124))
      (mkState (set_process_id (dwProcessId w) (set_process_handle (hProcess w) t))
         (timed_out t w)).
Proof.
  intros Ha Hi Hh Hv HD Hrun. unfold run.
  rewrite (win_bind_Ret _ _ _ _ _ (win_start_process_ok t w own Ha Hi Hh)). cbn [negb].
  unfold bind at 1. unfold this at 1. cbn [self].
  set (t1 := set_process_id (dwProcessId w) (set_process_handle (hProcess w) t)).
  change (duration_seconds t1) with (duration_seconds t).
  lazymatch goal with
  | |- context [bind (wait_for_process _) _ (mkState _ ?w1)] => set (w1' := w1)
  end.
  assert (Hw : wait_for_process (duration_seconds t) (mkState t1 w1')
               = Ret false
                   (mkState t1
                      (mkWorld (clock w1' + duration_seconds t * 1000) (image w1')
                         (hProcess w1') (hThread w1') (dwProcessId w1') (process w1')
                         (open_handles w1')
                         (trace w1' ++ [EvWaitForSingleObject (hProcess w1')
                                          (duration_seconds t * 1000) WAIT_TIMEOUT])))).
  { rewrite (wait_for_process_open (duration_seconds t) t1 w1' _
               eq_refl Hv (is_open_head _ w _) eq_refl (proj1 HD) (int_ms _ HD)).
    destruct own as [[d code]|]; [|reflexivity].
    change (clock w1') with (clock w).
    replace (clock w + d <=? clock w + duration_seconds t * 1000) with false
      by (symmetry; apply Z.leb_gt; lia).
    reflexivity. }
  rewrite (win_bind_Ret _ _ _ _ _ Hw).
  lazymatch goal with
  | |- context [bind terminate_process _ (mkState _ ?w2)] => set (w2' := w2)
  end.
  rewrite (win_bind_Ret _ _ _ _ _
             (terminate_process_open t1 w2' _ eq_refl Hv (is_open_head _ w _) eq_refl
                ltac:(destruct own as [[d code]|]; [apply Z.leb_gt; cbn; lia|reflexivity]))).
  unfold timed_out, w2', w1'. cbn [clock image hProcess hThread dwProcessId process
                                   open_handles trace].
  rewrite <- !app_assoc. reflexivity.
Qed.


(** X15.  With the Win32 methods too, a command that ends before the
    deadline makes [run] return 0 whatever its exit code:
    [GetExitCodeProcess] is called and its result dropped.  Both handles
    are closed. *)
Theorem windows_timely_exit t w d code :
  command_args t <> [] ->
  image w (build_command_line (command_args t) EmptyString) = Some (Some (d, code)) ->
  hProcess w <> hThread w -> hProcess w <> INVALID_HANDLE_VALUE ->
  0 <= duration_seconds t <= 2147483 ->
  0 <= d <= duration_seconds t * 1000 ->
  exists s',
    run (mkState t w) = Ret 0 s'
    /\ clock (os s') = clock w + d
    /\ is_open (hProcess w) (os s') = false
    /\ trace (os s')
       = (trace w
          ++ [EvCreateProcess (build_command_line (command_args t) EmptyString) true;
              EvCloseHandle (hThread w) true;
              EvWaitForSingleObject (hProcess w) (duration_seconds t * 1000) WAIT_OBJECT_0;
              EvGetExitCodeProcess (hProcess w);
              EvCloseHandle (hProcess w) true])%list.
Proof.
  intros Ha Hi Hh Hv HD Hd. unfold run.
  rewrite (win_bind_Ret _ _ _ _ _ (win_start_process_ok t w _ Ha Hi Hh)). cbn [negb].
  unfold bind at 1. unfold this at 1. cbn [self].
  set (t1 := set_process_id (dwProcessId w) (set_process_handle (hProcess w) t)).
  change (duration_seconds t1) with (duration_seconds t).
  lazymatch goal with
  | |- context [bind (wait_for_process _) _ (mkState _ ?w1)] => set (w1' := w1)
  end.
  unfold bind.
  rewrite (wait_for_process_open (duration_seconds t) t1 w1' _
             eq_refl Hv (is_open_head _ w _) eq_refl (proj1 HD) (int_ms _ HD)).
  change (clock w1') with (clock w).
  replace (clock w + d <=? clock w + duration_seconds t * 1000) with true
    by (symmetry; apply Z.leb_le; lia).
  unfold ret. eexists. split; [reflexivity|]. cbn [os clock trace].
  split; [lia|]. split.
  - apply (is_open_filtered (hProcess w)
             (mkWorld (Z.max (clock w) (clock w + d)) (image w) (hProcess w) (hThread w)
                (dwProcessId w) (process w1') (open_handles w) (trace w1'))).
  - unfold w1'. cbn [trace]. rewrite <- !app_assoc. reflexivity.
Qed.

(** X16.  Without a kill-after time, a command still running at the
    deadline is ended by [TerminateProcess] there and then, with exit code
    1, and [run] returns 124 (0 with [preserve_status]); no signal name is
    looked at and nothing is written, [verbose] or not. *)
Theorem windows_timeout_terminates t w own :
  command_args t <> [] ->
  image w (build_command_line (command_args t) EmptyString) = Some own ->
  hProcess w <> hThread w -> hProcess w <> INVALID_HANDLE_VALUE ->
  0 <= duration_seconds t <= 2147483 ->
  match own with Some (d, _) => duration_seconds t * 1000 < d | None => True end ->
  kill_after_seconds t <= 0 ->
  exists s',
    run (mkState t w) = Ret (if preserve_status t then 0 else 124) s'
    /\ os s' = timed_out t w.
Proof.
  intros Ha Hi Hh Hv HD Hrun HK.
  rewrite (win_run_until_terminated t w own Ha Hi Hh Hv HD Hrun).
  unfold bind at 1. unfold this at 1. cbn [self].
  cbn [kill_after_seconds set_process_id set_process_handle preserve_status].
  replace (kill_after_seconds t >? 0) with false
    by (symmetry; rewrite Z.gtb_ltb; apply Z.ltb_ge; exact HK).
  eexists. split; reflexivity.
Qed.

(** X17.  With a kill-after time the command is ended at the deadline just
    the same, and there is no second wait: [terminate_process] has closed
    the handle, so [WaitForSingleObject] fails at once, [kill_process]
    fails on the closed handle too, and [run] returns 137, 100 ms after the
    deadline, whatever [preserve_status]. *)
Theorem windows_kill_after_skips_grace t w own :
  command_args t <> [] ->
  image w (build_command_line (command_args t) EmptyString) = Some own ->
  hProcess w <> hThread w -> hProcess w <> INVALID_HANDLE_VALUE ->
  0 <= duration_seconds t <= 2147483 ->
  match own with Some (d, _) => duration_seconds t * 1000 < d | None => True end ->
  0 < kill_after_seconds t <= 2147483 ->
  exists s',
    run (mkState t w) = Ret 137 s'
    /\ clock (os s') = clock w + duration_seconds t * 1000 + 100
    /\ process (os s') = Process (Some (clock w + duration_seconds t * 1000, 1))
    /\ trace (os s')
       = (trace (timed_out t w)
          ++ [EvWaitForSingleObject (hProcess w) (kill_after_seconds t * 1000) WAIT_FAILED;
              EvTerminateProcess (hProcess w) 1 false;
              EvCloseHandle (hProcess w) false;
              EvSleep 100])%list.
Proof.
  intros Ha Hi Hh Hv HD Hrun HK.
  rewrite (win_run_until_terminated t w own Ha Hi Hh Hv HD Hrun).
  unfold bind at 1. unfold this at 1. cbn [self].
  set (t1 := set_process_id (dwProcessId w) (set_process_handle (hProcess w) t)).
  change (kill_after_seconds t1) with (kill_after_seconds t).
  replace (kill_after_seconds t >? 0) with true
    by (symmetry; apply Z.gtb_lt; lia).
  assert (Hclosed : is_open (process_handle t1) (timed_out t w) = false).
  { apply (is_open_filtered (hProcess w)
             (mkWorld (clock w + duration_seconds t * 1000) (image w) (hProcess w)
                (hThread w) (dwProcessId w)
                (Process (Some (clock w + duration_seconds t * 1000, 1)))
                (open_handles w) (trace (timed_out t w)))). }
  assert (Hms : Cxx.in_int (kill_after_seconds t * 1000) = true)
    by (apply int_ms; lia).
  rewrite (win_bind_Ret _ _ _ _ _
             (wait_for_process_closed (kill_after_seconds t) t1 (timed_out t w)
                Hv Hclosed Hms)).
  rewrite (win_bind_Ret _ _ _ _ _
             (kill_process_closed t1 (log _ (timed_out t w)) Hv Hclosed)).
  destruct (to_DWORD_ms (kill_after_seconds t) ltac:(lia) Hms) as [-> _].
  wstep. eexists. split; [reflexivity|]. cbn [os].
  change (process_handle t1) with (hProcess w).
  repeat split; unfold timed_out; wproj; rewrite <- ?app_assoc; reflexivity.
Qed.

(** X18.  [timeout_seconds * 1000] is computed in [int]: a duration or a
    kill-after time above 2147483 seconds, which [parse_duration] accepts,
    makes the behaviour of [run] undefined. *)
Theorem windows_wait_overflow t w own :
  command_args t <> [] ->
  image w (build_command_line (command_args t) EmptyString) = Some own ->
  hProcess w <> hThread w -> hProcess w <> INVALID_HANDLE_VALUE ->
  (2147483 < duration_seconds t -> run (mkState t w) = Undefined)
  /\ (0 <= duration_seconds t <= 2147483 ->
      match own with Some (d, _) => duration_seconds t * 1000 < d | None => True end ->
      2147483 < kill_after_seconds t -> run (mkState t w) = Undefined).
Proof.
  intros Ha Hi Hh Hv. split.
  - intros HD. unfold run.
    rewrite (win_bind_Ret _ _ _ _ _ (win_start_process_ok t w _ Ha Hi Hh)). cbn [negb].
    unfold bind at 1. unfold this at 1. cbn [self]. unfold bind.
    rewrite wait_for_process_overflow; [reflexivity|exact Hv|].
    apply int_ms_overflow. exact HD.
  - intros HD Hrun HK.
    rewrite (win_run_until_terminated t w own Ha Hi Hh Hv HD Hrun).
    unfold bind at 1. unfold this at 1. cbn [self].
    cbn [kill_after_seconds set_process_id set_process_handle].
    replace (kill_after_seconds t >? 0) with true
      by (symmetry; apply Z.gtb_lt; lia).
    unfold bind. rewrite wait_for_process_overflow; [reflexivity|exact Hv|].
    apply int_ms_overflow. exact HK.
Qed.


(** [to_DWORD (n * 1000)] is a multiple of 8 and [INFINITE] is odd. *)
Lemma ms_not_INFINITE (n : Z) : (to_DWORD (n * 1000) =? INFINITE) = false.
Proof.
  apply Z.eqb_neq. unfold to_DWORD, INFINITE. intros H.
  pose proof (Z.div_mod (n * 1000) 4294967296 ltac:(lia)) as Hd.
  rewrite H in Hd. lia.
Qed.

Lemma win_wait_for_process_returns n s : wait_for_process n s <> Blocked.
Proof.
  destruct s as [t w]. unfold wait_for_process. wstep.
  destruct (process_handle t =? INVALID_HANDLE_VALUE); [discriminate|].
  destruct (Cxx.in_int (n * 1000)); cbn [negb]; [|discriminate]. wstep.
  unfold WaitForSingleObject. rewrite ms_not_INFINITE. cbn [orb].
  destruct (is_open (process_handle t) w && (process_handle t =? hProcess w));
    [|discriminate].
  destruct (process w) as [|[[e code]|]]; try discriminate.
  destruct (e <=? clock w + to_DWORD (n * 1000)); [|discriminate].
  wstep. unfold CloseHandle. destruct (is_open _ _); discriminate.
Qed.

Lemma win_start_process_returns s : exists b s', start_process s = Ret b s'.
Proof.
  destruct s as [t w]. unfold start_process. wstep.
  destruct (command_args t) as [|a l]; [eexists _, _; reflexivity|].
  unfold CreateProcess. cbn [os self].
  destruct (image w _); wstep; [|eexists _, _; reflexivity].
  unfold CloseHandle. destruct (is_open _ _); eexists _, _; reflexivity.
Qed.

Lemma win_ending_returns s :
  (exists s', terminate_process s = Ret tt s')
  /\ (exists s', kill_process s = Ret tt s').
Proof.
  destruct s as [t w]. unfold terminate_process, kill_process. split; wstep;
    (destruct (process_handle t =? INVALID_HANDLE_VALUE); cbn [negb]; wstep;
     [eexists; reflexivity|]);
    destruct (TerminateProcess (process_handle t) 1 w) as [b w1];
    unfold CloseHandle; destruct (is_open _ _); eexists; reflexivity.
Qed.

(** X19.  [run] never blocks for ever: the time limit handed to
    [WaitForSingleObject] is never [INFINITE]. *)
Theorem windows_run_never_blocks s : run s <> Blocked.
Proof.
  unfold run.
  destruct (win_start_process_returns s) as (b & s1 & Hs).
  rewrite (win_bind_Ret _ _ _ _ _ Hs).
  destruct b; cbn [negb]; [|discriminate].
  unfold bind at 1. unfold this at 1. unfold bind at 1.
  pose proof (win_wait_for_process_returns (duration_seconds (self s1)) s1) as Hw.
  destruct (wait_for_process (duration_seconds (self s1)) s1) as [f s2| |];
    [|discriminate|congruence].
  destruct f; [discriminate|].
  destruct (proj1 (win_ending_returns s2)) as (s3 & Ht).
  rewrite (win_bind_Ret _ _ _ _ _ Ht).
  unfold bind at 1. unfold this at 1.
  destruct (kill_after_seconds (self s3) >? 0); [|discriminate].
  unfold bind at 1.
  pose proof (win_wait_for_process_returns (kill_after_seconds (self s3)) s3) as Hw4.
  destruct (wait_for_process (kill_after_seconds (self s3)) s3) as [f s4| |];
    [|discriminate|congruence].
  destruct f; [discriminate|].
  destruct (proj2 (win_ending_returns s4)) as (s5 & Hk).
  rewrite (win_bind_Ret _ _ _ _ _ Hk). discriminate.
Qed.

Lemma string_append_assoc (a b c : string) : ((a ++ b) ++ c = a ++ (b ++ c))%string.
Proof. induction a as [|x a IH]; cbn; [reflexivity|]. rewrite IH. reflexivity. Qed.

Lemma build_command_line_from (args : list string) :
  forall acc, acc <> EmptyString ->
    build_command_line args acc
    = match args with
      | [] => acc
      | _ :: _ => acc ++ " " ++ String.concat " " (map (fun a => quote ++ a ++ quote) args)
      end.
Proof.
  induction args as [|a rest IH]; intros acc Hacc; [reflexivity|].
  cbn [build_command_line].
  destruct acc as [|c acc']; [congruence|]. cbn [String.length Nat.eqb negb].
  rewrite IH by discriminate.
  destruct rest as [|b rest']; cbn [map String.concat].
  - rewrite string_append_assoc. reflexivity.
  - rewrite !string_append_assoc. reflexivity.
Qed.

(** X20.  The command line handed to [CreateProcess] is the arguments,
    each between double quotes and otherwise unchanged, separated by single
    spaces. *)
Theorem build_command_line_concat (args : list string) :
  build_command_line args EmptyString
  = String.concat " " (map (fun a => quote ++ a ++ quote) args).
Proof.
  destruct args as [|a rest]; [reflexivity|].
  cbn [build_command_line String.length Nat.eqb negb]. cbn [append].
  rewrite build_command_line_from by discriminate.
  destruct rest as [|b rest']; reflexivity.
Qed.


(** X21.  When no process can be started [run] returns 125: silently
    without a command, after one line on the error stream when
    [CreateProcess] fails. *)
Theorem windows_start_failure t w :
  (command_args t = [] -> run (mkState t w) = Ret 125 (mkState t w))
  /\ (command_args t <> [] ->
      image w (build_command_line (command_args t) EmptyString) = None ->
      run (mkState t w)
      = Ret 125
          (mkState t
             (mkWorld (clock w) (image w) (hProcess w) (hThread w) (dwProcessId w)
                (process w) (open_handles w)
                (trace w
                 ++ [EvCreateProcess (build_command_line (command_args t) EmptyString)
                       false;
                     EvCerr "Error: failed to start process"])))).
Proof.
  split.
  - intros Ha. unfold run, start_process. wstep. rewrite Ha. wstep.
    destruct t; reflexivity.
  - intros Ha Hi. unfold run, start_process. wstep.
    destruct (command_args t) as [|a l]; [congruence|].
    unfold CreateProcess. cbn [os self]. rewrite Hi. wstep. wproj.
    rewrite <- app_assoc. destruct t; reflexivity.
Qed.

(** X15 at a command that exits with code 3 after 0.3 s, under a timeout of
    1 s. *)
Lemma windows_timely_exit_witness :
  0 <= 300 <= duration_seconds (example_config 1 0 false false) * 1000
  /\ exists s',
       run (mkState (example_config 1 0 false false) (example_world (Some (300, 3))))
       = Ret 0 s'
       /\ clock (os s') = 0 + 300
       /\ is_open 100 (os s') = false
       /\ trace (os s')
          = ([] ++ [EvCreateProcess (build_command_line ["cmd"] EmptyString) true;
                    EvCloseHandle 104 true;
                    EvWaitForSingleObject 100 (1 * 1000) WAIT_OBJECT_0;
                    EvGetExitCodeProcess 100;
                    EvCloseHandle 100 true])%list.
Proof.
  split; [cbn; lia|].
  apply (windows_timely_exit (example_config 1 0 false false)
           (example_world (Some (300, 3))) 300 3);
    try reflexivity; try discriminate; cbn; lia.
Defined.

(** X16 at a command that never ends, under a timeout of 1 s with [-v]. *)
Lemma windows_timeout_terminates_witness :
  exists s',
    run (mkState (example_config 1 0 false true) (example_world None))
    = Ret 124 s'
    /\ os s' = timed_out (example_config 1 0 false true) (example_world None).
Proof.
  apply (windows_timeout_terminates (example_config 1 0 false true)
           (example_world None) None);
    try reflexivity; try discriminate; try exact I; cbn; lia.
Defined.

(** X17 at a command that never ends, under [-p -v -k 2 1]. *)
Lemma windows_kill_after_skips_grace_witness :
  exists s',
    run (mkState (example_config 1 2 true true) (example_world None)) = Ret 137 s'
    /\ clock (os s') = 0 + 1 * 1000 + 100
    /\ process (os s') = Process (Some (0 + 1 * 1000, 1))
    /\ trace (os s')
       = (trace (timed_out (example_config 1 2 true true) (example_world None))
          ++ [EvWaitForSingleObject 100 (2 * 1000) WAIT_FAILED;
              EvTerminateProcess 100 1 false;
              EvCloseHandle 100 false;
              EvSleep 100])%list.
Proof.
  apply (windows_kill_after_skips_grace (example_config 1 2 true true)
           (example_world None) None);
    try reflexivity; try discriminate; try exact I; cbn; lia.
Defined.

(** X18 at a duration of 25 days. *)
Lemma windows_wait_overflow_witness :
  2147483 < duration_seconds (example_config 2160000 0 false false)
  /\ run (mkState (example_config 2160000 0 false false) (example_world None))
     = Undefined.
Proof.
  assert (H : 2147483 < duration_seconds (example_config 2160000 0 false false))
    by (cbn; lia).
  split; [exact H|].
  apply (proj1 (windows_wait_overflow (example_config 2160000 0 false false)
                  (example_world None) None
                  ltac:(discriminate) eq_refl ltac:(discriminate) ltac:(discriminate))).
  exact H.
Defined.

(** X21 at a command that [CreateProcess] cannot start. *)
Lemma windows_start_failure_witness :
  image example_world_no_start
    (build_command_line (command_args (example_config 1 0 false false)) EmptyString)
  = None
  /\ exists s',
       run (mkState (example_config 1 0 false false) example_world_no_start)
       = Ret 125 s'
       /\ trace (os s')
          = [EvCreateProcess (build_command_line ["cmd"] EmptyString) false;
             EvCerr "Error: failed to start process"].
Proof.
  split; [reflexivity|]. eexists. split.
  - apply (proj2 (windows_start_failure (example_config 1 0 false false)
                    example_world_no_start));
      [discriminate|reflexivity].
  - reflexivity.
Defined.

End WindowsBuild.

(* ================================================================== *)
(** * Concrete instances of the further properties                    *)
(* ================================================================== *)

(** X2 at [timeout -k 2 -v 5 ls -l]: the command is [ls -l], and its [-l] is
    left alone. *)
Lemma parse_args_accepts_witness :
  exists s',
    parse_args ["timeout"; "-k"; "2"; "-v"; "5"; "ls"; "-l"]
      (mkState Timeout_new (world_running stubborn)) = Ret true s'
    /\ os s' = world_running stubborn
    /\ command_args (self s') <> []
    /\ 0 <= duration_seconds (self s') <= INT_MAX
    /\ (0 <= kill_after_seconds Timeout_new <= INT_MAX ->
        0 <= kill_after_seconds (self s') <= INT_MAX)
    /\ exists opts dur cmd,
         tl ["timeout"; "-k"; "2"; "-v"; "5"; "ls"; "-l"] = (opts ++ dur :: cmd)%list
         /\ is_option dur = false
         /\ command_args (self s') = (command_args Timeout_new ++ cmd)%list.
Proof.
  destruct (parse_args ["timeout"; "-k"; "2"; "-v"; "5"; "ls"; "-l"]
              (mkState Timeout_new (world_running stubborn)))
    as [[|] s'| | | |] eqn:E; try (vm_compute in E; discriminate E).
  exists s'. split; [reflexivity|].
  exact (parse_args_accepts _ _ _ _ E).
Defined.

(** X6 at [timeout 5], where the command is missing. *)
Lemma main_rejects_with_125_witness :
  exists s1,
    parse_args ["timeout"; "5"] (mkState Timeout_new (world_running stubborn))
    = Ret false s1
    /\ exists line s',
         main 20 ["timeout"; "5"] (mkState Timeout_new (world_running stubborn))
         = Ret 125 s'
         /\ String.prefix "Error: " line = true
         /\ trace (os s')
            = (trace (world_running stubborn)
               ++ EvCerr line :: map EvCout usage_text)%list
         /\ child (os s') = child (world_running stubborn)
         /\ clock (os s') = clock (world_running stubborn).
Proof.
  destruct (parse_args ["timeout"; "5"] (mkState Timeout_new (world_running stubborn)))
    as [[|] s1| | | |] eqn:E; try (vm_compute in E; discriminate E).
  exists s1. split; [reflexivity|].
  exact (main_rejects_with_125 (P:=linux) 20 _ Timeout_new _ s1 E).
Defined.

(** X7 at [timeout -v --help 5]. *)
Lemma main_exits_only_for_help_witness :
  exists c s',
    main 20 ["timeout"; "-v"; "--help"; "5"]
      (mkState Timeout_new (world_running stubborn)) = Exit c s'
    /\ c = 0
    /\ (In "-h" (tl ["timeout"; "-v"; "--help"; "5"])
        \/ In "--help" (tl ["timeout"; "-v"; "--help"; "5"]))
    /\ trace (os s')
       = (trace (world_running stubborn) ++ map EvCout usage_text)%list
    /\ child (os s') = child (world_running stubborn).
Proof.
  destruct (main 20 ["timeout"; "-v"; "--help"; "5"]
              (mkState Timeout_new (world_running stubborn)))
    as [b s'|e s'|c s'| |] eqn:E; try (vm_compute in E; discriminate E).
  exists c, s'. split; [reflexivity|].
  exact (main_exits_only_for_help (P:=linux) 20 _ _ _ c s' E).
Defined.

(** X8 at [timeout bogus cmd]. *)
Lemma main_throws_only_from_stod_witness :
  exists e s',
    main 20 ["timeout"; "bogus"; "cmd"]
      (mkState Timeout_new (world_running stubborn)) = Throw e s'
    /\ os s' = world_running stubborn
    /\ exists arg, In arg (tl ["timeout"; "bogus"; "cmd"]) /\ stod arg = inr e.
Proof.
  destruct (main 20 ["timeout"; "bogus"; "cmd"]
              (mkState Timeout_new (world_running stubborn)))
    as [b s'|e s'|c s'| |] eqn:E; try (vm_compute in E; discriminate E).
  exists e, s'. split; [reflexivity|].
  exact (main_throws_only_from_stod (P:=linux) 20 _ _ _ e s' E).
Defined.

(** X9 at [timeout nan cmd]. *)
Lemma main_undefined_only_for_nan_witness :
  main 20 ["timeout"; "nan"; "cmd"] (mkState Timeout_new (world_running stubborn))
  = Undefined
  /\ exists arg value pos,
       In arg (tl ["timeout"; "nan"; "cmd"]) /\ stod arg = inl (value, pos)
       /\ scaled_value arg value pos = Some S754_nan.
Proof.
  assert (E : main 20 ["timeout"; "nan"; "cmd"]
                (mkState Timeout_new (world_running stubborn)) = Undefined)
    by reflexivity.
  split; [exact E|].
  exact (main_undefined_only_for_nan (P:=linux) 20 _ _ _ E).
Defined.

(** X10 at [timeout 1 cmd] on a command that never ends. *)
Lemma main_exit_codes_witness :
  exists code s',
    main 20 ["timeout"; "1"; "cmd"] (mkState Timeout_new (world_running stubborn))
    = Ret code s'
    /\ (code = 0 \/ code = 124 \/ code = 125 \/ code = 137).
Proof.
  destruct (main 20 ["timeout"; "1"; "cmd"]
              (mkState Timeout_new (world_running stubborn)))
    as [code s'|e s'|c s'| |] eqn:E; try (vm_compute in E; discriminate E).
  exists code, s'. split; [reflexivity|].
  exact (main_exit_codes (P:=linux) 20 _ _ _ code s' E).
Defined.

(** X11 at the longest duration there is, on a command that never ends. *)
Lemma main_terminates_witness :
  10 * INT_MAX < Z.of_nat (Z.to_nat 21474836471)
  /\ main (Z.to_nat 21474836471) ["timeout"; "2147483647"; "cmd"]
       (mkState Timeout_new (world_running stubborn)) <> OutOfFuel.
Proof.
  assert (H : 10 * INT_MAX < Z.of_nat (Z.to_nat 21474836471))
    by (unfold INT_MAX; lia).
  split; [exact H|].
  exact (main_terminates (P:=linux) _ _ _ _ H).
Defined.

(** X12 at ninety minutes. *)
Lemma parse_duration_whole_numbers_witness :
  0 <= 90
  /\ parse_duration "90m" (mkState Timeout_new (world_running stubborn))
     = Ret true (mkState (set_duration_seconds 5400 Timeout_new)
                   (world_running stubborn)).
Proof.
  assert (H : 0 <= 90) by lia. split; [exact H|].
  apply (proj1 (proj2 (parse_duration_whole_numbers 90
                         (mkState Timeout_new (world_running stubborn)) H))).
  unfold INT_MAX. lia.
Defined.

(** X13 at signal 9. *)
Lemma parse_signal_reads_back_witness :
  in_int 9 = true /\ parse_signal (show_int 9) = 9.
Proof.
  split; [reflexivity|]. apply (parse_signal_reads_back (P:=linux) 9). reflexivity.
Defined.

(** X4 at an escalation: [-k 1 1] on a command that ignores every signal. *)
Lemma run_exit_codes_and_signals_witness :
  exists code s',
    run 20 (mkState (config 1 1 false true) (world_running stubborn)) = Ret code s'
    /\ exists tr,
         trace (os s') = (trace (world_running stubborn) ++ tr)%list
         /\ ((code = 125 /\ filter is_action tr = []
              /\ (command_args (config 1 1 false true) = []
                  \/ fork_result (world_running stubborn) <= 0))
             \/ (command_args (config 1 1 false true) <> []
                 /\ 0 < fork_result (world_running stubborn)
                 /\ ((code = 0 /\ filter is_action tr = [])
                     \/ (code = (if preserve_status (config 1 1 false true)
                                 then 0 else 124)
                         /\ filter is_action tr = [EvKill 4242 SIGTERM])
                     \/ (code = 137
                         /\ 0 < kill_after_seconds (config 1 1 false true)
                         /\ filter is_action tr
                            = [EvKill 4242 SIGTERM; EvKill 4242 SIGKILL]
                         /\ child_running (os s') = false)))).
Proof.
  destruct (run 20 (mkState (config 1 1 false true) (world_running stubborn)))
    as [code s'| | | |] eqn:E; try (vm_compute in E; discriminate E).
  exists code, s'. split; [reflexivity|].
  exact (run_exit_codes_and_signals (P:=linux) 20 _ _ code s' E).
Defined.

(** X5 at the same escalation. *)
Lemma run_timing_witness :
  exists code s',
    run 20 (mkState (config 1 1 false true) (world_running stubborn)) = Ret code s'
    /\ exists tr,
         trace (os s') = (trace (world_running stubborn) ++ tr)%list
         /\ 0 <= clock (os s') - clock (world_running stubborn)
            <= 1000 * (Z.max 0 1 + Z.max 0 1) + 100
         /\ (filter is_action tr = [] ->
             clock (os s') - clock (world_running stubborn) <= 1000 * Z.max 0 1)
         /\ (filter is_action tr <> [] ->
             1000 * Z.max 0 1 <= clock (os s') - clock (world_running stubborn))
         /\ (code = 124 ->
             clock (os s') - clock (world_running stubborn)
             <= 1000 * (Z.max 0 1 + Z.max 0 1))
         /\ (code = 137 ->
             clock (os s') - clock (world_running stubborn)
             = 1000 * (Z.max 0 1 + Z.max 0 1) + 100).
Proof.
  destruct (run 20 (mkState (config 1 1 false true) (world_running stubborn)))
    as [code s'| | | |] eqn:E; try (vm_compute in E; discriminate E).
  exists code, s'. split; [reflexivity|].
  exact (run_timing (P:=linux) 20 _ _ code s' E).
Defined.

(** X3 at a command that exits after 0.3 s, waited for for 1 s. *)
Lemma wait_for_process_deadline_witness :
  10 * Z.max 0 1 < Z.of_nat 20
  /\ exists s',
       wait_for_process 20 1
         (mkState (set_child_pid 4242 (config 1 0 false false))
            (spawned (exits_after 300 3) (world_running (exits_after 300 3))))
       = Ret true s'
       /\ self s' = set_child_pid 4242 (config 1 0 false false)
       /\ child (os s') = Reaped
       /\ has_exited (Some (300, WExited 3)) (clock (os s')) = true
       /\ (clock (os s') = 0
           \/ has_exited (Some (300, WExited 3)) (clock (os s') - 100) = false)
       /\ 0 <= clock (os s') <= 1000.
Proof.
  split; [cbn; lia|].
  exact (wait_for_process_deadline 20 1
           (set_child_pid 4242 (config 1 0 false false))
           (spawned (exits_after 300 3) (world_running (exits_after 300 3)))
           (exits_after 300 3) (Some (300, WExited 3))
           eq_refl eq_refl ltac:(cbn; lia) ltac:(cbn; lia)).
Defined.

(** X22 at [timeout 1 cmd] on a command that never ends: 124 after one
    second, SIGTERM being the only signal. *)
Lemma main_plain_usage_witness :
  exists s' tr,
    main 20 ["timeout"; "1"; "cmd"] (mkState Timeout_new (world_running stubborn))
    = Ret 124 s'
    /\ trace (os s') = (trace (world_running stubborn) ++ tr)%list
    /\ filter is_action tr = [EvKill 4242 SIGTERM]
    /\ clock (os s') = 1000.
Proof.
  exact (main_plain_usage (P:=linux) 20 "timeout" "1" 1 ["cmd"] Timeout_new
           (world_running stubborn) stubborn
           eq_refl ltac:(vm_compute; reflexivity) ltac:(discriminate) eq_refl
           ltac:(cbn; lia) ltac:(lia)).
Defined.
